(** * Spenditure: derived financial metrics, period filters and CSV export

    A shallow embedding of the computational parts of [src/App.tsx]
    (forecast of the dashboard, salary calculator, period filters of
    the income and expense pages, CSV export of the history page) and
    the properties the specification states about them.

    JavaScript numbers are IEEE 754 binary64 values; they are modelled
    by Rocq's primitive floats, so [+], [-], [*] and [/] below are the
    operations the program runs. Strings are strings of bytes, the
    UTF-8 form of the text. *)

From Stdlib Require Import ZArith Lia Bool List String Ascii.
From Stdlib Require Import Floats DecimalString.
From Stdlib Require Import Sorted.
From stdpp Require Import base list.

Import ListNotations.
Local Open Scope Z_scope.

(* Decimal literals such as 0.004 denote the nearest double, as in JavaScript. *)
Set Warnings "-inexact-float".

(** * The platform *)

Module JS.

Local Open Scope string_scope.
Local Open Scope Z_scope.

(** ** Numbers *)

(** A JavaScript number. *)
Definition number := float.

(** The number with integer value [z], exact when [|z| <= 2^53]. *)
Definition of_Z (z : Z) : number :=
  match z with
  | Z0 => PrimFloat.zero
  | Zpos _ => PrimFloat.of_uint63 (Uint63.of_Z z)
  | Zneg _ => PrimFloat.opp (PrimFloat.of_uint63 (Uint63.of_Z (- z)))
  end.

(** The double nearest to the rational [p / q] for [0 <= p] and [0 < q],
    ties to the even significand: what reading a decimal literal does. *)
Definition nearest_ratio (p q : Z) : number :=
  if p =? 0 then PrimFloat.zero else
  let d := Z.log2 p - Z.log2 q in
  let scaled (e : Z) := if 0 <=? e then (p, q * 2 ^ e) else (p * 2 ^ (- e), q) in
  let e0 := Z.max (d - 53) (-1074) in
  let e := if 2 ^ 53 <=? fst (scaled e0) / snd (scaled e0) then e0 + 1 else e0 in
  let '(num, den) := scaled e in
  let m := num / den in
  let r := num mod den in
  let m' := if (den <? 2 * r) || ((den =? 2 * r) && Z.odd m) then m + 1 else m in
  Z.ldexp (of_Z m') e.

(** The double nearest to [m * 10 ^ e] for [0 <= m]. *)
Definition decimal_value (m e : Z) : number :=
  if 0 <=? e then nearest_ratio (m * 10 ^ e) 1 else nearest_ratio m (10 ^ (- e)).

(** Falsy numbers: [x || 0]. *)
Definition or_zero (x : number) : number :=
  if PrimFloat.is_nan x || PrimFloat.is_zero x then PrimFloat.zero else x.

(** ** [parseFloat] on strings

    [parseFloat] skips leading white space and line terminators (every
    [StrWhiteSpaceChar]), reads the longest prefix
    that is a decimal literal (optional sign, [Infinity] or digits with
    an optional fraction and an optional exponent) and returns the
    nearest double, or [NaN] when there is no such prefix. *)

(** The white space and the line terminators of one byte: TAB, LF, VT,
    FF, CR and SP. *)
Definition is_white_space (c : ascii) : bool :=
  let n := Z.of_nat (nat_of_ascii c) in
  ((9 <=? n) && (n <=? 13)) || (n =? 32).

(** Those of two bytes: U+00A0. *)
Definition is_white_space2 (c1 c2 : ascii) : bool :=
  let n1 := Z.of_nat (nat_of_ascii c1) in
  let n2 := Z.of_nat (nat_of_ascii c2) in
  (n1 =? 194) && (n2 =? 160).

(** Those of three bytes: U+1680, U+2000 to U+200A, U+2028, U+2029,
    U+202F, U+205F, U+3000 and U+FEFF. *)
Definition is_white_space3 (c1 c2 c3 : ascii) : bool :=
  let n1 := Z.of_nat (nat_of_ascii c1) in
  let n2 := Z.of_nat (nat_of_ascii c2) in
  let n3 := Z.of_nat (nat_of_ascii c3) in
  ((n1 =? 225) && (n2 =? 154) && (n3 =? 128))
  || ((n1 =? 226) && (n2 =? 128)
      && (((128 <=? n3) && (n3 <=? 138)) || (n3 =? 168) || (n3 =? 169) || (n3 =? 175)))
  || ((n1 =? 226) && (n2 =? 129) && (n3 =? 159))
  || ((n1 =? 227) && (n2 =? 128) && (n3 =? 128))
  || ((n1 =? 239) && (n2 =? 187) && (n3 =? 191)).

Fixpoint skip_white_space (s : string) : string :=
  match s with
  | String c1 r1 =>
      if is_white_space c1 then skip_white_space r1
      else
        match r1 with
        | String c2 r2 =>
            if is_white_space2 c1 c2 then skip_white_space r2
            else
              match r2 with
              | String c3 r3 =>
                  if is_white_space3 c1 c2 c3 then skip_white_space r3 else s
              | EmptyString => s
              end
        | EmptyString => s
        end
  | EmptyString => s
  end.

Definition digit_of (c : ascii) : option Z :=
  let n := Z.of_nat (nat_of_ascii c) in
  if (48 <=? n) && (n <=? 57) then Some (n - 48) else None.

(** Reads a run of digits on top of the value [acc]; returns the value,
    the number of digits read and the rest of the string. *)
Fixpoint read_digits (s : string) (acc cnt : Z) : Z * Z * string :=
  match s with
  | String c r =>
      match digit_of c with
      | Some d => read_digits r (10 * acc + d) (cnt + 1)
      | None => (acc, cnt, s)
      end
  | EmptyString => (acc, cnt, s)
  end.

(** The exponent part [e], [e+] or [e-] followed by at least one digit;
    0 when the string does not start with one. *)
Definition read_exponent (s : string) : Z :=
  match s with
  | String c r =>
      if (c =? "e")%char || (c =? "E")%char then
        let '(neg, r') :=
          match r with
          | String "-"%char r' => (true, r')
          | String "+"%char r' => (false, r')
          | _ => (false, r)
          end in
        let '(v, cnt, _) := read_digits r' 0 0 in
        if cnt =? 0 then 0 else if neg then - v else v
      else 0
  | EmptyString => 0
  end.

Definition parse_unsigned (s : string) : number :=
  if String.prefix "Infinity" s then PrimFloat.infinity else
  let '(m1, c1, r1) := read_digits s 0 0 in
  let '(m2, c2, r2) :=
    match r1 with
    | String "."%char r => read_digits r m1 0
    | _ => (m1, 0, r1)
    end in
  if c1 + c2 =? 0 then PrimFloat.nan
  else decimal_value m2 (read_exponent r2 - c2).

Definition parseFloat (s : string) : number :=
  match skip_white_space s with
  | String "-"%char r => PrimFloat.opp (parse_unsigned r)
  | String "+"%char r => parse_unsigned r
  | r => parse_unsigned r
  end.

(** ** Numbers to strings *)

(** The decimal digits of [0 <= n]. *)
Definition digits_of (n : Z) : string :=
  NilZero.string_of_uint (N.to_uint (Z.to_N n)).

(** ** [Number::toString]

    The digits are the shortest decimal [s * 10 ^ (n - k)], with [k]
    digits, that reads back as the number. *)

(** The rational [p / q] scaled by [10 ^ e]. *)
Definition scale10 (p q e : Z) : Z * Z :=
  if 0 <=? e then (p * 10 ^ e, q) else (p, q * 10 ^ (- e)).

(** The [n] with [10 ^ (n - 1) <= p / q < 10 ^ n], for [0 < p] and [0 < q]. *)
Definition decimal_exponent (p q : Z) : Z :=
  let below (n : Z) := let '(a, b) := scale10 p q (- n) in a <? b in
  let n0 := (Z.log2 p - Z.log2 q) * 30103 / 100000 in
  let n1 := if below n0 then n0 else if below (n0 + 1) then n0 + 1 else n0 + 2 in
  if below (n1 - 1) then n1 - 1 else n1.

(** The candidates with [k] digits for [p / q] whose exponent is [n]:
    the nearest integer to [p / q * 10 ^ (k - n)] first, then the
    integer on its other side. *)
Definition candidates (p q n k : Z) : list (Z * Z) :=
  let '(a, b) := scale10 p q (k - n) in
  let lo := a / b in
  let r := a mod b in
  let norm (s : Z) := if s =? 10 ^ k then (10 ^ (k - 1), n + 1) else (s, n) in
  if r =? 0 then [norm lo]
  else if (2 * r <? b) || ((2 * r =? b) && Z.even lo) then [norm lo; norm (lo + 1)]
  else [norm (lo + 1); norm lo].

Definition reads_back (x : number) (c : Z * Z) (k : Z) : bool :=
  let '(s, n) := c in
  (0 <? s) && PrimFloat.eqb (decimal_value s (n - k)) x.

(** The digits [s], their number [k] and the exponent [n] of a
    positive finite [x = m * 2 ^ e]. *)
Definition shortest_digits (x : number) (m e : Z) : Z * Z * Z :=
  let '(p, q) := if 0 <=? e then (m * 2 ^ e, 1) else (m, 2 ^ (- e)) in
  let n := decimal_exponent p q in
  let try (k : Z) (found : option (Z * Z * Z)) :=
    match found with
    | Some _ => found
    | None =>
        match List.filter (fun c => reads_back x c k) (candidates p q n k) with
        | (s, n') :: _ => Some (s, k, n')
        | [] => None
        end
    end in
  match fold_left (fun found k => try k found)
          [1; 2; 3; 4; 5; 6; 7; 8; 9; 10; 11; 12; 13; 14; 15; 16; 17] None with
  | Some r => r
  | None => (0, 1, 1)
  end.

Fixpoint zeros (n : nat) : string :=
  match n with O => "" | S k => "0" ++ zeros k end.

Definition format_digits (s k n : Z) : string :=
  let ds := digits_of s in
  if (k <=? n) && (n <=? 21) then ds ++ zeros (Z.to_nat (n - k))
  else if (0 <? n) && (n <=? 21) then
    substring 0 (Z.to_nat n) ds ++ "." ++ substring (Z.to_nat n) (Z.to_nat (k - n)) ds
  else if (-6 <? n) && (n <=? 0) then "0." ++ zeros (Z.to_nat (- n)) ++ ds
  else
    let exponent := (if 0 <=? n - 1 then "+" else "-") ++ digits_of (Z.abs (n - 1)) in
    if k =? 1 then ds ++ "e" ++ exponent
    else substring 0 1 ds ++ "." ++ substring 1 (Z.to_nat (k - 1)) ds ++ "e" ++ exponent.

Definition Number_toString (x : number) : string :=
  match Prim2SF x with
  | S754_nan => "NaN"
  | S754_zero _ => "0"
  | S754_infinity neg => if neg then "-Infinity" else "Infinity"
  | S754_finite neg m e =>
      let '(s, k, n) := shortest_digits (PrimFloat.abs x) (Zpos m) e in
      (if neg then "-" else "") ++ format_digits s k n
  end.

(** ** [Number.prototype.toFixed] with two fraction digits *)

(** The integer [n] for which [n / 100] is nearest to [m * 2 ^ e], the
    larger one on a tie ([0 < m]). *)
Definition hundredths (m e : Z) : Z :=
  if 0 <=? e then 100 * m * 2 ^ e
  else (200 * m + 2 ^ (- e)) / 2 ^ (1 - e).

Definition two_digits (n : Z) : string :=
  if n <? 10 then "0" ++ digits_of n else digits_of n.

(** [x.toFixed(2)]. From [10^21] on, and for [NaN] and the infinities,
    it is the string of [x]. Below, the sign is the sign of [x], so a
    small negative [x] gives -0.00 and the negative zero gives 0.00. *)
Definition toFixed2 (x : number) : string :=
  match Prim2SF x with
  | S754_finite neg m e =>
      if PrimFloat.leb 1e21%float (PrimFloat.abs x) then Number_toString x
      else
        let n := hundredths (Zpos m) e in
        (if neg then "-" else "") ++ digits_of (n / 100) ++ "." ++ two_digits (n mod 100)
  | S754_zero _ => "0.00"
  | _ => Number_toString x
  end.

(** [parseFloat(x.toFixed(2))] *)
Definition parseFloat_toFixed2 (x : number) : number := parseFloat (toFixed2 x).

(** ** Values read from forms and documents

    A field typed [string | number]; [VUndefined] is a field the
    document does not have. *)

Inductive value :=
  | VNum (x : number)
  | VStr (s : string)
  | VUndefined.

(** [String(v)] *)
Definition ToString (v : value) : string :=
  match v with
  | VNum x => Number_toString x
  | VStr s => s
  | VUndefined => "undefined"
  end.

(** [parseFloat(String(v))] *)
Definition parseFloat_String (v : value) : number := parseFloat (ToString v).

(** [v || 0] on a field: the empty string, zero, [NaN] and a missing
    field are falsy. *)
Definition value_or_zero (v : value) : value :=
  match v with
  | VNum x => if PrimFloat.is_nan x || PrimFloat.is_zero x then VNum 0%float else v
  | VStr s => if (s =? "")%string then VNum 0%float else v
  | VUndefined => VNum 0%float
  end.

(** ** Dates

    A time value counts milliseconds from 1970-01-01T00:00 UTC. The
    definitions follow ECMA-262 (Day, DayFromYear, YearFromTime,
    MonthFromTime, DateFromTime, WeekDay, MakeDay, MakeDate, TimeClip,
    LocalTime, UTC). The local time zone gives the offset from UTC, in
    milliseconds, that is in force at each instant. *)

Definition msPerDay : Z := 86400000.
Definition maxTime : Z := 8640000000000000.

Definition Day (t : Z) : Z := t / msPerDay.
Definition TimeWithinDay (t : Z) : Z := t mod msPerDay.

Definition DayFromYear (y : Z) : Z :=
  365 * (y - 1970) + (y - 1969) / 4 - (y - 1901) / 100 + (y - 1601) / 400.

Definition isLeapYear (y : Z) : bool :=
  (y mod 4 =? 0) && (negb (y mod 100 =? 0) || (y mod 400 =? 0)).

(** The year that contains day [d]: the estimate from the mean year
    length is off by at most one. *)
Definition YearFromDay (d : Z) : Z :=
  let y := 1970 + d * 400 / 146097 in
  if d <? DayFromYear y then y - 1
  else if DayFromYear (y + 1) <=? d then y + 1
  else y.

(** The number of days of the year before month [m] (0 is January). *)
Definition monthStart (leap : bool) (m : Z) : Z :=
  let l := if leap then 1 else 0 in
  match m with
  | 0 => 0
  | 1 => 31
  | 2 => 59 + l
  | 3 => 90 + l
  | 4 => 120 + l
  | 5 => 151 + l
  | 6 => 181 + l
  | 7 => 212 + l
  | 8 => 243 + l
  | 9 => 273 + l
  | 10 => 304 + l
  | 11 => 334 + l
  | _ => 365 + l
  end.

Definition YearFromTime (t : Z) : Z := YearFromDay (Day t).
Definition InLeapYear (t : Z) : bool := isLeapYear (YearFromTime t).
Definition DayWithinYear (t : Z) : Z := Day t - DayFromYear (YearFromTime t).

Definition MonthFromTime (t : Z) : Z :=
  let d := DayWithinYear t in
  let l := if InLeapYear t then 1 else 0 in
  if d <? 31 then 0
  else if d <? 59 + l then 1
  else if d <? 90 + l then 2
  else if d <? 120 + l then 3
  else if d <? 151 + l then 4
  else if d <? 181 + l then 5
  else if d <? 212 + l then 6
  else if d <? 243 + l then 7
  else if d <? 273 + l then 8
  else if d <? 304 + l then 9
  else if d <? 334 + l then 10
  else 11.

Definition DateFromTime (t : Z) : Z :=
  DayWithinYear t - monthStart (InLeapYear t) (MonthFromTime t) + 1.

(** 0 is Sunday; 1970-01-01 was a Thursday. *)
Definition WeekDay (t : Z) : Z := (Day t + 4) mod 7.

Definition MakeDay (year month date : Z) : Z :=
  let ym := year + month / 12 in
  let mn := month mod 12 in
  DayFromYear ym + monthStart (isLeapYear ym) mn + date - 1.

Definition MakeDate (day time : Z) : Z := day * msPerDay + time.

(** An integer or [NaN]. *)
Definition integer := option Z.

Definition TimeClip (t : Z) : integer :=
  if Z.abs t <=? maxTime then Some t else None.

(** A [Date] object holds a time value, or [NaN] when it is invalid. *)
Definition Date := integer.

Definition int_add (a b : integer) : integer :=
  match a, b with Some x, Some y => Some (x + y) | _, _ => None end.

Definition int_sub (a b : integer) : integer :=
  match a, b with Some x, Some y => Some (x - y) | _, _ => None end.

(** [a === b] on numbers: [NaN] differs from everything. *)
Definition int_eq (a b : integer) : bool :=
  match a, b with Some x, Some y => x =? y | _, _ => false end.

(** [a >= b] and [a < b] on dates compare the time values; a comparison
    with [NaN] is false. *)
Definition date_ge (a b : Date) : bool :=
  match a, b with Some x, Some y => y <=? x | _, _ => false end.

Definition date_lt (a b : Date) : bool :=
  match a, b with Some x, Some y => x <? y | _, _ => false end.

(** A time zone: the offset from UTC in force before its first
    transition, and its transitions in the order of time, each the
    instant from which another offset is in force (the start and the
    end of daylight saving time, a change of the standard time). *)
Record TimeZone := {
  initialOffset : Z;
  transitions : list (Z * Z)
}.

(** A zone that keeps one offset from UTC at all times. *)
Definition fixedOffset (tza : Z) : TimeZone :=
  {| initialOffset := tza; transitions := [] |}.

(** The offset in force at the instant [t], where [offset] is in force
    up to the first of the transitions [trs]. *)
Fixpoint offsetFrom (offset : Z) (trs : list (Z * Z)) (t : Z) : Z :=
  match trs with
  | [] => offset
  | (start, offset') :: trs' =>
      if t <? start then offset else offsetFrom offset' trs' t
  end.

(** The offset by which the local time [tlocal] is read. A local time
    that comes twice, where the clocks are set back, and one that is
    skipped, where they are set forward, are read with the offset in
    force before the transition. *)
Fixpoint localOffsetFrom (offset : Z) (trs : list (Z * Z)) (tlocal : Z) : Z :=
  match trs with
  | [] => offset
  | (start, offset') :: trs' =>
      if tlocal - offset <? start then offset
      else if tlocal - offset' <? start then offset
      else localOffsetFrom offset' trs' tlocal
  end.

Section LocalTime.

Variable tz : TimeZone.

(** [LocalTZA(t, isUTC)] *)
Definition LocalTZA (t : Z) (isUTC : bool) : Z :=
  if isUTC then offsetFrom (initialOffset tz) (transitions tz) t
  else localOffsetFrom (initialOffset tz) (transitions tz) t.

Definition LocalTime (t : Z) : Z := t + LocalTZA t true.
Definition UTC (t : Z) : Z := t - LocalTZA t false.

Definition getFullYear (d : Date) : integer :=
  option_map (fun t => YearFromTime (LocalTime t)) d.
Definition getMonth (d : Date) : integer :=
  option_map (fun t => MonthFromTime (LocalTime t)) d.
Definition getDate (d : Date) : integer :=
  option_map (fun t => DateFromTime (LocalTime t)) d.
Definition getDay (d : Date) : integer :=
  option_map (fun t => WeekDay (LocalTime t)) d.

(** [new Date(year, month, date)]: local midnight of that calendar
    day. A [date] outside the month carries into the neighbouring
    months, and a year from 0 to 99 stands for 1900 to 1999. *)
Definition new_Date (year month date : integer) : Date :=
  match year, month, date with
  | Some y, Some m, Some dt =>
      let yr := if (0 <=? y) && (y <=? 99) then 1900 + y else y in
      TimeClip (UTC (MakeDate (MakeDay yr m dt) 0))
  | _, _, _ => None
  end.

End LocalTime.

(** [d.toLocaleDateString()] where the locale of the browser is
    en-US: month, day and year, for a date of the common era. The
    program takes the rendering of the browser, whatever its locale. *)
Definition toLocaleDateString_enUS (tz : TimeZone) (d : Date) : string :=
  match d with
  | None => "Invalid Date"
  | Some t =>
      let lt := LocalTime tz t in
      digits_of (MonthFromTime lt + 1) ++ "/" ++ digits_of (DateFromTime lt)
      ++ "/" ++ digits_of (YearFromTime lt)
  end.

(** [d.setHours(0, 0, 0, 0)]: local midnight of the day of [d]. *)
Definition setHours0 (tz : TimeZone) (d : Date) : Date :=
  match d with
  | Some t => TimeClip (UTC tz (MakeDate (Day (LocalTime tz t)) 0))
  | None => None
  end.

(** The number of days of month [m] (0 is January) of year [y]. *)
Definition DaysInMonth (y m : Z) : Z :=
  monthStart (isLeapYear y) (m + 1) - monthStart (isLeapYear y) m.

(** The year, month and day of a date-only string [YYYY-MM-DD], the
    form a date input gives. *)
Definition parseDateOnly (s : string) : option (Z * Z * Z) :=
  match s with
  | String y1 (String y2 (String y3 (String y4 (String "-"%char
      (String m1 (String m2 (String "-"%char
        (String d1 (String d2 EmptyString))))))))) =>
      match digit_of y1, digit_of y2, digit_of y3, digit_of y4,
            digit_of m1, digit_of m2, digit_of d1, digit_of d2 with
      | Some a, Some b, Some c, Some d, Some e, Some f, Some g, Some h =>
          Some (1000 * a + 100 * b + 10 * c + d, 10 * e + f, 10 * g + h)
      | _, _, _, _, _, _, _, _ => None
      end
  | _ => None
  end.

(** [new Date(s)] on a string. A date-only string of a day of the
    calendar is midnight UTC of that day; what any other string gives
    is left to the browser, as [other]. *)
Definition new_Date_string (other : string -> Date) (s : string) : Date :=
  match parseDateOnly s with
  | Some (y, m, d) =>
      if (1 <=? m) && (m <=? 12) && (1 <=? d) && (d <=? DaysInMonth y (m - 1))
      then TimeClip (MakeDate (MakeDay y (m - 1) d) 0)
      else other s
  | None => other s
  end.

(** [isNaN(x)] *)
Definition isNaN (x : number) : bool := PrimFloat.is_nan x.

(** [s.slice(start, end)] for [0 <= start <= end]. *)
Definition slice (s : string) (start stop : nat) : string :=
  substring start (stop - start) s.

(** [s.slice(-n)] for [0 < n]: the last [n] characters. *)
Definition slice_last (s : string) (n : nat) : string :=
  substring (String.length s - n) n s.


(** [v.toString()]: a method call, which throws a [TypeError] on
    [undefined] ([None]). *)
Definition toString_method (v : value) : option string :=
  match v with
  | VNum x => Some (Number_toString x)
  | VStr s => Some s
  | VUndefined => None
  end.

(** The character of a decimal digit. *)
Definition digit_char (d : Z) : ascii := ascii_of_nat (48 + Z.to_nat d).

(** A number written with two, four and six digits. *)
Definition pad2 (n : Z) : string :=
  String (digit_char (n / 10 mod 10)) (String (digit_char (n mod 10)) EmptyString).

Definition pad4 (n : Z) : string := pad2 (n / 100) ++ pad2 n.

Definition pad6 (n : Z) : string := pad2 (n / 10000) ++ pad4 n.

(** The date part of [toISOString] at the time value [t], what
    [split('T')[0]] keeps: the UTC year, month and day; a year outside
    0..9999 is written with a sign and six digits. *)
Definition isoDate (t : Z) : string :=
  let y := YearFromTime t in
  let year :=
    if (0 <=? y) && (y <=? 9999) then pad4 y
    else (if 0 <=? y then "+" else "-") ++ pad6 (Z.abs y) in
  year ++ "-" ++ pad2 (MonthFromTime t + 1) ++ "-" ++ pad2 (DateFromTime t).

(** [d.toISOString().split('T')[0]]; [toISOString] throws a
    [RangeError] on an invalid date ([None]). *)
Definition toISOString_date (d : Date) : option string :=
  match d with
  | Some t => Some (isoDate t)
  | None => None
  end.

(** [v || ''] on a field. *)
Definition value_or_empty (v : value) : value :=
  match v with
  | VNum x => if PrimFloat.is_nan x || PrimFloat.is_zero x then VStr "" else v
  | VStr s => if (s =? "")%string then VStr "" else v
  | VUndefined => VStr ""
  end.

(** [s || d] on a string. *)
Definition string_or (s d : string) : string :=
  if (s =? "")%string then d else s.

(** [l.sort(comparefn)] for a comparison function that orders the
    elements consistently, as one that subtracts two keys does: the
    sort is stable, so the result is the one of sorting by insertion,
    where an element passes those that go strictly before it. *)
Fixpoint sort_insert {A : Type} (comparefn : A -> A -> Z) (x : A) (l : list A) : list A :=
  match l with
  | [] => [x]
  | y :: r => if 0 <? comparefn x y then y :: sort_insert comparefn x r else x :: l
  end.

Definition Array_sort {A : Type} (comparefn : A -> A -> Z) (l : list A) : list A :=
  fold_right (sort_insert comparefn) [] l.

End JS.

Import JS.

Local Open Scope string_scope.

(** * The program *)

(** [parseFloat(String(v)) || 0], the way every amount is read. *)
Definition parsedOrZero (v : value) : number := or_zero (parseFloat_String v).

(** ** Dashboard: the balance forecast ([src/App.tsx], [Dashboard]) *)

Module Dashboard.

Record ForecastPoint := { name : string; Balance : number }.

(** One turn of the loop [for (let i = 1; i <= 6; i++)]: the state is
    [currentProjectedBalance] and [forecastData]. *)
Definition forecastStep (monthlyNetCashFlow : number)
    (st : number * list ForecastPoint) (i : Z) : number * list ForecastPoint :=
  let '(currentProjectedBalance, forecastData) := st in
  let currentProjectedBalance := (currentProjectedBalance + monthlyNetCashFlow)%float in
  (currentProjectedBalance,
   (forecastData ++ [ {| name := "Month " ++ digits_of i;
                         Balance := parseFloat_toFixed2 currentProjectedBalance |} ])%list).

Definition forecastData (totalBankBalance monthlyNetCashFlow : number) : list ForecastPoint :=
  let forecastData := [] in
  let currentProjectedBalance := totalBankBalance in
  let forecastData :=
    (forecastData ++ [ {| name := "Current";
                          Balance := parseFloat_toFixed2 totalBankBalance |} ])%list in
  snd (fold_left (forecastStep monthlyNetCashFlow) [1; 2; 3; 4; 5; 6]
         (currentProjectedBalance, forecastData)).

(** The values the chart plots. *)
Definition forecast (totalBankBalance monthlyNetCashFlow : number) : list number :=
  map Balance (forecastData totalBankBalance monthlyNetCashFlow).

End Dashboard.

(** ** Salary page: the salary calculator ([src/App.tsx], [calculateSalary]) *)

Module Salary.

(** The three figures the page shows, held in component state. *)
Record State := {
  monthlyIncome : number;
  dailyIncome : number;
  totalDeductions : number
}.

Definition setMonthlyIncome (x : number) (st : State) : State :=
  {| monthlyIncome := x;
     dailyIncome := dailyIncome st;
     totalDeductions := totalDeductions st |}.

Definition setDailyIncome (x : number) (st : State) : State :=
  {| monthlyIncome := monthlyIncome st;
     dailyIncome := x;
     totalDeductions := totalDeductions st |}.

Definition setTotalDeductions (x : number) (st : State) : State :=
  {| monthlyIncome := monthlyIncome st;
     dailyIncome := dailyIncome st;
     totalDeductions := x |}.

(** The [switch] on the pay frequency. *)
Definition calculatedMonthlyIncome (parsedSalary : number) (currentFrequency : string) : number :=
  if currentFrequency =? "Weekly" then (parsedSalary * (365 / 7 / 12))%float
  else if currentFrequency =? "Fortnightly" then (parsedSalary * (365 / 14 / 12))%float
  else parsedSalary.

Definition workdaysInMonth (currentDayOffInMonth : string) : number :=
  let workdaysInMonth := 22%float in
  if currentDayOffInMonth =? "1" then 26%float
  else if currentDayOffInMonth =? "2" then 22%float
  else workdaysInMonth.

Definition calculateSalary
    (currentSalary : value) (currentFrequency : string) (currentDayOffInMonth : string)
    (currentSss currentPhilhealth currentPagibig currentTax currentLoans
       currentVoluntary : value)
    (st : State) : State :=
  let parsedSalary := parsedOrZero currentSalary in
  let parsedSss := parsedOrZero currentSss in
  let parsedPhilhealth := parsedOrZero currentPhilhealth in
  let parsedPagibig := parsedOrZero currentPagibig in
  let parsedTax := parsedOrZero currentTax in
  let parsedLoans := parsedOrZero currentLoans in
  let parsedVoluntary := parsedOrZero currentVoluntary in
  let calculatedMonthlyIncome := calculatedMonthlyIncome parsedSalary currentFrequency in
  let st := setMonthlyIncome calculatedMonthlyIncome st in
  let workdaysInMonth := workdaysInMonth currentDayOffInMonth in
  let calculatedDailyIncome :=
    if (0 <? workdaysInMonth)%float
    then (calculatedMonthlyIncome / workdaysInMonth)%float
    else 0%float in
  let st := setDailyIncome calculatedDailyIncome st in
  let calculatedTotalDeductions :=
    (parsedSss + parsedPhilhealth + parsedPagibig + parsedTax + parsedLoans
     + parsedVoluntary)%float in
  setTotalDeductions calculatedTotalDeductions st.

(** The state of the page before any calculation. *)
Definition initial : State :=
  {| monthlyIncome := 0%float; dailyIncome := 0%float; totalDeductions := 0%float |}.

End Salary.

(** ** Date fields of documents *)

(** A date field of a document: a [Date], a Firestore [Timestamp]
    (given by the [Date] its [toDate()] returns), or nothing. *)
Inductive DateField :=
  | IsDate (d : Date)
  | IsTimestamp (toDate : Date)
  | NoDate.

(** [x instanceof Timestamp ? x.toDate() : (x as Date)]; [None] is a
    null or undefined field. *)
Definition asDate (x : DateField) : option Date :=
  match x with
  | IsTimestamp toDate => Some toDate
  | IsDate d => Some d
  | NoDate => None
  end.

(** ** The salary document *)

Record SalaryDetails := {
  salary : value;
  frequency : string;
  paydaySpecific : string;
  dayOffInMonth : string;
  sss : value;
  philhealth : value;
  pagibig : value;
  tax : value;
  loans : value;
  voluntary : value;
  lastUpdated : DateField
}.

(** ** App: the figures shared with every page ([src/App.tsx], [App]) *)

Module App.

Record State := {
  totalBankBalance : number;
  totalIncome : number;
  totalExpenses : number;
  salaryDetails : option SalaryDetails;
  upcomingIncome : number;
  monthlyNetCashFlow : number
}.

Definition setSalaryDetails (x : option SalaryDetails) (st : State) : State :=
  {| totalBankBalance := totalBankBalance st;
     totalIncome := totalIncome st;
     totalExpenses := totalExpenses st;
     salaryDetails := x;
     upcomingIncome := upcomingIncome st;
     monthlyNetCashFlow := monthlyNetCashFlow st |}.

Definition setMonthlyNetCashFlow (x : number) (st : State) : State :=
  {| totalBankBalance := totalBankBalance st;
     totalIncome := totalIncome st;
     totalExpenses := totalExpenses st;
     salaryDetails := salaryDetails st;
     upcomingIncome := upcomingIncome st;
     monthlyNetCashFlow := x |}.

(** The listener on the salary document; [docSnap] is [None] when the
    document does not exist. *)
Definition onSalarySnapshot (docSnap : option SalaryDetails) (st : State) : State :=
  match docSnap with
  | Some data =>
      let st := setSalaryDetails (Some data) st in
      let grossSalary := or_zero (parseFloat_String (salary data)) in
      let sss := or_zero (parseFloat_String (sss data)) in
      let philhealth := or_zero (parseFloat_String (philhealth data)) in
      let pagibig := or_zero (parseFloat_String (pagibig data)) in
      let tax := or_zero (parseFloat_String (tax data)) in
      let loans := or_zero (parseFloat_String (loans data)) in
      let voluntary := or_zero (parseFloat_String (voluntary data)) in
      let estimatedMonthlyGross :=
        if frequency data =? "Weekly" then (grossSalary * (365 / 7 / 12))%float
        else if frequency data =? "Fortnightly" then (grossSalary * (365 / 14 / 12))%float
        else grossSalary in
      let totalFixedDeductions :=
        (sss + philhealth + pagibig + tax + loans + voluntary)%float in
      let estimatedMonthlyNetSalary :=
        (estimatedMonthlyGross - totalFixedDeductions)%float in
      setMonthlyNetCashFlow estimatedMonthlyNetSalary st
  | None =>
      let st := setSalaryDetails None st in
      setMonthlyNetCashFlow 0%float st
  end.

End App.

(** ** Income and expense entries *)

Record IncomeEntry := {
  income_id : string;
  businessName : string;
  industry : string;
  incomeAmount : value;
  incomeDate : DateField;
  income_createdAt : DateField
}.

Record ExpenseEntry := {
  expense_id : string;
  expense_name : string;
  category : string;
  expenseAmount : value;
  expenseDate : DateField;
  expense_createdAt : DateField
}.

(** ** Period filter of the income and expense pages

    The two pages run the same effect, on [incomeDate]/[incomeAmount]
    and on [expenseDate]/[expenseAmount]; it is written once here over
    the two field accessors. [now] is the [new Date()] the effect
    starts with. *)

Section PeriodFilter.

Context {Entry : Type}.
Variable dateOf : Entry -> DateField.
Variable amountOf : Entry -> value.
Variable tz : TimeZone.
Variable now : Date.

Definition inDay (entry : Entry) : bool :=
  match asDate (dateOf entry) with
  | None => false
  | Some entryDate =>
      int_eq (getDate tz entryDate) (getDate tz now)
      && int_eq (getMonth tz entryDate) (getMonth tz now)
      && int_eq (getFullYear tz entryDate) (getFullYear tz now)
  end.

Definition startOfWeek : Date :=
  new_Date tz (getFullYear tz now) (getMonth tz now)
    (int_sub (getDate tz now) (getDay tz now)).

Definition endOfWeek : Date :=
  new_Date tz (getFullYear tz now) (getMonth tz now)
    (int_add (int_add (getDate tz now) (int_sub (Some 6) (getDay tz now))) (Some 1)).

Definition inWeek (entry : Entry) : bool :=
  match asDate (dateOf entry) with
  | None => false
  | Some entryDate => date_ge entryDate startOfWeek && date_lt entryDate endOfWeek
  end.

Definition inMonth (entry : Entry) : bool :=
  match asDate (dateOf entry) with
  | None => false
  | Some entryDate =>
      int_eq (getMonth tz entryDate) (getMonth tz now)
      && int_eq (getFullYear tz entryDate) (getFullYear tz now)
  end.

Definition inYear (entry : Entry) : bool :=
  match asDate (dateOf entry) with
  | None => false
  | Some entryDate => int_eq (getFullYear tz entryDate) (getFullYear tz now)
  end.

Definition filtered (filterPeriod : string) (entries : list Entry) : list Entry :=
  if filterPeriod =? "day" then List.filter inDay entries
  else if filterPeriod =? "week" then List.filter inWeek entries
  else if filterPeriod =? "month" then List.filter inMonth entries
  else if filterPeriod =? "year" then List.filter inYear entries
  else if filterPeriod =? "all" then entries
  else entries.

(** [filtered.reduce((sum, entry) => sum + (parseFloat(String(amount)) || 0), 0)] *)
Definition total (filtered : list Entry) : number :=
  fold_left
    (fun sum entry => (sum + or_zero (parseFloat_String (amountOf entry)))%float)
    filtered 0%float.

(** The effect: the list and the total it stores in the page state. *)
Definition filterEffect (filterPeriod : string) (entries : list Entry)
    : list Entry * number :=
  let filtered := filtered filterPeriod entries in
  (filtered, total filtered).

End PeriodFilter.

Module Incomes.
Definition filterEffect := filterEffect incomeDate incomeAmount.
End Incomes.

Module Expenses.
Definition filterEffect := filterEffect expenseDate expenseAmount.
End Expenses.

(** ** History page: CSV export ([src/App.tsx], [convertToCSV] and
    [handleDownloadCSV]) *)

Definition nl : string := String (ascii_of_nat 10) EmptyString.
Definition dquote : ascii := ascii_of_nat 34.

(** The [replace] of [quoteField]: every double quote is written twice. *)
Fixpoint doubleQuotes (s : string) : string :=
  match s with
  | EmptyString => EmptyString
  | String c r =>
      if (c =? dquote)%char then String dquote (String dquote (doubleQuotes r))
      else String c (doubleQuotes r)
  end.

Section History.

(** [d.toLocaleDateString()] is left to the browser and its locale. *)
Variable toLocaleDateString : Date -> string.

(** [s || ''] on a string. *)
Definition or_empty (s : string) : string :=
  if s =? "" then "" else s.

(** The date cell: the local short date of a [Date] or [Timestamp],
    empty otherwise. *)
Definition dateCell (x : DateField) : value :=
  match x with
  | IsTimestamp toDate => VStr (toLocaleDateString toDate)
  | IsDate d => VStr (toLocaleDateString d)
  | NoDate => VStr ""
  end.

(** The cell of a field: [String(field)] with its double quotes
    doubled, between two double quotes. *)
Definition quoteField (field : value) : string :=
  String dquote (doubleQuotes (ToString field) ++ String dquote EmptyString).

Definition csvLine (row : list value) : string :=
  String.concat "," (map quoteField row).

Definition expenseRow (item : ExpenseEntry) : list value :=
  [ VStr (expense_id item);
    VStr (expense_name item);
    VStr (category item);
    expenseAmount item;
    dateCell (expenseDate item);
    dateCell (expense_createdAt item) ].

Definition incomeRow (item : IncomeEntry) : list value :=
  [ VStr (income_id item);
    VStr (businessName item);
    VStr (industry item);
    incomeAmount item;
    dateCell (incomeDate item);
    dateCell (income_createdAt item) ].

Definition salaryRow (salaryData : SalaryDetails) : list value :=
  [ value_or_zero (salary salaryData);
    VStr (or_empty (frequency salaryData));
    VStr (or_empty (paydaySpecific salaryData));
    VStr (or_empty (dayOffInMonth salaryData));
    value_or_zero (sss salaryData);
    value_or_zero (philhealth salaryData);
    value_or_zero (pagibig salaryData);
    value_or_zero (tax salaryData);
    value_or_zero (loans salaryData);
    value_or_zero (voluntary salaryData);
    dateCell (lastUpdated salaryData) ].

Definition expenseHeaders : list string :=
  ["ID"; "Name"; "Category"; "Amount"; "Date"; "Added On"].

Definition incomeHeaders : list string :=
  ["ID"; "Business Name"; "Industry"; "Amount"; "Date Received"; "Added On"].

Definition salaryHeaders : list string :=
  ["Gross Salary"; "Frequency"; "Payday"; "Days Off Per Week";
   "SSS Deduction"; "Philhealth Deduction"; "Pag-ibig Deduction";
   "Tax Deduction"; "Loans Deduction"; "Voluntary Deduction"; "Last Updated"].

(** The [data] argument together with its [type] tag. *)
Inductive CsvData :=
  | expenses_ (data : list ExpenseEntry)
  | incomes_ (data : list IncomeEntry)
  | salary_ (data : option SalaryDetails).

(** [csvRows] when [convertToCSV] returns; each [push] appends. *)
Definition csvRows (d : CsvData) : list string :=
  let csvRows := [] in
  match d with
  | expenses_ data =>
      let csvRows := (csvRows ++ [String.concat "," expenseHeaders])%list in
      fold_left (fun csvRows item => (csvRows ++ [csvLine (expenseRow item)])%list)
        data csvRows
  | incomes_ data =>
      let csvRows := (csvRows ++ [String.concat "," incomeHeaders])%list in
      fold_left (fun csvRows item => (csvRows ++ [csvLine (incomeRow item)])%list)
        data csvRows
  | salary_ data =>
      let csvRows := (csvRows ++ [String.concat "," salaryHeaders])%list in
      match data with
      | Some salaryData => (csvRows ++ [csvLine (salaryRow salaryData)])%list
      | None => csvRows
      end
  end.

Definition convertToCSV (d : CsvData) : string :=
  String.concat nl (csvRows d).

(** What [handleDownloadCSV] leaves behind: the message it shows and
    the file it hands to the browser, as name and content. *)
Record Download := {
  message : string;
  messageType : string;
  file : option (string * string)
}.

(** [canDownload] is the browser's [link.download !== undefined]. *)
Definition handleDownloadCSV (canDownload : bool)
    (expenses : list ExpenseEntry) (incomes : list IncomeEntry)
    (salaryDetails : option SalaryDetails) : Download :=
  let fullCSVContent := "" in
  let fullCSVContent :=
    if (0 <? length expenses)%nat then
      let fullCSVContent := fullCSVContent ++ "--- Expenses ---" ++ nl in
      fullCSVContent ++ (convertToCSV (expenses_ expenses) ++ nl ++ nl)
    else fullCSVContent in
  let fullCSVContent :=
    if (0 <? length incomes)%nat then
      let fullCSVContent := fullCSVContent ++ "--- Incomes ---" ++ nl in
      fullCSVContent ++ (convertToCSV (incomes_ incomes) ++ nl ++ nl)
    else fullCSVContent in
  let fullCSVContent :=
    match salaryDetails with
    | Some _ =>
        let fullCSVContent := fullCSVContent ++ "--- Salary Details ---" ++ nl in
        fullCSVContent ++ (convertToCSV (salary_ salaryDetails) ++ nl ++ nl)
    | None => fullCSVContent
    end in
  if fullCSVContent =? "" then
    {| message := "No data available to download.";
       messageType := "info";
       file := None |}
  else if canDownload then
    {| message := "Your data has been downloaded!";
       messageType := "success";
       file := Some ("expense_tracker_history.csv", fullCSVContent) |}
  else
    {| message := "Your browser does not support downloading files directly.";
       messageType := "error";
       file := None |}.

End History.

(** ** Bank accounts *)

Record BankAccount := {
  bank_id : string;
  acct_bankName : string;
  acct_fullName : string;
  last4Digits : string;
  acct_expirationDate : string;
  acct_amount : value;
  bank_createdAt : DateField
}.

(** ** App: the listeners on the three collections ([src/App.tsx],
    [App]) and the totals of the profile page ([Profile]) *)

Module AppData.

Definition setTotalBankBalance (x : number) (st : App.State) : App.State :=
  {| App.totalBankBalance := x;
     App.totalIncome := App.totalIncome st;
     App.totalExpenses := App.totalExpenses st;
     App.salaryDetails := App.salaryDetails st;
     App.upcomingIncome := App.upcomingIncome st;
     App.monthlyNetCashFlow := App.monthlyNetCashFlow st |}.

Definition setTotalIncome (x : number) (st : App.State) : App.State :=
  {| App.totalBankBalance := App.totalBankBalance st;
     App.totalIncome := x;
     App.totalExpenses := App.totalExpenses st;
     App.salaryDetails := App.salaryDetails st;
     App.upcomingIncome := App.upcomingIncome st;
     App.monthlyNetCashFlow := App.monthlyNetCashFlow st |}.

Definition setTotalExpenses (x : number) (st : App.State) : App.State :=
  {| App.totalBankBalance := App.totalBankBalance st;
     App.totalIncome := App.totalIncome st;
     App.totalExpenses := x;
     App.salaryDetails := App.salaryDetails st;
     App.upcomingIncome := App.upcomingIncome st;
     App.monthlyNetCashFlow := App.monthlyNetCashFlow st |}.

Definition setUpcomingIncome (x : number) (st : App.State) : App.State :=
  {| App.totalBankBalance := App.totalBankBalance st;
     App.totalIncome := App.totalIncome st;
     App.totalExpenses := App.totalExpenses st;
     App.salaryDetails := App.salaryDetails st;
     App.upcomingIncome := x;
     App.monthlyNetCashFlow := App.monthlyNetCashFlow st |}.

(** The listener on the bank accounts. *)
Definition onBanksSnapshot (docs : list BankAccount) (st : App.State) : App.State :=
  let sum :=
    fold_left (fun acc doc => (acc + or_zero (parseFloat_String (acct_amount doc)))%float)
      docs 0%float in
  setTotalBankBalance sum st.

(** One turn of the [forEach] of the listener on the incomes: the state
    is [currentTotal] and [currentUpcoming]. *)
Definition incomeStep (today : Date) (acc : number * number) (doc : IncomeEntry)
    : number * number :=
  let '(currentTotal, currentUpcoming) := acc in
  let incomeAmount := or_zero (parseFloat_String (incomeAmount doc)) in
  let incomeDate := asDate (incomeDate doc) in
  let currentTotal := (currentTotal + incomeAmount)%float in
  match incomeDate with
  | Some incomeDate =>
      if date_lt today incomeDate
      then (currentTotal, (currentUpcoming + incomeAmount)%float)
      else (currentTotal, currentUpcoming)
  | None => (currentTotal, currentUpcoming)
  end.

(** The listener on the incomes; [now] is its [new Date()]. *)
Definition onIncomesSnapshot (tz : TimeZone) (now : Date) (docs : list IncomeEntry)
    (st : App.State) : App.State :=
  let currentTotal := 0%float in
  let currentUpcoming := 0%float in
  let today := now in
  let today := setHours0 tz today in
  let '(currentTotal, currentUpcoming) :=
    fold_left (incomeStep today) docs (currentTotal, currentUpcoming) in
  let st := setTotalIncome currentTotal st in
  setUpcomingIncome currentUpcoming st.

(** The listener on the expenses. *)
Definition onExpensesSnapshot (docs : list ExpenseEntry) (st : App.State) : App.State :=
  let sum :=
    fold_left (fun acc doc => (acc + or_zero (parseFloat_String (expenseAmount doc)))%float)
      docs 0%float in
  setTotalExpenses sum st.

(** The state [App] starts with. *)
Definition initial : App.State :=
  {| App.totalBankBalance := 0%float; App.totalIncome := 0%float;
     App.totalExpenses := 0%float; App.salaryDetails := None;
     App.upcomingIncome := 0%float; App.monthlyNetCashFlow := 0%float |}.

(** The effect of [App] without a signed-in user. *)
Definition signedOut (st : App.State) : App.State :=
  let st := setTotalBankBalance 0%float st in
  let st := setTotalIncome 0%float st in
  let st := setTotalExpenses 0%float st in
  let st := App.setSalaryDetails None st in
  let st := setUpcomingIncome 0%float st in
  App.setMonthlyNetCashFlow 0%float st.

End AppData.

(** The summary of the profile page. *)
Module Summary.

Definition totalIncomeSummary (docs : list IncomeEntry) : number :=
  fold_left (fun acc doc => (acc + or_zero (parseFloat_String (incomeAmount doc)))%float)
    docs 0%float.

Definition totalExpensesSummary (docs : list ExpenseEntry) : number :=
  fold_left (fun acc doc => (acc + or_zero (parseFloat_String (expenseAmount doc)))%float)
    docs 0%float.

Definition netSavingsSummary (incomes : list IncomeEntry) (expenses : list ExpenseEntry)
    : number :=
  (totalIncomeSummary incomes - totalExpensesSummary expenses)%float.

End Summary.

(** ** Writes to the store

    A write is the building of the reference and of the timestamps of
    the document and then [setDoc], or [deleteDoc]; it returns or it
    throws, and a thrown value is an [Error] with its message, or
    something else. The handlers below record the write they come to
    with its arguments, and take what it does as [thrown]. *)

Inductive Thrown :=
  | NoThrow
  | ThrowError (errorMessage : string)
  | ThrowOther.

(** The [createdAt] of a written document: the timestamp of the
    document being edited, one made from its date, or the time of the
    server. *)
Inductive CreatedAt :=
  | KeepTimestamp (toDate : Date)
  | TimestampFromDate (d : Date)
  | ServerTimestamp.

Definition originalCreatedAt (createdAt : DateField) : CreatedAt :=
  match createdAt with
  | IsTimestamp toDate => KeepTimestamp toDate
  | IsDate d => TimestampFromDate d
  | NoDate => ServerTimestamp
  end.

(** ** Banks page ([src/App.tsx], [Banks]) *)

Module Banks.

Record State := {
  showForm : bool;
  isEditing : bool;
  currentEditAccount : option BankAccount;
  bankName : string;
  fullName : string;
  cardNumber : string;
  expirationDate : string;
  amount : string;
  message : string;
  messageType : string
}.

Definition setMessage (m : string) (st : State) : State :=
  {| showForm := showForm st; isEditing := isEditing st;
     currentEditAccount := currentEditAccount st;
     bankName := bankName st; fullName := fullName st; cardNumber := cardNumber st;
     expirationDate := expirationDate st; amount := amount st;
     message := m; messageType := messageType st |}.

Definition setMessageType (m : string) (st : State) : State :=
  {| showForm := showForm st; isEditing := isEditing st;
     currentEditAccount := currentEditAccount st;
     bankName := bankName st; fullName := fullName st; cardNumber := cardNumber st;
     expirationDate := expirationDate st; amount := amount st;
     message := message st; messageType := m |}.

Definition setShowForm (b : bool) (st : State) : State :=
  {| showForm := b; isEditing := isEditing st;
     currentEditAccount := currentEditAccount st;
     bankName := bankName st; fullName := fullName st; cardNumber := cardNumber st;
     expirationDate := expirationDate st; amount := amount st;
     message := message st; messageType := messageType st |}.

Definition setCardNumber (s : string) (st : State) : State :=
  {| showForm := showForm st; isEditing := isEditing st;
     currentEditAccount := currentEditAccount st;
     bankName := bankName st; fullName := fullName st; cardNumber := s;
     expirationDate := expirationDate st; amount := amount st;
     message := message st; messageType := messageType st |}.

Definition setExpirationDate (s : string) (st : State) : State :=
  {| showForm := showForm st; isEditing := isEditing st;
     currentEditAccount := currentEditAccount st;
     bankName := bankName st; fullName := fullName st; cardNumber := cardNumber st;
     expirationDate := s; amount := amount st;
     message := message st; messageType := messageType st |}.

Definition setIsEditing (b : bool) (st : State) : State :=
  {| showForm := showForm st; isEditing := b;
     currentEditAccount := currentEditAccount st; bankName := bankName st;
     fullName := fullName st; cardNumber := cardNumber st;
     expirationDate := expirationDate st; amount := amount st;
     message := message st; messageType := messageType st |}.

Definition setCurrentEditAccount (a : option BankAccount) (st : State) : State :=
  {| showForm := showForm st; isEditing := isEditing st; currentEditAccount := a;
     bankName := bankName st; fullName := fullName st;
     cardNumber := cardNumber st; expirationDate := expirationDate st;
     amount := amount st; message := message st; messageType := messageType st |}.

Definition setBankName (s : string) (st : State) : State :=
  {| showForm := showForm st; isEditing := isEditing st;
     currentEditAccount := currentEditAccount st; bankName := s;
     fullName := fullName st; cardNumber := cardNumber st;
     expirationDate := expirationDate st; amount := amount st;
     message := message st; messageType := messageType st |}.

Definition setFullName (s : string) (st : State) : State :=
  {| showForm := showForm st; isEditing := isEditing st;
     currentEditAccount := currentEditAccount st; bankName := bankName st;
     fullName := s; cardNumber := cardNumber st;
     expirationDate := expirationDate st; amount := amount st;
     message := message st; messageType := messageType st |}.

Definition setAmount (s : string) (st : State) : State :=
  {| showForm := showForm st; isEditing := isEditing st;
     currentEditAccount := currentEditAccount st; bankName := bankName st;
     fullName := fullName st; cardNumber := cardNumber st;
     expirationDate := expirationDate st; amount := s; message := message st;
     messageType := messageType st |}.

Definition resetForm (st : State) : State :=
  {| showForm := showForm st; isEditing := false;
     currentEditAccount := None;
     bankName := ""; fullName := ""; cardNumber := "";
     expirationDate := ""; amount := "";
     message := message st; messageType := messageType st |}.

Definition isDigit (c : ascii) : bool :=
  match digit_of c with Some _ => true | None => false end.

(** The [replace] of the two inputs: every character that is not a
    digit is removed. *)
Fixpoint removeNonDigits (s : string) : string :=
  match s with
  | EmptyString => EmptyString
  | String c r => if isDigit c then String c (removeNonDigits r) else removeNonDigits r
  end.

(** [onChange] of the card number input. *)
Definition onCardNumberChange (value : string) (st : State) : State :=
  let val := slice (removeNonDigits value) 0 16 in
  setCardNumber val st.

(** [onChange] of the expiration date input. *)
Definition onExpirationDateChange (value : string) (st : State) : State :=
  let val := removeNonDigits value in
  let val :=
    if (2 <? String.length val)%nat then slice val 0 2 ++ "/" ++ slice val 2 4 else val in
  setExpirationDate val st.

Definition handleAddBankClick (st : State) : State :=
  let st := resetForm st in
  let st := setShowForm true st in
  setMessage "" st.

(** [account.amount.toString()] throws on a missing amount; the handler
    stops there, and the state keeps what was set before. *)
Definition handleEditBankClick (account : BankAccount) (st : State) : State :=
  let st := setCurrentEditAccount (Some account) st in
  let st := setBankName (acct_bankName account) st in
  let st := setFullName (acct_fullName account) st in
  let st :=
    setCardNumber
      (if last4Digits account =? "0000" then "" else last4Digits account) st in
  let st := setExpirationDate (or_empty (acct_expirationDate account)) st in
  match toString_method (acct_amount account) with
  | None => st
  | Some s =>
      let st := setAmount s st in
      let st := setIsEditing true st in
      let st := setShowForm true st in
      setMessage "" st
  end.

Definition handleCloseForm (st : State) : State :=
  let st := setShowForm false st in
  let st := resetForm st in
  setMessage "" st.

(** The [last4Digits] that is saved. *)
Definition last4DigitsOf (cardNumber : string) : string :=
  if (4 <=? String.length cardNumber)%nat then slice_last cardNumber 4 else "0000".

(** The document [handleSaveBank] writes. *)
Record BankData := {
  data_bankName : string;
  data_fullName : string;
  data_last4Digits : string;
  data_expirationDate : string;
  data_amount : number;
  data_createdAt : CreatedAt
}.

(** What a run of [handleSaveBank] leaves: the state of the page, the
    global loading flag and the write it comes to, with the id of the
    document when an existing one is written. *)
Record Saved := {
  state : State;
  loading : bool;
  setDocCall : option (option string * BankData)
}.

(** [signedIn] is [user && db]; [thrown] is what the write does;
    [isLoading] is the global loading flag before. The lengths and
    slices are those of the source on strings of ASCII characters, as
    the card field gives them. *)
Definition handleSaveBank (signedIn : bool) (thrown : Thrown) (isLoading : bool)
    (st : State) : Saved :=
  if (bankName st =? "") || (fullName st =? "") || (amount st =? "") then
    let st := setMessage "Please fill in Bank Name, Full Name, and Amount." st in
    let st := setMessageType "error" st in
    {| state := st; loading := isLoading; setDocCall := None |}
  else if isNaN (parseFloat (amount st)) then
    let st := setMessage "Amount must be a valid number." st in
    let st := setMessageType "error" st in
    {| state := st; loading := isLoading; setDocCall := None |}
  else
    let st := setMessage "" st in
    if negb signedIn then
      let st := setMessage "Firebase or user not initialized. Cannot save data." st in
      let st := setMessageType "error" st in
      {| state := st; loading := false; setDocCall := None |}
    else
      let last4Digits := last4DigitsOf (cardNumber st) in
      let bankData (createdAt : CreatedAt) :=
        {| data_bankName := bankName st;
           data_fullName := fullName st;
           data_last4Digits := last4Digits;
           data_expirationDate := or_empty (expirationDate st);
           data_amount := parseFloat (amount st);
           data_createdAt := createdAt |} in
      let '(call, done) :=
        match isEditing st, currentEditAccount st with
        | true, Some account =>
            ((Some (bank_id account), bankData (originalCreatedAt (bank_createdAt account))),
             "Bank account updated successfully!")
        | _, _ =>
            ((None, bankData ServerTimestamp), "Bank account added successfully!")
        end in
      match thrown with
      | NoThrow =>
          let st := setMessage done st in
          let st := setMessageType "success" st in
          let st := setShowForm false st in
          let st := resetForm st in
          {| state := st; loading := false; setDocCall := Some call |}
      | ThrowError errorMessage =>
          let st := setMessage ("Error saving bank account: " ++ errorMessage) st in
          let st := setMessageType "error" st in
          {| state := st; loading := false; setDocCall := Some call |}
      | ThrowOther =>
          let st := setMessage "Error saving bank account." st in
          let st := setMessageType "error" st in
          {| state := st; loading := false; setDocCall := Some call |}
      end.

End Banks.

(** ** Income page: the form ([src/App.tsx], [Incomes]) *)

Module IncomeForm.

Record State := {
  showForm : bool;
  isEditing : bool;
  currentEditIncome : option IncomeEntry;
  businessName : string;
  industry : string;
  incomeAmount : string;
  incomeDate : string;
  message : string;
  messageType : string
}.

Definition setMessage (m : string) (st : State) : State :=
  {| showForm := showForm st; isEditing := isEditing st;
     currentEditIncome := currentEditIncome st;
     businessName := businessName st; industry := industry st;
     incomeAmount := incomeAmount st; incomeDate := incomeDate st;
     message := m; messageType := messageType st |}.

Definition setMessageType (m : string) (st : State) : State :=
  {| showForm := showForm st; isEditing := isEditing st;
     currentEditIncome := currentEditIncome st;
     businessName := businessName st; industry := industry st;
     incomeAmount := incomeAmount st; incomeDate := incomeDate st;
     message := message st; messageType := m |}.

Definition setShowForm (b : bool) (st : State) : State :=
  {| showForm := b; isEditing := isEditing st;
     currentEditIncome := currentEditIncome st;
     businessName := businessName st; industry := industry st;
     incomeAmount := incomeAmount st; incomeDate := incomeDate st;
     message := message st; messageType := messageType st |}.

Definition setIsEditing (b : bool) (st : State) : State :=
  {| showForm := showForm st; isEditing := b;
     currentEditIncome := currentEditIncome st; businessName := businessName st;
     industry := industry st; incomeAmount := incomeAmount st;
     incomeDate := incomeDate st; message := message st;
     messageType := messageType st |}.

Definition setCurrentEditIncome (e : option IncomeEntry) (st : State) : State :=
  {| showForm := showForm st; isEditing := isEditing st; currentEditIncome := e;
     businessName := businessName st; industry := industry st;
     incomeAmount := incomeAmount st; incomeDate := incomeDate st;
     message := message st; messageType := messageType st |}.

Definition setBusinessName (s : string) (st : State) : State :=
  {| showForm := showForm st; isEditing := isEditing st;
     currentEditIncome := currentEditIncome st; businessName := s;
     industry := industry st; incomeAmount := incomeAmount st;
     incomeDate := incomeDate st; message := message st;
     messageType := messageType st |}.

Definition setIndustry (s : string) (st : State) : State :=
  {| showForm := showForm st; isEditing := isEditing st;
     currentEditIncome := currentEditIncome st; businessName := businessName st;
     industry := s; incomeAmount := incomeAmount st; incomeDate := incomeDate st;
     message := message st; messageType := messageType st |}.

Definition setIncomeAmount (s : string) (st : State) : State :=
  {| showForm := showForm st; isEditing := isEditing st;
     currentEditIncome := currentEditIncome st; businessName := businessName st;
     industry := industry st; incomeAmount := s; incomeDate := incomeDate st;
     message := message st; messageType := messageType st |}.

Definition setIncomeDate (s : string) (st : State) : State :=
  {| showForm := showForm st; isEditing := isEditing st;
     currentEditIncome := currentEditIncome st; businessName := businessName st;
     industry := industry st; incomeAmount := incomeAmount st; incomeDate := s;
     message := message st; messageType := messageType st |}.

Definition resetForm (st : State) : State :=
  {| showForm := showForm st; isEditing := false;
     currentEditIncome := None;
     businessName := ""; industry := "";
     incomeAmount := ""; incomeDate := "";
     message := message st; messageType := messageType st |}.

(** [today] is [new Date()], the present instant. *)
Definition handleAddIncomeClick (today : Z) (st : State) : State :=
  let st := resetForm st in
  let st := setIncomeDate (isoDate today) st in
  let st := setShowForm true st in
  setMessage "" st.

(** [toString()] throws on a missing amount and [toISOString()] on an
    invalid date; the handler stops there, and the state keeps what was
    set before. *)
Definition handleEditIncomeClick (income : IncomeEntry) (st : State) : State :=
  let 'Build_IncomeEntry _ entryName entryKind entryAmount entryDate _ := income in
  let st := setCurrentEditIncome (Some income) st in
  let st := setBusinessName entryName st in
  let st := setIndustry entryKind st in
  match toString_method entryAmount with
  | None => st
  | Some s =>
      let st := setIncomeAmount s st in
      let dateValue := asDate entryDate in
      match dateValue with
      | Some d =>
          match toISOString_date d with
          | None => st
          | Some iso =>
              let st := setIncomeDate iso st in
              let st := setIsEditing true st in
              let st := setShowForm true st in
              setMessage "" st
          end
      | None =>
          let st := setIncomeDate "" st in
          let st := setIsEditing true st in
          let st := setShowForm true st in
          setMessage "" st
      end
  end.

Definition handleCloseForm (st : State) : State :=
  let st := setShowForm false st in
  let st := resetForm st in
  setMessage "" st.

(** The document [handleSaveIncome] writes. *)
Record IncomeData := {
  data_businessName : string;
  data_industry : string;
  data_incomeAmount : number;
  data_incomeDate : Date;
  data_createdAt : CreatedAt
}.

Record Saved := {
  state : State;
  loading : bool;
  setDocCall : option (option string * IncomeData)
}.

Section Save.

(** What [new Date(s)] gives on a string that is not a date-only one. *)
Variable dateOther : string -> Date.

Definition handleSaveIncome (signedIn : bool) (thrown : Thrown) (isLoading : bool)
    (st : State) : Saved :=
  if (businessName st =? "") || (industry st =? "") || (incomeAmount st =? "")
     || (incomeDate st =? "") then
    let st := setMessage "Please fill in all required fields." st in
    let st := setMessageType "error" st in
    {| state := st; loading := isLoading; setDocCall := None |}
  else if isNaN (parseFloat (incomeAmount st)) then
    let st := setMessage "Amount must be a valid number." st in
    let st := setMessageType "error" st in
    {| state := st; loading := isLoading; setDocCall := None |}
  else
    let st := setMessage "" st in
    if negb signedIn then
      let st := setMessage "Firebase or user not initialized. Cannot save data." st in
      let st := setMessageType "error" st in
      {| state := st; loading := false; setDocCall := None |}
    else
      let incomeData (createdAt : CreatedAt) :=
        {| data_businessName := businessName st;
           data_industry := industry st;
           data_incomeAmount := parseFloat (incomeAmount st);
           data_incomeDate := new_Date_string dateOther (incomeDate st);
           data_createdAt := createdAt |} in
      let '(call, done) :=
        match isEditing st, currentEditIncome st with
        | true, Some income =>
            ((Some (income_id income), incomeData (originalCreatedAt (income_createdAt income))),
             "Income entry updated successfully!")
        | _, _ =>
            ((None, incomeData ServerTimestamp), "Income entry added successfully!")
        end in
      match thrown with
      | NoThrow =>
          let st := setMessage done st in
          let st := setMessageType "success" st in
          let st := setShowForm false st in
          let st := resetForm st in
          {| state := st; loading := false; setDocCall := Some call |}
      | ThrowError errorMessage =>
          let st := setMessage ("Error saving income entry: " ++ errorMessage) st in
          let st := setMessageType "error" st in
          {| state := st; loading := false; setDocCall := Some call |}
      | ThrowOther =>
          let st := setMessage "Error saving income entry." st in
          let st := setMessageType "error" st in
          {| state := st; loading := false; setDocCall := Some call |}
      end.

End Save.

End IncomeForm.

(** ** Expense page: the form ([src/App.tsx], [Expenses]) *)

Module ExpenseForm.

Record State := {
  showForm : bool;
  isEditing : bool;
  currentEditExpense : option ExpenseEntry;
  expenseName : string;
  expenseCategory : string;
  expenseAmount : string;
  expenseDate : string;
  message : string;
  messageType : string
}.

Definition setMessage (m : string) (st : State) : State :=
  {| showForm := showForm st; isEditing := isEditing st;
     currentEditExpense := currentEditExpense st;
     expenseName := expenseName st; expenseCategory := expenseCategory st;
     expenseAmount := expenseAmount st; expenseDate := expenseDate st;
     message := m; messageType := messageType st |}.

Definition setMessageType (m : string) (st : State) : State :=
  {| showForm := showForm st; isEditing := isEditing st;
     currentEditExpense := currentEditExpense st;
     expenseName := expenseName st; expenseCategory := expenseCategory st;
     expenseAmount := expenseAmount st; expenseDate := expenseDate st;
     message := message st; messageType := m |}.

Definition setShowForm (b : bool) (st : State) : State :=
  {| showForm := b; isEditing := isEditing st;
     currentEditExpense := currentEditExpense st;
     expenseName := expenseName st; expenseCategory := expenseCategory st;
     expenseAmount := expenseAmount st; expenseDate := expenseDate st;
     message := message st; messageType := messageType st |}.

Definition setIsEditing (b : bool) (st : State) : State :=
  {| showForm := showForm st; isEditing := b;
     currentEditExpense := currentEditExpense st; expenseName := expenseName st;
     expenseCategory := expenseCategory st; expenseAmount := expenseAmount st;
     expenseDate := expenseDate st; message := message st;
     messageType := messageType st |}.

Definition setCurrentEditExpense (e : option ExpenseEntry) (st : State) : State :=
  {| showForm := showForm st; isEditing := isEditing st; currentEditExpense := e;
     expenseName := expenseName st; expenseCategory := expenseCategory st;
     expenseAmount := expenseAmount st; expenseDate := expenseDate st;
     message := message st; messageType := messageType st |}.

Definition setExpenseName (s : string) (st : State) : State :=
  {| showForm := showForm st; isEditing := isEditing st;
     currentEditExpense := currentEditExpense st; expenseName := s;
     expenseCategory := expenseCategory st; expenseAmount := expenseAmount st;
     expenseDate := expenseDate st; message := message st;
     messageType := messageType st |}.

Definition setExpenseCategory (s : string) (st : State) : State :=
  {| showForm := showForm st; isEditing := isEditing st;
     currentEditExpense := currentEditExpense st; expenseName := expenseName st;
     expenseCategory := s; expenseAmount := expenseAmount st;
     expenseDate := expenseDate st; message := message st;
     messageType := messageType st |}.

Definition setExpenseAmount (s : string) (st : State) : State :=
  {| showForm := showForm st; isEditing := isEditing st;
     currentEditExpense := currentEditExpense st; expenseName := expenseName st;
     expenseCategory := expenseCategory st; expenseAmount := s;
     expenseDate := expenseDate st; message := message st;
     messageType := messageType st |}.

Definition setExpenseDate (s : string) (st : State) : State :=
  {| showForm := showForm st; isEditing := isEditing st;
     currentEditExpense := currentEditExpense st; expenseName := expenseName st;
     expenseCategory := expenseCategory st; expenseAmount := expenseAmount st;
     expenseDate := s; message := message st; messageType := messageType st |}.

Definition resetForm (st : State) : State :=
  {| showForm := showForm st; isEditing := false;
     currentEditExpense := None;
     expenseName := ""; expenseCategory := "";
     expenseAmount := ""; expenseDate := "";
     message := message st; messageType := messageType st |}.

(** [today] is [new Date()], the present instant. *)
Definition handleAddExpenseClick (today : Z) (st : State) : State :=
  let st := resetForm st in
  let st := setExpenseDate (isoDate today) st in
  let st := setShowForm true st in
  setMessage "" st.

(** [toString()] throws on a missing amount and [toISOString()] on an
    invalid date; the handler stops there, and the state keeps what was
    set before. *)
Definition handleEditExpenseClick (expense : ExpenseEntry) (st : State) : State :=
  let 'Build_ExpenseEntry _ entryName entryKind entryAmount entryDate _ := expense in
  let st := setCurrentEditExpense (Some expense) st in
  let st := setExpenseName entryName st in
  let st := setExpenseCategory entryKind st in
  match toString_method entryAmount with
  | None => st
  | Some s =>
      let st := setExpenseAmount s st in
      let dateValue := asDate entryDate in
      match dateValue with
      | Some d =>
          match toISOString_date d with
          | None => st
          | Some iso =>
              let st := setExpenseDate iso st in
              let st := setIsEditing true st in
              let st := setShowForm true st in
              setMessage "" st
          end
      | None =>
          let st := setExpenseDate "" st in
          let st := setIsEditing true st in
          let st := setShowForm true st in
          setMessage "" st
      end
  end.

Definition handleCloseForm (st : State) : State :=
  let st := setShowForm false st in
  let st := resetForm st in
  setMessage "" st.

(** The document [handleSaveExpense] writes. *)
Record ExpenseData := {
  data_name : string;
  data_category : string;
  data_expenseAmount : number;
  data_expenseDate : Date;
  data_createdAt : CreatedAt
}.

Record Saved := {
  state : State;
  loading : bool;
  setDocCall : option (option string * ExpenseData)
}.

Section Save.

(** What [new Date(s)] gives on a string that is not a date-only one. *)
Variable dateOther : string -> Date.

Definition handleSaveExpense (signedIn : bool) (thrown : Thrown) (isLoading : bool)
    (st : State) : Saved :=
  if (expenseName st =? "") || (expenseCategory st =? "") || (expenseAmount st =? "")
     || (expenseDate st =? "") then
    let st := setMessage "Please fill in all required fields." st in
    let st := setMessageType "error" st in
    {| state := st; loading := isLoading; setDocCall := None |}
  else if isNaN (parseFloat (expenseAmount st)) then
    let st := setMessage "Amount must be a valid number." st in
    let st := setMessageType "error" st in
    {| state := st; loading := isLoading; setDocCall := None |}
  else
    let st := setMessage "" st in
    if negb signedIn then
      let st := setMessage "Firebase or user not initialized. Cannot save data." st in
      let st := setMessageType "error" st in
      {| state := st; loading := false; setDocCall := None |}
    else
      let expenseData (createdAt : CreatedAt) :=
        {| data_name := expenseName st;
           data_category := expenseCategory st;
           data_expenseAmount := parseFloat (expenseAmount st);
           data_expenseDate := new_Date_string dateOther (expenseDate st);
           data_createdAt := createdAt |} in
      let '(call, done) :=
        match isEditing st, currentEditExpense st with
        | true, Some expense =>
            ((Some (expense_id expense),
              expenseData (originalCreatedAt (expense_createdAt expense))),
             "Expense entry updated successfully!")
        | _, _ =>
            ((None, expenseData ServerTimestamp), "Expense entry added successfully!")
        end in
      match thrown with
      | NoThrow =>
          let st := setMessage done st in
          let st := setMessageType "success" st in
          let st := setShowForm false st in
          let st := resetForm st in
          {| state := st; loading := false; setDocCall := Some call |}
      | ThrowError errorMessage =>
          let st := setMessage ("Error saving expense entry: " ++ errorMessage) st in
          let st := setMessageType "error" st in
          {| state := st; loading := false; setDocCall := Some call |}
      | ThrowOther =>
          let st := setMessage "Error saving expense entry." st in
          let st := setMessageType "error" st in
          {| state := st; loading := false; setDocCall := Some call |}
      end.

End Save.

(** What a run of [handleDeleteExpense] leaves; [deleteDocCall] is the
    id of the document it asks the store to delete. *)
Record Deleted := {
  del_state : State;
  del_loading : bool;
  deleteDocCall : option string
}.

(** [user] and [db] are whether the two are there, [confirmed] is the
    answer to [window.confirm], [thrown] is what the write does. *)
Definition handleDeleteExpense (user db confirmed : bool) (thrown : Thrown)
    (isLoading : bool) (expenseId : string) (st : State) : Deleted :=
  if negb user || (expenseId =? "") then
    let st := setMessage "User not authenticated or invalid expense ID." st in
    let st := setMessageType "error" st in
    {| del_state := st; del_loading := isLoading; deleteDocCall := None |}
  else if confirmed then
    let st := setMessage "" st in
    if negb db then
      let st := setMessage "Firebase not initialized. Cannot delete data." st in
      let st := setMessageType "error" st in
      {| del_state := st; del_loading := false; deleteDocCall := None |}
    else
      match thrown with
      | NoThrow =>
          let st := setMessage "Expense entry deleted successfully!" st in
          let st := setMessageType "success" st in
          {| del_state := st; del_loading := false; deleteDocCall := Some expenseId |}
      | ThrowError errorMessage =>
          let st := setMessage ("Error deleting expense entry: " ++ errorMessage) st in
          let st := setMessageType "error" st in
          {| del_state := st; del_loading := false; deleteDocCall := Some expenseId |}
      | ThrowOther =>
          let st := setMessage "Error deleting expense entry." st in
          let st := setMessageType "error" st in
          {| del_state := st; del_loading := false; deleteDocCall := Some expenseId |}
      end
  else
    {| del_state := st; del_loading := isLoading; deleteDocCall := None |}.

End ExpenseForm.

(** ** Salary page: the form, the listener and the save ([src/App.tsx],
    [Salary]) *)

Module SalaryPage.

(** The state of the component: the form, the three figures
    ([figures]), the message and the editing flag; [latestSalaryDataRef]
    is the ref of that name. *)
Record State := {
  salary : value;
  frequency : string;
  paydaySpecific : string;
  dayOffInMonth : string;
  sss : value;
  philhealth : value;
  pagibig : value;
  tax : value;
  loans : value;
  voluntary : value;
  figures : Salary.State;
  message : string;
  messageType : string;
  isActivelyEditing : bool;
  latestSalaryDataRef : option SalaryDetails
}.

Definition setSalary (x : value) (st : State) : State :=
  {| salary := x; frequency := frequency st; paydaySpecific := paydaySpecific st;
     dayOffInMonth := dayOffInMonth st; sss := sss st;
     philhealth := philhealth st; pagibig := pagibig st; tax := tax st;
     loans := loans st; voluntary := voluntary st; figures := figures st;
     message := message st; messageType := messageType st;
     isActivelyEditing := isActivelyEditing st;
     latestSalaryDataRef := latestSalaryDataRef st |}.

Definition setFrequency (x : string) (st : State) : State :=
  {| salary := salary st; frequency := x; paydaySpecific := paydaySpecific st;
     dayOffInMonth := dayOffInMonth st; sss := sss st;
     philhealth := philhealth st; pagibig := pagibig st; tax := tax st;
     loans := loans st; voluntary := voluntary st; figures := figures st;
     message := message st; messageType := messageType st;
     isActivelyEditing := isActivelyEditing st;
     latestSalaryDataRef := latestSalaryDataRef st |}.

Definition setPaydaySpecific (x : string) (st : State) : State :=
  {| salary := salary st; frequency := frequency st; paydaySpecific := x;
     dayOffInMonth := dayOffInMonth st; sss := sss st;
     philhealth := philhealth st; pagibig := pagibig st; tax := tax st;
     loans := loans st; voluntary := voluntary st; figures := figures st;
     message := message st; messageType := messageType st;
     isActivelyEditing := isActivelyEditing st;
     latestSalaryDataRef := latestSalaryDataRef st |}.

Definition setDayOffInMonth (x : string) (st : State) : State :=
  {| salary := salary st; frequency := frequency st;
     paydaySpecific := paydaySpecific st; dayOffInMonth := x; sss := sss st;
     philhealth := philhealth st; pagibig := pagibig st; tax := tax st;
     loans := loans st; voluntary := voluntary st; figures := figures st;
     message := message st; messageType := messageType st;
     isActivelyEditing := isActivelyEditing st;
     latestSalaryDataRef := latestSalaryDataRef st |}.

Definition setSss (x : value) (st : State) : State :=
  {| salary := salary st; frequency := frequency st;
     paydaySpecific := paydaySpecific st; dayOffInMonth := dayOffInMonth st;
     sss := x; philhealth := philhealth st; pagibig := pagibig st; tax := tax st;
     loans := loans st; voluntary := voluntary st; figures := figures st;
     message := message st; messageType := messageType st;
     isActivelyEditing := isActivelyEditing st;
     latestSalaryDataRef := latestSalaryDataRef st |}.

Definition setPhilhealth (x : value) (st : State) : State :=
  {| salary := salary st; frequency := frequency st;
     paydaySpecific := paydaySpecific st; dayOffInMonth := dayOffInMonth st;
     sss := sss st; philhealth := x; pagibig := pagibig st; tax := tax st;
     loans := loans st; voluntary := voluntary st; figures := figures st;
     message := message st; messageType := messageType st;
     isActivelyEditing := isActivelyEditing st;
     latestSalaryDataRef := latestSalaryDataRef st |}.

Definition setPagibig (x : value) (st : State) : State :=
  {| salary := salary st; frequency := frequency st;
     paydaySpecific := paydaySpecific st; dayOffInMonth := dayOffInMonth st;
     sss := sss st; philhealth := philhealth st; pagibig := x; tax := tax st;
     loans := loans st; voluntary := voluntary st; figures := figures st;
     message := message st; messageType := messageType st;
     isActivelyEditing := isActivelyEditing st;
     latestSalaryDataRef := latestSalaryDataRef st |}.

Definition setTax (x : value) (st : State) : State :=
  {| salary := salary st; frequency := frequency st;
     paydaySpecific := paydaySpecific st; dayOffInMonth := dayOffInMonth st;
     sss := sss st; philhealth := philhealth st; pagibig := pagibig st; tax := x;
     loans := loans st; voluntary := voluntary st; figures := figures st;
     message := message st; messageType := messageType st;
     isActivelyEditing := isActivelyEditing st;
     latestSalaryDataRef := latestSalaryDataRef st |}.

Definition setLoans (x : value) (st : State) : State :=
  {| salary := salary st; frequency := frequency st;
     paydaySpecific := paydaySpecific st; dayOffInMonth := dayOffInMonth st;
     sss := sss st; philhealth := philhealth st; pagibig := pagibig st;
     tax := tax st; loans := x; voluntary := voluntary st; figures := figures st;
     message := message st; messageType := messageType st;
     isActivelyEditing := isActivelyEditing st;
     latestSalaryDataRef := latestSalaryDataRef st |}.

Definition setVoluntary (x : value) (st : State) : State :=
  {| salary := salary st; frequency := frequency st;
     paydaySpecific := paydaySpecific st; dayOffInMonth := dayOffInMonth st;
     sss := sss st; philhealth := philhealth st; pagibig := pagibig st;
     tax := tax st; loans := loans st; voluntary := x; figures := figures st;
     message := message st; messageType := messageType st;
     isActivelyEditing := isActivelyEditing st;
     latestSalaryDataRef := latestSalaryDataRef st |}.

Definition setFigures (x : Salary.State) (st : State) : State :=
  {| salary := salary st; frequency := frequency st;
     paydaySpecific := paydaySpecific st; dayOffInMonth := dayOffInMonth st;
     sss := sss st; philhealth := philhealth st; pagibig := pagibig st;
     tax := tax st; loans := loans st; voluntary := voluntary st; figures := x;
     message := message st; messageType := messageType st;
     isActivelyEditing := isActivelyEditing st;
     latestSalaryDataRef := latestSalaryDataRef st |}.

Definition setMessage (x : string) (st : State) : State :=
  {| salary := salary st; frequency := frequency st;
     paydaySpecific := paydaySpecific st; dayOffInMonth := dayOffInMonth st;
     sss := sss st; philhealth := philhealth st; pagibig := pagibig st;
     tax := tax st; loans := loans st; voluntary := voluntary st;
     figures := figures st; message := x; messageType := messageType st;
     isActivelyEditing := isActivelyEditing st;
     latestSalaryDataRef := latestSalaryDataRef st |}.

Definition setMessageType (x : string) (st : State) : State :=
  {| salary := salary st; frequency := frequency st;
     paydaySpecific := paydaySpecific st; dayOffInMonth := dayOffInMonth st;
     sss := sss st; philhealth := philhealth st; pagibig := pagibig st;
     tax := tax st; loans := loans st; voluntary := voluntary st;
     figures := figures st; message := message st; messageType := x;
     isActivelyEditing := isActivelyEditing st;
     latestSalaryDataRef := latestSalaryDataRef st |}.

Definition setIsActivelyEditing (x : bool) (st : State) : State :=
  {| salary := salary st; frequency := frequency st;
     paydaySpecific := paydaySpecific st; dayOffInMonth := dayOffInMonth st;
     sss := sss st; philhealth := philhealth st; pagibig := pagibig st;
     tax := tax st; loans := loans st; voluntary := voluntary st;
     figures := figures st; message := message st; messageType := messageType st;
     isActivelyEditing := x; latestSalaryDataRef := latestSalaryDataRef st |}.

Definition setLatestSalaryData (x : option SalaryDetails) (st : State) : State :=
  {| salary := salary st; frequency := frequency st;
     paydaySpecific := paydaySpecific st; dayOffInMonth := dayOffInMonth st;
     sss := sss st; philhealth := philhealth st; pagibig := pagibig st;
     tax := tax st; loans := loans st; voluntary := voluntary st;
     figures := figures st; message := message st; messageType := messageType st;
     isActivelyEditing := isActivelyEditing st; latestSalaryDataRef := x |}.

(** [calculateSalary] in the component: it sets the three figures. *)
Definition calculateSalary
    (currentSalary : value) (currentFrequency currentDayOffInMonth : string)
    (currentSss currentPhilhealth currentPagibig currentTax currentLoans
       currentVoluntary : value)
    (st : State) : State :=
  setFigures
    (Salary.calculateSalary currentSalary currentFrequency currentDayOffInMonth
       currentSss currentPhilhealth currentPagibig currentTax currentLoans
       currentVoluntary (figures st))
    st.

(** The state the component starts with. *)
Definition initial : State :=
  {| salary := VStr ""; frequency := "Monthly"; paydaySpecific := "";
     dayOffInMonth := "2";
     sss := VStr ""; philhealth := VStr ""; pagibig := VStr ""; tax := VStr "";
     loans := VStr ""; voluntary := VStr "";
     figures := Salary.initial; message := ""; messageType := "info";
     isActivelyEditing := false; latestSalaryDataRef := None |}.

(** The listener on the salary document; [docSnap] is [None] when the
    document does not exist. *)
Definition onSnapshot (docSnap : option SalaryDetails) (st : State) : State :=
  match docSnap with
  | Some data =>
      let 'Build_SalaryDetails dataSalary dataFrequency dataPaydaySpecific
             dataDayOffInMonth dataSss dataPhilhealth dataPagibig dataTax dataLoans
             dataVoluntary _ := data in
      let st' := setLatestSalaryData (Some data) st in
      if negb (isActivelyEditing st) then
        let st' := setSalary (value_or_empty dataSalary) st' in
        let st' := setFrequency (string_or dataFrequency "Monthly") st' in
        let st' := setPaydaySpecific (string_or dataPaydaySpecific "") st' in
        let st' := setDayOffInMonth (string_or dataDayOffInMonth "2") st' in
        let st' := setSss (value_or_empty dataSss) st' in
        let st' := setPhilhealth (value_or_empty dataPhilhealth) st' in
        let st' := setPagibig (value_or_empty dataPagibig) st' in
        let st' := setTax (value_or_empty dataTax) st' in
        let st' := setLoans (value_or_empty dataLoans) st' in
        let st' := setVoluntary (value_or_empty dataVoluntary) st' in
        calculateSalary dataSalary dataFrequency dataDayOffInMonth
          dataSss dataPhilhealth dataPagibig dataTax dataLoans dataVoluntary st'
      else
        calculateSalary (salary st) (frequency st) (dayOffInMonth st)
          (sss st) (philhealth st) (pagibig st) (tax st) (loans st) (voluntary st) st'
  | None =>
      let st' := setLatestSalaryData None st in
      if negb (isActivelyEditing st) then
        let st' := setSalary (VStr "") st' in
        let st' := setFrequency "Monthly" st' in
        let st' := setPaydaySpecific "" st' in
        let st' := setDayOffInMonth "2" st' in
        let st' := setSss (VStr "") st' in
        let st' := setPhilhealth (VStr "") st' in
        let st' := setPagibig (VStr "") st' in
        let st' := setTax (VStr "") st' in
        let st' := setLoans (VStr "") st' in
        let st' := setVoluntary (VStr "") st' in
        setFigures
          (Salary.setTotalDeductions 0%float
             (Salary.setDailyIncome 0%float
                (Salary.setMonthlyIncome 0%float (figures st'))))
          st'
      else st'
  end.

(** [handleInputChange(setter)] on the value of an input. *)
Definition handleInputChange {A : Type} (setter : A -> State -> State) (v : A)
    (st : State) : State :=
  let st := setter v st in
  setIsActivelyEditing true st.

(** [onChange] of the frequency select. *)
Definition onFrequencyChange (v : string) (st : State) : State :=
  let st := setFrequency v st in
  let st := setPaydaySpecific "" st in
  setIsActivelyEditing true st.

(** The document [handleCalculateAndSave] writes. *)
Record SalaryData := {
  data_salary : number;
  data_frequency : string;
  data_paydaySpecific : string;
  data_dayOffInMonth : string;
  data_sss : number;
  data_philhealth : number;
  data_pagibig : number;
  data_tax : number;
  data_loans : number;
  data_voluntary : number
}.

Record Saved := {
  state : State;
  loading : bool;
  setDocCall : option SalaryData
}.

(** [signedIn] is [user && salaryDocRef]; [thrown] is what the write
    does. *)
Definition handleCalculateAndSave (signedIn : bool) (thrown : Thrown) (st : State)
    : Saved :=
  let st' := setMessage "" st in
  if negb signedIn then
    let st' := setMessage "Firebase or user not initialized. Cannot save data." st' in
    let st' := setMessageType "error" st' in
    {| state := st'; loading := false; setDocCall := None |}
  else
    let st' :=
      calculateSalary (salary st) (frequency st) (dayOffInMonth st)
        (sss st) (philhealth st) (pagibig st) (tax st) (loans st) (voluntary st) st' in
    let salaryData :=
      {| data_salary := parsedOrZero (salary st);
         data_frequency := frequency st;
         data_paydaySpecific := paydaySpecific st;
         data_dayOffInMonth := dayOffInMonth st;
         data_sss := parsedOrZero (sss st);
         data_philhealth := parsedOrZero (philhealth st);
         data_pagibig := parsedOrZero (pagibig st);
         data_tax := parsedOrZero (tax st);
         data_loans := parsedOrZero (loans st);
         data_voluntary := parsedOrZero (voluntary st) |} in
    match thrown with
    | NoThrow =>
        let st' := setMessage "Salary data saved successfully!" st' in
        let st' := setMessageType "success" st' in
        let st' := setIsActivelyEditing false st' in
        {| state := st'; loading := false; setDocCall := Some salaryData |}
    | ThrowError errorMessage =>
        let st' := setMessage ("Error saving salary data: " ++ errorMessage) st' in
        let st' := setMessageType "error" st' in
        {| state := st'; loading := false; setDocCall := Some salaryData |}
    | ThrowOther =>
        let st' := setMessage "Error saving salary data." st' in
        let st' := setMessageType "error" st' in
        {| state := st'; loading := false; setDocCall := Some salaryData |}
    end.

End SalaryPage.

(** ** App: what is rendered ([src/App.tsx], [App]) *)

Module AppShell.

(** What [renderPage] returns. *)
Inductive Rendered :=
  | FirebaseErrorBox
  | LoadingSpinner
  | AuthPage
  | DashboardPage
  | BanksPage
  | IncomesPage
  | SalaryPage
  | ExpensesPage
  | ProfilePage
  | HistoryPage.

(** [user] is whether a user is signed in. *)
Record State := {
  user : bool;
  loading : bool;
  currentPage : string;
  data : App.State
}.

Definition initial : State :=
  {| user := false; loading := true; currentPage := "dashboard";
     data := AppData.initial |}.

(** The callback of [onAuthStateChanged]. *)
Definition onAuthStateChanged (currentUser : bool) (st : State) : State :=
  {| user := currentUser; loading := false;
     currentPage := if currentUser then "dashboard" else "auth";
     data := data st |}.

(** [setCurrentPage], which the sidebar calls. *)
Definition setCurrentPage (page : string) (st : State) : State :=
  {| user := user st; loading := loading st; currentPage := page; data := data st |}.

(** The effect on [user] and [db]: without both, the totals are reset;
    [db] is whether the store is there. *)
Definition dataEffect (db : bool) (st : State) : State :=
  if negb (user st) || negb db then
    {| user := user st; loading := loading st; currentPage := currentPage st;
       data := AppData.signedOut (data st) |}
  else st.

(** [firebase] is [app && auth && db]. *)
Definition renderPage (firebase : bool) (st : State) : Rendered :=
  if negb firebase then FirebaseErrorBox
  else if loading st then LoadingSpinner
  else if negb (user st) then AuthPage
  else if currentPage st =? "dashboard" then DashboardPage
  else if currentPage st =? "banks" then BanksPage
  else if currentPage st =? "incomes" then IncomesPage
  else if currentPage st =? "salary" then SalaryPage
  else if currentPage st =? "expenses" then ExpensesPage
  else if currentPage st =? "profile" then ProfilePage
  else if currentPage st =? "history" then HistoryPage
  else DashboardPage.

(** The pages that show the data of a user. *)
Definition isDataPage (r : Rendered) : bool :=
  match r with
  | FirebaseErrorBox | LoadingSpinner | AuthPage => false
  | _ => true
  end.

End AppShell.

(** ** The lists of the pages ([src/App.tsx], the snapshot listeners of
    [Banks], [Incomes] and [Expenses]) *)

Module PageLists.

(** [x instanceof Timestamp ? x.toDate() : (x as Date)], kept as the
    field of the entry. *)
Definition toDateField (x : DateField) : DateField :=
  match x with
  | IsTimestamp toDate => IsDate toDate
  | _ => x
  end.

(** [(x instanceof Timestamp ? x.toDate() : x)?.getTime() || 0] *)
Definition getTimeOrZero (x : DateField) : Z :=
  match asDate x with
  | Some (Some t) => t
  | _ => 0
  end.

(** The comparison function of the three sorts, [dateB - dateA]; the
    sort looks at its sign only. *)
Definition byCreatedAt {A : Type} (createdAt : A -> DateField) (a b : A) : Z :=
  let dateA := getTimeOrZero (createdAt a) in
  let dateB := getTimeOrZero (createdAt b) in
  dateB - dateA.

Definition bankAccount (data : BankAccount) : BankAccount :=
  {| bank_id := bank_id data; acct_bankName := acct_bankName data;
     acct_fullName := acct_fullName data; last4Digits := last4Digits data;
     acct_expirationDate := acct_expirationDate data; acct_amount := acct_amount data;
     bank_createdAt := toDateField (bank_createdAt data) |}.

Definition incomeEntry (data : IncomeEntry) : IncomeEntry :=
  {| income_id := income_id data; businessName := businessName data;
     industry := industry data; incomeAmount := incomeAmount data;
     incomeDate := toDateField (incomeDate data);
     income_createdAt := toDateField (income_createdAt data) |}.

Definition expenseEntry (data : ExpenseEntry) : ExpenseEntry :=
  {| expense_id := expense_id data; expense_name := expense_name data;
     category := category data; expenseAmount := expenseAmount data;
     expenseDate := toDateField (expenseDate data);
     expense_createdAt := toDateField (expense_createdAt data) |}.

(** The three listeners: the list each page keeps. *)
Definition onBanksSnapshot (docs : list BankAccount) : list BankAccount :=
  let accounts := map bankAccount docs in
  Array_sort (byCreatedAt bank_createdAt) accounts.

Definition onIncomesSnapshot (docs : list IncomeEntry) : list IncomeEntry :=
  let entries := map incomeEntry docs in
  Array_sort (byCreatedAt income_createdAt) entries.

Definition onExpensesSnapshot (docs : list ExpenseEntry) : list ExpenseEntry :=
  let entries := map expenseEntry docs in
  Array_sort (byCreatedAt expense_createdAt) entries.

End PageLists.

(** ** Salary page: the payday input ([src/App.tsx], [renderPaydayInput]) *)

Module PaydayInput.

(** What is rendered: a select with its options, as value and label,
    or a date input. *)
Inductive Rendered :=
  | Select (options : list (string * string))
  | DateInput.

(** [Array.from({ length: 31 }, (_, i) => i + 1)] *)
Definition days : list Z := map (fun i => Z.of_nat i + 1) (seq 0 31).

Definition suffix (day : Z) : string :=
  if (day =? 1)%Z || (day =? 21)%Z || (day =? 31)%Z then "st"
  else if (day =? 2)%Z || (day =? 22)%Z then "nd"
  else if (day =? 3)%Z || (day =? 23)%Z then "rd"
  else "th".

Definition renderPaydayInput (frequency : string) : Rendered :=
  if frequency =? "Monthly" then
    Select (("", "Select Day")
            :: map (fun day => (digits_of day, digits_of day ++ suffix day)) days)
  else if frequency =? "Weekly" then
    Select [("", "Select Day"); ("Monday", "Monday"); ("Tuesday", "Tuesday");
            ("Wednesday", "Wednesday"); ("Thursday", "Thursday"); ("Friday", "Friday")]
  else DateInput.

End PaydayInput.

(** * The specification *)

(** Definitions that follow the words of the specification. *)

Module Spec.

(** The amount a field stands for: the number it parses to, and 0 when
    it is missing or does not parse. *)
Definition amount (v : value) : number :=
  let x := parseFloat_String v in
  if PrimFloat.is_nan x then 0%float else x.

Inductive Frequency := Weekly | Fortnightly | Monthly.

Definition frequencyName (f : Frequency) : string :=
  match f with
  | Weekly => "Weekly"
  | Fortnightly => "Fortnightly"
  | Monthly => "Monthly"
  end.

(** [gross] if Monthly, [gross * 365/7/12] if Weekly,
    [gross * 365/14/12] if Fortnightly. *)
Definition monthlyIncome (f : Frequency) (gross : number) : number :=
  match f with
  | Monthly => gross
  | Weekly => (gross * (365 / 7 / 12))%float
  | Fortnightly => (gross * (365 / 14 / 12))%float
  end.

(** The balance after [i] months, before any rounding. *)
Fixpoint projectedBalance (totalBankBalance monthlyNetCashFlow : number) (i : nat) : number :=
  match i with
  | O => totalBankBalance
  | S k => (projectedBalance totalBankBalance monthlyNetCashFlow k + monthlyNetCashFlow)%float
  end.

(** The forecast as the specification words it: seven points, the
    first is the rounded balance, each later one the rounded sum of
    the point before it and the monthly net cash flow. *)
Definition roundedRecurrence (totalBankBalance monthlyNetCashFlow : number)
    (forecast : list number) : Prop :=
  length forecast = 7%nat
  /\ nth 0 forecast nan = parseFloat_toFixed2 totalBankBalance
  /\ forall i, (1 <= i <= 6)%nat ->
       nth i forecast nan
       = parseFloat_toFixed2 (nth (i - 1) forecast nan + monthlyNetCashFlow)%float.

(** The total of a list of numbers, added from left to right. *)
Fixpoint totalFrom (acc : number) (xs : list number) : number :=
  match xs with
  | [] => acc
  | x :: rest => totalFrom (acc + x)%float rest
  end.

Definition arithmeticTotal (xs : list number) : number := totalFrom 0%float xs.

(** Sunday 00:00 of the week of the instant [t]: local midnight of the
    calendar day of [t] moved back by its weekday offset. *)
Definition weekStart (tz : TimeZone) (t : Z) : Z :=
  UTC tz (MakeDate (Day (LocalTime tz t) - WeekDay (LocalTime tz t)) 0).

(** The next Sunday 00:00: local midnight of the calendar day seven
    days after that Sunday. *)
Definition weekEnd (tz : TimeZone) (t : Z) : Z :=
  UTC tz (MakeDate (Day (LocalTime tz t) - WeekDay (LocalTime tz t) + 7) 0).

(** The date of the field is a valid instant in [lo, hi). *)
Definition datedWithin (lo hi : Z) (x : DateField) : bool :=
  match asDate x with
  | Some (Some d) => (lo <=? d)%Z && (d <? hi)%Z
  | _ => false
  end.

End Spec.

(** Reading a line of quoted cells back: a cell starts at a double
    quote and ends at the next double quote that is not followed by
    another one; two double quotes in a row stand for one; cells are
    separated by a comma. *)
Module CsvReader.

Inductive Mode :=
  | Outside      (* at the start of a cell *)
  | Inside       (* after the opening double quote *)
  | QuoteSeen.   (* after a double quote inside the cell *)

Fixpoint readCells (mode : Mode) (cell : string) (cells : list string) (s : string)
    : option (list string) :=
  match s with
  | EmptyString =>
      match mode with
      | QuoteSeen => Some (cells ++ [cell])%list
      | Outside => match cells with [] => Some [] | _ => None end
      | Inside => None
      end
  | String c rest =>
      match mode with
      | Outside =>
          if (c =? dquote)%char then readCells Inside "" cells rest else None
      | Inside =>
          if (c =? dquote)%char then readCells QuoteSeen cell cells rest
          else readCells Inside (cell ++ String c "") cells rest
      | QuoteSeen =>
          if (c =? dquote)%char then readCells Inside (cell ++ String dquote "") cells rest
          else if (c =? ",")%char then readCells Outside "" (cells ++ [cell])%list rest
          else None
      end
  end.

Definition readLine (s : string) : option (list string) := readCells Outside "" [] s.

End CsvReader.

(** The CSV export as the specification words it: a row is the fields
    of the record, each between double quotes with its own double
    quotes doubled, separated by commas. *)
Module SpecCsv.

(** The text with every double quote written twice. *)
Definition doubled (field : string) : string :=
  String.concat ""
    (map (fun c => if (c =? dquote)%char then String dquote (String dquote "")
                   else String c "")
       (list_ascii_of_string field)).

Definition quoted (field : string) : string :=
  String dquote (doubled field ++ String dquote "").

Definition row (fields : list string) : string :=
  String.concat "," (map quoted fields).

Section Fields.

Variable toLocaleDateString : Date -> string.

(** The text of a date field: the local short date of its date, empty
    when the record has no such date. *)
Definition dateText (x : DateField) : string :=
  match asDate x with
  | Some d => toLocaleDateString d
  | None => ""
  end.

(** The fields of the records, as texts, in the order of the column
    names. A missing number of the salary record stands as 0. *)
Definition expenseFields (item : ExpenseEntry) : list string :=
  [ expense_id item; expense_name item; category item;
    ToString (expenseAmount item);
    dateText (expenseDate item); dateText (expense_createdAt item) ].

Definition incomeFields (item : IncomeEntry) : list string :=
  [ income_id item; businessName item; industry item;
    ToString (incomeAmount item);
    dateText (incomeDate item); dateText (income_createdAt item) ].

Definition salaryFields (salaryData : SalaryDetails) : list string :=
  [ ToString (value_or_zero (salary salaryData));
    frequency salaryData; paydaySpecific salaryData; dayOffInMonth salaryData;
    ToString (value_or_zero (sss salaryData));
    ToString (value_or_zero (philhealth salaryData));
    ToString (value_or_zero (pagibig salaryData));
    ToString (value_or_zero (tax salaryData));
    ToString (value_or_zero (loans salaryData));
    ToString (value_or_zero (voluntary salaryData));
    dateText (lastUpdated salaryData) ].

End Fields.

End SpecCsv.

(** The downloaded file. *)
Module SpecFile.

(** The text of one section: its header line, the CSV and a blank line. *)
Definition section (title csv : string) : string :=
  title ++ nl ++ csv ++ nl ++ nl.

(** The file as the specification words it: the three sections, in
    this order, whatever the data. *)
Definition threeSections (content : string) : Prop :=
  exists expensesCsv incomesCsv salaryCsv : string,
    content
    = section "--- Expenses ---" expensesCsv
      ++ section "--- Incomes ---" incomesCsv
      ++ section "--- Salary Details ---" salaryCsv.

(** The sections of the collections that have data, in the order of
    the file. *)
Definition presentSections (toLocaleDateString : Date -> string)
    (expenses : list ExpenseEntry) (incomes : list IncomeEntry)
    (salaryDetails : option SalaryDetails) : list string :=
  ((match expenses with
    | [] => []
    | _ => [section "--- Expenses ---"
              (convertToCSV toLocaleDateString (expenses_ expenses))]
    end)
   ++ (match incomes with
       | [] => []
       | _ => [section "--- Incomes ---"
                 (convertToCSV toLocaleDateString (incomes_ incomes))]
       end)
   ++ (match salaryDetails with
       | None => []
       | Some _ => [section "--- Salary Details ---"
                      (convertToCSV toLocaleDateString (salary_ salaryDetails))]
       end))%list.

End SpecFile.

(** A reference instant and entries around its week: Monday
    2025-11-03 08:00 in a zone eight hours ahead of UTC. *)
Module Sample.

(** Manila, eight hours east of UTC all year, on Monday 3 November
    2025 at 00:00 UTC. *)
Definition tza : Z := 28800000.
Definition zone : TimeZone := fixedOffset tza.
Definition now : Z := 1762128000000.

(** New York in 2025: five hours west of UTC, and four from 9 March
    07:00 UTC to 2 November 06:00 UTC. *)
Definition newYork : TimeZone :=
  {| initialOffset := -18000000;
     transitions := [(1741503600000, -14400000); (1762063200000, -18000000)] |}.

Definition income (id : string) (amount : value) (date : DateField) : IncomeEntry :=
  {| income_id := id; businessName := "Shop"; industry := "Retail";
     incomeAmount := amount; incomeDate := date; income_createdAt := NoDate |}.

Definition expense (id : string) (amount : value) (date : DateField) : ExpenseEntry :=
  {| expense_id := id; expense_name := "Rent"; category := "Bills";
     expenseAmount := amount; expenseDate := date; expense_createdAt := NoDate |}.

Definition incomes : list IncomeEntry :=
  [ income "saturday-night" (VNum 10%float) (IsDate (Some 1762012799999));
    income "sunday-midnight" (VNum 20%float) (IsTimestamp (Some 1762012800000));
    income "today" (VStr "30.5") (IsDate (Some 1762128000000));
    income "no-date" (VStr "abc") NoDate;
    income "invalid-date" VUndefined (IsDate None);
    income "next-saturday-night" (VNum 40%float) (IsDate (Some 1762617599999));
    income "next-sunday-midnight" (VNum 50%float) (IsDate (Some 1762617600000)) ].

Definition expenses : list ExpenseEntry :=
  [ expense "last-month" (VNum 500%float) (IsDate (Some 1759000000000));
    expense "today" (VNum 12.25%float) (IsTimestamp (Some 1762128000000)) ].

Definition salaryDetails : SalaryDetails :=
  {| salary := VNum 7000%float; frequency := "Weekly"; paydaySpecific := "Friday";
     dayOffInMonth := "1";
     sss := VNum 100%float; philhealth := VStr "abc"; pagibig := VNum 12.5%float;
     tax := VUndefined; loans := VStr ""; voluntary := VStr "1e1";
     lastUpdated := NoDate |}.

End Sample.

(** The starts of the periods of the filter, as instants: local
    midnight of the day of [t], of the first day of its month and of
    the first day of a year. *)
Module Periods.

Definition dayStart (tz : TimeZone) (t : Z) : Z :=
  UTC tz (MakeDate (Day (LocalTime tz t)) 0).

Definition yearStart (tz : TimeZone) (y : Z) : Z :=
  UTC tz (MakeDate (DayFromYear y) 0).

(** Local midnight of the first day of month [m] of year [y]; month 12
    is January of the next year. *)
Definition monthStartOf (tz : TimeZone) (y m : Z) : Z :=
  UTC tz (MakeDate (DayFromYear y + monthStart (isLeapYear y) m) 0).

(** The entry has a date, and the date is a valid one. *)
Definition hasValidDate (x : DateField) : bool :=
  match asDate x with
  | Some (Some _) => true
  | _ => false
  end.

(** The date of the field is a valid instant after [lo]. *)
Definition datedAfter (lo : Z) (x : DateField) : bool :=
  match asDate x with
  | Some (Some d) => (lo <? d)%Z
  | _ => false
  end.

End Periods.

(** Shapes of the strings of the bank form. *)
Module Shapes.

Fixpoint allDigits (s : string) : bool :=
  match s with
  | EmptyString => true
  | String c r => Banks.isDigit c && allDigits r
  end.

(** Nothing, one or two digits, or two digits, a slash and one or two
    digits: what is typed of [MM/YY] so far. *)
Definition expirationShape (s : string) : bool :=
  match s with
  | EmptyString => true
  | String a EmptyString => Banks.isDigit a
  | String a (String b EmptyString) => Banks.isDigit a && Banks.isDigit b
  | String a (String b (String "/"%char (String c EmptyString))) =>
      Banks.isDigit a && Banks.isDigit b && Banks.isDigit c
  | String a (String b (String "/"%char (String c (String d EmptyString)))) =>
      Banks.isDigit a && Banks.isDigit b && Banks.isDigit c && Banks.isDigit d
  | _ => false
  end.

End Shapes.

(** A bank account as the page lists it, and the form filled in. *)
Module SampleForms.

Definition account : BankAccount :=
  {| bank_id := "acct-1"; acct_bankName := "BDO"; acct_fullName := "Juan Cruz";
     last4Digits := "4821"; acct_expirationDate := "08/27";
     acct_amount := VNum 1500.5%float;
     bank_createdAt := IsTimestamp (Some 1759000000000) |}.

Definition bankForm : Banks.State :=
  {| Banks.showForm := true; Banks.isEditing := false;
     Banks.currentEditAccount := None;
     Banks.bankName := "BDO"; Banks.fullName := "Juan Cruz";
     Banks.cardNumber := "4000123412344821"; Banks.expirationDate := "08/27";
     Banks.amount := "1500.50";
     Banks.message := ""; Banks.messageType := "success" |}.

(** What saving [bankForm] writes. *)
Definition bankData : Banks.BankData :=
  {| Banks.data_bankName := "BDO"; Banks.data_fullName := "Juan Cruz";
     Banks.data_last4Digits := "4821"; Banks.data_expirationDate := "08/27";
     Banks.data_amount := 1500.5%float;
     Banks.data_createdAt := ServerTimestamp |}.

(** What saving [account], opened in the form and left as it is,
    writes. *)
Definition accountData : Banks.BankData :=
  {| Banks.data_bankName := "BDO"; Banks.data_fullName := "Juan Cruz";
     Banks.data_last4Digits := "4821"; Banks.data_expirationDate := "08/27";
     Banks.data_amount := 1500.5%float;
     Banks.data_createdAt := KeepTimestamp (Some 1759000000000) |}.

End SampleForms.

(** An income and an expense as the pages list them, and what saving
    them, opened in the form and left as they are, writes. *)
Module SampleEntries.

Definition income : IncomeEntry :=
  {| income_id := "inc-1"; businessName := "Shop"; industry := "Retail";
     incomeAmount := VNum 250.75%float;
     incomeDate := IsTimestamp (Some 1762128000000);
     income_createdAt := IsDate (Some 1759000000000) |}.

Definition incomeData : IncomeForm.IncomeData :=
  {| IncomeForm.data_businessName := "Shop"; IncomeForm.data_industry := "Retail";
     IncomeForm.data_incomeAmount := 250.75%float;
     IncomeForm.data_incomeDate := Some 1762128000000;
     IncomeForm.data_createdAt := TimestampFromDate (Some 1759000000000) |}.

(** Dated 2025-11-03 10:30 UTC. *)
Definition expense : ExpenseEntry :=
  {| expense_id := "exp-1"; expense_name := "Rent"; category := "Bills";
     expenseAmount := VStr "12000";
     expenseDate := IsDate (Some 1762165800000);
     expense_createdAt := NoDate |}.

Definition expenseData : ExpenseForm.ExpenseData :=
  {| ExpenseForm.data_name := "Rent"; ExpenseForm.data_category := "Bills";
     ExpenseForm.data_expenseAmount := 12000%float;
     ExpenseForm.data_expenseDate := Some 1762128000000;
     ExpenseForm.data_createdAt := ServerTimestamp |}.

(** The income form as [handleAddIncomeClick] opens it at
    [Sample.now], filled in; and the like for an expense. *)
Definition incomeForm : IncomeForm.State :=
  IncomeForm.setIncomeAmount "99.5"
    (IncomeForm.setIndustry "Retail"
       (IncomeForm.setBusinessName "Shop"
          (IncomeForm.handleAddIncomeClick Sample.now
             {| IncomeForm.showForm := false; IncomeForm.isEditing := false;
                IncomeForm.currentEditIncome := None;
                IncomeForm.businessName := ""; IncomeForm.industry := "";
                IncomeForm.incomeAmount := ""; IncomeForm.incomeDate := "";
                IncomeForm.message := ""; IncomeForm.messageType := "success" |}))).

Definition expenseForm : ExpenseForm.State :=
  ExpenseForm.setExpenseAmount "45"
    (ExpenseForm.setExpenseCategory "Food"
       (ExpenseForm.setExpenseName "Lunch"
          (ExpenseForm.handleAddExpenseClick Sample.now
             {| ExpenseForm.showForm := false; ExpenseForm.isEditing := false;
                ExpenseForm.currentEditExpense := None;
                ExpenseForm.expenseName := ""; ExpenseForm.expenseCategory := "";
                ExpenseForm.expenseAmount := ""; ExpenseForm.expenseDate := "";
                ExpenseForm.message := ""; ExpenseForm.messageType := "success" |}))).

(** What [new Date] gives on other strings does not matter here. *)
Definition dateOther (s : string) : Date := None.

End SampleEntries.

(** The salary form as a tuple, and the three figures its fields give. *)
Module SalaryForm.

Definition formOf (st : SalaryPage.State)
    : value * string * string * string * (value * value * value * value * value * value) :=
  (SalaryPage.salary st, SalaryPage.frequency st, SalaryPage.paydaySpecific st,
   SalaryPage.dayOffInMonth st,
   (SalaryPage.sss st, SalaryPage.philhealth st, SalaryPage.pagibig st,
    SalaryPage.tax st, SalaryPage.loans st, SalaryPage.voluntary st)).

Definition figuresOfForm (st : SalaryPage.State) : Salary.State :=
  Salary.calculateSalary (SalaryPage.salary st) (SalaryPage.frequency st)
    (SalaryPage.dayOffInMonth st)
    (SalaryPage.sss st) (SalaryPage.philhealth st) (SalaryPage.pagibig st)
    (SalaryPage.tax st) (SalaryPage.loans st) (SalaryPage.voluntary st)
    Salary.initial.

(** A run of snapshots of the salary document, in the order they come. *)
Definition snapshots (docs : list (option SalaryDetails)) (st : SalaryPage.State)
    : SalaryPage.State :=
  fold_left (fun st docSnap => SalaryPage.onSnapshot docSnap st) docs st.

End SalaryForm.

(** The order of the lists of the pages: [a] is not older than [b],
    where a creation time that is missing or invalid counts as the
    epoch; and the entries created at the instant [k]. *)
Module Order.

Definition newestFirst {A : Type} (createdAt : A -> DateField) (a b : A) : Prop :=
  PageLists.getTimeOrZero (createdAt b) <= PageLists.getTimeOrZero (createdAt a).

Definition createdAtInstant {A : Type} (createdAt : A -> DateField) (k : Z)
    (l : list A) : list A :=
  List.filter (fun a => PageLists.getTimeOrZero (createdAt a) =? k)%Z l.

End Order.

(** The column names of each kind of data. *)
Module CsvShape.

Definition headers (d : CsvData) : list string :=
  match d with
  | expenses_ _ => expenseHeaders
  | incomes_ _ => incomeHeaders
  | salary_ _ => salaryHeaders
  end.

End CsvShape.

(** The suffix of an English ordinal: th for 11, 12 and 13 and the
    numbers that end so, else st, nd, rd by the last digit 1, 2, 3, and
    th. *)
Module English.

Definition ordinalSuffix (n : Z) : string :=
  if (n mod 100 =? 11)%Z || (n mod 100 =? 12)%Z || (n mod 100 =? 13)%Z then "th"
  else if (n mod 10 =? 1)%Z then "st"
  else if (n mod 10 =? 2)%Z then "nd"
  else if (n mod 10 =? 3)%Z then "rd"
  else "th".

End English.

(** * What the program does *)

(** ** Numbers *)

(** [parseFloat(String(v)) || 0] is, as a number, the amount of [v]:
    the two differ at most in the sign of a zero. *)
Lemma parsed_is_amount (v : value) :
  (Spec.amount v =? parsedOrZero v)%float = true.
Proof.
  unfold Spec.amount, parsedOrZero, or_zero.
  destruct (PrimFloat.is_nan (parseFloat_String v)) eqn:Hnan; simpl.
  - reflexivity.
  - destruct (PrimFloat.is_zero (parseFloat_String v)) eqn:Hzero.
    + exact Hzero.
    + unfold PrimFloat.is_nan in Hnan.
      now apply negb_false_iff in Hnan.
Qed.

(** A field that does not parse counts as 0. *)
Lemma parsed_unparsable (v : value) :
  PrimFloat.is_nan (parseFloat_String v) = true -> parsedOrZero v = 0%float.
Proof.
  intros Hnan. unfold parsedOrZero, or_zero. now rewrite Hnan.
Qed.

(** The platform functions at values of the specification and of the
    language standard. *)
Example parseFloat_examples :
  map parseFloat ["7000"; "  12.5abc"; "-.5e1"; "1e+21"; "0x10"; "-0"]
  = [7000; 12.5; -5; 1e21; 0; -0]%float
  /\ map (fun s => PrimFloat.is_nan (parseFloat s)) [""; "abc"; "."; "undefined"; "+-1"]
     = [true; true; true; true; true].
Proof. vm_compute. split; reflexivity. Qed.

(** [parseFloat] skips the white space of more than one byte as well:
    a no-break space, a line separator, a byte order mark. *)
Example parseFloat_white_space :
  map parseFloat
    [String (ascii_of_nat 194) (String (ascii_of_nat 160) "22.5");
     String (ascii_of_nat 226) (String (ascii_of_nat 128) (String (ascii_of_nat 168) " 7"));
     String (ascii_of_nat 239) (String (ascii_of_nat 187) (String (ascii_of_nat 191) "-3"))]
  = [22.5; 7; -3]%float
  /\ PrimFloat.is_nan
       (parseFloat (String (ascii_of_nat 226) (String (ascii_of_nat 128)
                      (String (ascii_of_nat 139) "1")))) = true.
Proof. vm_compute. split; reflexivity. Qed.

Example Number_toString_examples :
  map Number_toString
    [0; -0; 500; 12.5; 0.1; 0.1 + 0.2; 1e21; 123456789012345680000; 1e-7; 0.000001;
     5e-324; 1.7976931348623157e308; -1363.6363636363637; nan; neg_infinity]%float
  = ["0"; "0"; "500"; "12.5"; "0.1"; "0.30000000000000004"; "1e+21";
     "123456789012345680000"; "1e-7"; "0.000001"; "5e-324"; "1.7976931348623157e+308";
     "-1363.6363636363637"; "NaN"; "-Infinity"].
Proof. vm_compute. reflexivity. Qed.

Example toFixed2_examples :
  map toFixed2 [1000; 0.005; 1.005; 0.125; 2.5; 10.235; -0.001; -0; 1e21; nan]%float
  = ["1000.00"; "0.01"; "1.00"; "0.13"; "2.50"; "10.23"; "-0.00"; "0.00"; "1e+21"; "NaN"].
Proof. vm_compute. reflexivity. Qed.

(** 2024-02-29 was a Thursday; so was 1970-01-01. *)
Example calendar_examples :
  (getFullYear (fixedOffset 0) (Some 1709164800000), getMonth (fixedOffset 0) (Some 1709164800000),
   getDate (fixedOffset 0) (Some 1709164800000), getDay (fixedOffset 0) (Some 1709164800000))
  = (Some 2024, Some 1, Some 29, Some 4)
  /\ new_Date (fixedOffset 0) (Some 2024) (Some 2) (Some 0) = Some 1709164800000
  /\ getDay (fixedOffset 0) (Some 0) = Some 4
  /\ new_Date (fixedOffset 28800000) (Some 2025) (Some 10) (Some (3 - 1))
     = Some 1762012800000.
Proof. vm_compute. repeat split. Qed.

(** In New York the clocks were set forward on 9 March 2025 at 07:00
    UTC and back on 2 November at 06:00 UTC. Local 02:30 of 9 March was
    skipped and is read with the offset in force before, as 07:30 UTC;
    local 01:30 of 2 November came twice and is read as the first of
    the two, 05:30 UTC. *)
Example new_york_examples :
  map (fun t => LocalTime Sample.newYork t - t)
    [1741503599999; 1741503600000; 1762063199999; 1762063200000]
  = [-18000000; -14400000; -14400000; -18000000]
  /\ UTC Sample.newYork (MakeDate (Day 1741503600000) 9000000) = 1741505400000
  /\ UTC Sample.newYork (MakeDate (Day 1762063200000) 5400000) = 1762061400000
  /\ new_Date Sample.newYork (Some 2025) (Some 10) (Some 2) = Some 1762056000000
  /\ new_Date Sample.newYork (Some 2025) (Some 10) (Some 9) = Some 1762664400000.
Proof. vm_compute. repeat split; reflexivity. Qed.

(** ** Dashboard *)

Example forecast_1000_500 :
  Dashboard.forecast 1000%float 500%float = [1000; 1500; 2000; 2500; 3000; 3500; 4000]%float.
Proof. vm_compute. reflexivity. Qed.

(** An empty account and a weekly pay of 7000 without deductions. *)
Example forecast_weekly_7000 :
  Dashboard.forecast 0%float (7000 * (365 / 7 / 12))%float
  = [0; 30416.67; 60833.33; 91250; 121666.67; 152083.33; 182500]%float.
Proof. vm_compute. reflexivity. Qed.

(** Starting the projection one month later. *)
Lemma projectedBalance_shift (balance monthlyNetCashFlow : number) (k : nat) :
  Spec.projectedBalance (balance + monthlyNetCashFlow)%float monthlyNetCashFlow k
  = Spec.projectedBalance balance monthlyNetCashFlow (S k).
Proof.
  induction k as [|k IH]; simpl.
  - reflexivity.
  - now rewrite IH.
Qed.

(** The loop of the forecast: after the months [months], the running
    balance has moved by one net cash flow per month, and each month
    has pushed the rounded running balance of that month. *)
Lemma forecastStep_loop (monthlyNetCashFlow : number) (months : list Z)
    (balance : number) (data : list Dashboard.ForecastPoint) :
  let result := fold_left (Dashboard.forecastStep monthlyNetCashFlow) months (balance, data) in
  fst result = Spec.projectedBalance balance monthlyNetCashFlow (length months)
  /\ map Dashboard.Balance (snd result)
     = (map Dashboard.Balance data
        ++ map (fun k => parseFloat_toFixed2
                           (Spec.projectedBalance balance monthlyNetCashFlow k))
             (seq 1 (length months)))%list.
Proof.
  revert balance data. induction months as [|i months IH]; intros balance data.
  - simpl. split; [reflexivity | now rewrite app_nil_r].
  - set (point := {| Dashboard.name := "Month " ++ digits_of i;
                     Dashboard.Balance :=
                       parseFloat_toFixed2 (balance + monthlyNetCashFlow)%float |}).
    change (fold_left (Dashboard.forecastStep monthlyNetCashFlow) (i :: months)
              (balance, data))
      with (fold_left (Dashboard.forecastStep monthlyNetCashFlow) months
              ((balance + monthlyNetCashFlow)%float, (data ++ [point])%list)).
    destruct (IH (balance + monthlyNetCashFlow)%float (data ++ [point])%list)
      as [Hfst Hsnd].
    cbv zeta. split.
    + etransitivity; [exact Hfst | apply projectedBalance_shift].
    + etransitivity; [exact Hsnd |].
      rewrite map_app, <- app_assoc.
      change (length (i :: months)) with (S (length months)).
      cbn [seq map app]. do 2 f_equal.
      rewrite <- (seq_shift (length months) 1), map_map.
      apply map_ext. intros k. f_equal. apply projectedBalance_shift.
Qed.

(** C1, as the specification words it, fails: with an empty account
    and a weekly pay of 7000 without deductions, the net cash flow is
    30416.666..., month 1 shows 30416.67 and month 2 shows 60833.33,
    the rounded 60833.333..., not the rounded 30416.67 + 30416.666...,
    which is 60833.34. *)
Lemma forecast_not_rounded_recurrence :
  ~ Spec.roundedRecurrence 0%float (7000 * (365 / 7 / 12))%float
      (Dashboard.forecast 0%float (7000 * (365 / 7 / 12))%float).
Proof.
  intros (_ & _ & Hrec).
  specialize (Hrec 2%nat ltac:(lia)).
  apply (f_equal (fun x => (x =? 60833.33)%float)) in Hrec.
  vm_compute in Hrec. discriminate.
Qed.

(** C1, amended: the forecast has seven points and point [i], from 0
    to 6, is the balance projected for month [i], that is the bank
    balance with the net cash flow added [i] times without rounding in
    between, rounded to two decimals on its own. *)
Theorem forecast_rounds_projected_balance (totalBankBalance monthlyNetCashFlow : number) :
  Dashboard.forecast totalBankBalance monthlyNetCashFlow
  = map (fun i => parseFloat_toFixed2
                    (Spec.projectedBalance totalBankBalance monthlyNetCashFlow i))
        (seq 0 7).
Proof.
  unfold Dashboard.forecast, Dashboard.forecastData.
  destruct (forecastStep_loop monthlyNetCashFlow [1; 2; 3; 4; 5; 6] totalBankBalance
              ([] ++ [ {| Dashboard.name := "Current";
                          Dashboard.Balance := parseFloat_toFixed2 totalBankBalance |} ])%list)
    as [_ Hdata].
  etransitivity; [exact Hdata | reflexivity].
Qed.

(** ** Salary calculator *)

(** C2: the monthly income is the gross pay for Monthly, the gross pay
    times 365/7/12 for Weekly and times 365/14/12 for Fortnightly,
    where the gross pay is the number the field parses to and 0 when
    the field is missing or does not parse. *)
Theorem monthlyIncome_by_frequency
    (currentSalary : value) (f : Spec.Frequency) (currentDayOffInMonth : string)
    (currentSss currentPhilhealth currentPagibig currentTax currentLoans
       currentVoluntary : value)
    (st : Salary.State) :
  Salary.monthlyIncome
    (Salary.calculateSalary currentSalary (Spec.frequencyName f) currentDayOffInMonth
       currentSss currentPhilhealth currentPagibig currentTax currentLoans
       currentVoluntary st)
  = Spec.monthlyIncome f (parsedOrZero currentSalary)
  /\ (Spec.amount currentSalary =? parsedOrZero currentSalary)%float = true.
Proof.
  split.
  - destruct f; reflexivity.
  - apply parsed_is_amount.
Qed.

(** C3: with one day off a week the month has 26 workdays, with two
    it has 22; both are positive, so the guard never yields 0 and the
    daily income is the monthly income divided by the workdays. *)
Theorem dailyIncome_by_workdays
    (currentSalary : value) (currentFrequency currentDayOffInMonth : string)
    (currentSss currentPhilhealth currentPagibig currentTax currentLoans
       currentVoluntary : value)
    (st : Salary.State) :
  currentDayOffInMonth = "1" \/ currentDayOffInMonth = "2" ->
  let st' :=
    Salary.calculateSalary currentSalary currentFrequency currentDayOffInMonth
      currentSss currentPhilhealth currentPagibig currentTax currentLoans
      currentVoluntary st in
  let workdays := Salary.workdaysInMonth currentDayOffInMonth in
  workdays = (if currentDayOffInMonth =? "1" then 26%float else 22%float)
  /\ (0 <? workdays)%float = true
  /\ Salary.dailyIncome st' = (Salary.monthlyIncome st' / workdays)%float.
Proof.
  intros [-> | ->]; repeat split.
Qed.

(** C3 at a weekly pay of 7000 with one day off a week. *)
Lemma dailyIncome_by_workdays_witness :
  ("1" = "1" \/ "1" = "2")
  /\ Salary.workdaysInMonth "1" = 26%float
  /\ (0 <? Salary.workdaysInMonth "1")%float = true
  /\ Salary.dailyIncome
       (Salary.calculateSalary (VStr "7000") "Weekly" "1"
          (VStr "") (VStr "") (VStr "") (VStr "") (VStr "") (VStr "") Salary.initial)
     = (Salary.monthlyIncome
          (Salary.calculateSalary (VStr "7000") "Weekly" "1"
             (VStr "") (VStr "") (VStr "") (VStr "") (VStr "") (VStr "") Salary.initial)
        / Salary.workdaysInMonth "1")%float.
Proof.
  split; [left; reflexivity |].
  apply (dailyIncome_by_workdays (VStr "7000") "Weekly" "1" (VStr "") (VStr "") (VStr "")
           (VStr "") (VStr "") (VStr "") Salary.initial).
  left. reflexivity.
Defined.

Example salary_30000_monthly :
  let st' :=
    Salary.calculateSalary (VNum 30000%float) "Monthly" "2"
      VUndefined VUndefined VUndefined VUndefined VUndefined VUndefined Salary.initial in
  Salary.monthlyIncome st' = 30000%float
  /\ Salary.dailyIncome st' = (30000 / 22)%float
  /\ Salary.totalDeductions st' = 0%float.
Proof. vm_compute. repeat split. Qed.

Example salary_7000_weekly :
  let st' :=
    Salary.calculateSalary (VStr "7000") "Weekly" "1"
      (VStr "100") (VStr "abc") (VNum 12.5%float) VUndefined (VStr "") (VStr "1e1")
      Salary.initial in
  Salary.monthlyIncome st' = (7000 * (365 / 7 / 12))%float
  /\ Salary.dailyIncome st' = (7000 * (365 / 7 / 12) / 26)%float
  /\ Salary.totalDeductions st' = 122.5%float.
Proof. vm_compute. repeat split. Qed.

(** C10: the monthly and the daily income do not depend on the six
    deduction fields (nor on what the page showed before), and the
    total of the deductions does not depend on the gross pay, the
    frequency or the days off. *)
Theorem salary_outputs_independent
    (salary1 salary2 : value) (frequency1 frequency2 dayOff1 dayOff2 : string)
    (sss1 philhealth1 pagibig1 tax1 loans1 voluntary1 : value)
    (sss2 philhealth2 pagibig2 tax2 loans2 voluntary2 : value)
    (st1 st2 : Salary.State) :
  let run salary frequency dayOff sss philhealth pagibig tax loans voluntary st :=
    Salary.calculateSalary salary frequency dayOff sss philhealth pagibig tax loans
      voluntary st in
  (Salary.monthlyIncome
     (run salary1 frequency1 dayOff1 sss1 philhealth1 pagibig1 tax1 loans1 voluntary1 st1)
   = Salary.monthlyIncome
       (run salary1 frequency1 dayOff1 sss2 philhealth2 pagibig2 tax2 loans2 voluntary2 st2))
  /\ (Salary.dailyIncome
        (run salary1 frequency1 dayOff1 sss1 philhealth1 pagibig1 tax1 loans1 voluntary1 st1)
      = Salary.dailyIncome
          (run salary1 frequency1 dayOff1 sss2 philhealth2 pagibig2 tax2 loans2 voluntary2 st2))
  /\ (Salary.totalDeductions
        (run salary1 frequency1 dayOff1 sss1 philhealth1 pagibig1 tax1 loans1 voluntary1 st1)
      = Salary.totalDeductions
          (run salary2 frequency2 dayOff2 sss1 philhealth1 pagibig1 tax1 loans1 voluntary1 st2)).
Proof. repeat split. Qed.

(** ** Monthly net cash flow *)

(** C5: when the salary document exists, the monthly net cash flow is
    the monthly income of the salary calculator minus its total
    deductions, the total being the sum of the six deduction fields
    with a field that does not parse counted as 0; when the document
    does not exist it is 0. *)
Theorem monthlyNetCashFlow_from_salary (data : SalaryDetails) (st : App.State)
    (page : Salary.State) :
  let calc :=
    Salary.calculateSalary (salary data) (frequency data) (dayOffInMonth data)
      (sss data) (philhealth data) (pagibig data) (tax data) (loans data)
      (voluntary data) page in
  App.monthlyNetCashFlow (App.onSalarySnapshot (Some data) st)
  = (Salary.monthlyIncome calc - Salary.totalDeductions calc)%float
  /\ Salary.totalDeductions calc
     = (parsedOrZero (sss data) + parsedOrZero (philhealth data)
        + parsedOrZero (pagibig data) + parsedOrZero (tax data)
        + parsedOrZero (loans data) + parsedOrZero (voluntary data))%float
  /\ Forall (fun v => (Spec.amount v =? parsedOrZero v)%float = true)
       [sss data; philhealth data; pagibig data; tax data; loans data; voluntary data]
  /\ App.monthlyNetCashFlow (App.onSalarySnapshot None st) = 0%float.
Proof.
  repeat split.
  repeat constructor; apply parsed_is_amount.
Qed.

(** ** Period filter *)

Section FilterFacts.

Context {A : Type}.

Lemma filter_sublist_input (p : A -> bool) (l : list A) :
  List.filter p l `sublist_of` l.
Proof.
  induction l as [|x l IH]; simpl.
  - constructor.
  - destruct (p x); now constructor.
Qed.

(** A stricter test keeps a sublist of what a weaker test keeps. *)
Lemma filter_sublist_weaker (p q : A -> bool) (l : list A) :
  (forall x, p x = true -> q x = true) ->
  List.filter p l `sublist_of` List.filter q l.
Proof.
  intros Hpq. induction l as [|x l IH]; simpl.
  - constructor.
  - destruct (p x) eqn:Hp.
    + rewrite (Hpq x Hp). now constructor.
    + destruct (q x); [now constructor | exact IH].
Qed.

End FilterFacts.

Section PeriodFilterFacts.

Context {Entry : Type}.
Variable dateOf : Entry -> DateField.
Variable amountOf : Entry -> value.
Variable tz : TimeZone.
Variable now : Date.

Lemma inDay_inMonth (entry : Entry) :
  inDay dateOf tz now entry = true -> inMonth dateOf tz now entry = true.
Proof.
  unfold inDay, inMonth. destruct (asDate (dateOf entry)); [|discriminate].
  intros H. apply andb_true_iff in H as [H Hy]. apply andb_true_iff in H as [_ Hm].
  now rewrite Hm, Hy.
Qed.

Lemma inMonth_inYear (entry : Entry) :
  inMonth dateOf tz now entry = true -> inYear dateOf tz now entry = true.
Proof.
  unfold inMonth, inYear. destruct (asDate (dateOf entry)); [|discriminate].
  intros H. now apply andb_true_iff in H as [_ Hy].
Qed.

Lemma filtered_chain (entries : list Entry) :
  filtered dateOf tz now "day" entries `sublist_of` filtered dateOf tz now "month" entries
  /\ filtered dateOf tz now "month" entries `sublist_of` filtered dateOf tz now "year" entries
  /\ filtered dateOf tz now "year" entries `sublist_of` entries.
Proof.
  unfold filtered; simpl. repeat split.
  - apply filter_sublist_weaker, inDay_inMonth.
  - apply filter_sublist_weaker, inMonth_inYear.
  - apply filter_sublist_input.
Qed.

Lemma total_arithmeticTotal (entries : list Entry) :
  total amountOf entries
  = Spec.arithmeticTotal (map (fun entry => parsedOrZero (amountOf entry)) entries).
Proof.
  unfold total, Spec.arithmeticTotal.
  generalize 0%float as acc.
  induction entries as [|entry entries IH]; intros acc; simpl.
  - reflexivity.
  - apply IH.
Qed.

Lemma filterEffect_all (entries : list Entry) :
  filterEffect dateOf amountOf tz now "all" entries
  = (entries,
     Spec.arithmeticTotal (map (fun entry => parsedOrZero (amountOf entry)) entries)).
Proof.
  unfold filterEffect. simpl. now rewrite total_arithmeticTotal.
Qed.

End PeriodFilterFacts.

(** C8: with the period [all] the effect stores the list it was given,
    unchanged, and the total of its amounts added from left to right,
    where an amount is the number its field parses to and 0 when the
    field is missing or not a number; so on the income page, so on the
    expense page. *)
Theorem all_period_keeps_everything (tz : TimeZone) (now : Date)
    (incomeEntries : list IncomeEntry) (expenseEntries : list ExpenseEntry) :
  Incomes.filterEffect tz now "all" incomeEntries
  = (incomeEntries,
     Spec.arithmeticTotal (map (fun entry => parsedOrZero (incomeAmount entry)) incomeEntries))
  /\ Expenses.filterEffect tz now "all" expenseEntries
     = (expenseEntries,
        Spec.arithmeticTotal
          (map (fun entry => parsedOrZero (expenseAmount entry)) expenseEntries))
  /\ (forall v : value, (Spec.amount v =? parsedOrZero v)%float = true).
Proof.
  split; [apply filterEffect_all | split; [apply filterEffect_all | apply parsed_is_amount]].
Qed.

(** C9: under one reference instant, what the Day filter keeps is an
    order-preserving sublist of what the Month filter keeps, that of
    what the Year filter keeps, and that of the list given; so on the
    income page, so on the expense page. *)
Theorem day_month_year_nested (tz : TimeZone) (now : Date)
    (incomeEntries : list IncomeEntry) (expenseEntries : list ExpenseEntry) :
  let incomes period := fst (Incomes.filterEffect tz now period incomeEntries) in
  let expenses period := fst (Expenses.filterEffect tz now period expenseEntries) in
  (incomes "day" `sublist_of` incomes "month"
   /\ incomes "month" `sublist_of` incomes "year"
   /\ incomes "year" `sublist_of` incomeEntries)
  /\ (expenses "day" `sublist_of` expenses "month"
      /\ expenses "month" `sublist_of` expenses "year"
      /\ expenses "year" `sublist_of` expenseEntries).
Proof.
  split; apply filtered_chain.
Qed.

(** In a zone of one offset, local time is the instant moved by it. *)
Ltac fixed_offset :=
  try unfold LocalTime in *; try unfold UTC in *; try unfold LocalTZA in *;
  cbn [fixedOffset initialOffset transitions offsetFrom localOffsetFrom] in *.

Ltac fixed_zone :=
  unfold LocalTZA;
  cbn [fixedOffset initialOffset transitions offsetFrom localOffsetFrom].

(** *** The week *)

Section Calendar.

Lemma MonthFromTime_range (t : Z) : 0 <= MonthFromTime t <= 11.
Proof.
  unfold MonthFromTime.
  repeat match goal with |- context [if ?b then _ else _] => destruct b end; lia.
Qed.

(** Building a day from the calendar fields of [t], with the date
    moved by [k], gives the day of [t] moved by [k]. *)
Lemma MakeDay_fields (t k : Z) :
  MakeDay (YearFromTime t) (MonthFromTime t) (DateFromTime t + k) = Day t + k.
Proof.
  pose proof (MonthFromTime_range t) as Hm.
  unfold MakeDay.
  rewrite Z.div_small, Z.mod_small, Z.add_0_r by lia.
  unfold DateFromTime, DayWithinYear, InLeapYear. lia.
Qed.

Lemma WeekDay_range (t : Z) : 0 <= WeekDay t <= 6.
Proof. unfold WeekDay. pose proof (Z.mod_pos_bound (Day t + 4) 7). lia. Qed.

Lemma Day_bounds (t : Z) : Day t * msPerDay <= t < Day t * msPerDay + msPerDay.
Proof.
  unfold Day, msPerDay.
  pose proof (Z.div_mod t 86400000). pose proof (Z.mod_pos_bound t 86400000). lia.
Qed.

(** The calendar day of an instant moved back by its weekday offset is
    a Sunday, the one of the week of the instant. *)
Lemma sunday_of_week (t : Z) :
  let sundayLocal := MakeDate (Day t - WeekDay t) 0 in
  WeekDay sundayLocal = 0 /\ TimeWithinDay sundayLocal = 0
  /\ sundayLocal <= t < sundayLocal + 7 * msPerDay.
Proof.
  cbv zeta. unfold MakeDate. rewrite Z.add_0_r.
  pose proof (Day_bounds t) as Hd. pose proof (WeekDay_range t) as Hw.
  split; [| split].
  - unfold WeekDay at 1. unfold Day at 1.
    rewrite Z.div_mul by (unfold msPerDay; lia).
    unfold WeekDay.
    pose proof (Z.div_mod (Day t + 4) 7).
    replace (Day t - (Day t + 4) mod 7 + 4) with (((Day t + 4) / 7) * 7) by lia.
    apply Z.mod_mul. lia.
  - unfold TimeWithinDay. apply Z.mod_mul. unfold msPerDay. lia.
  - unfold msPerDay in *. lia.
Qed.

Section Week.

Variable tz : TimeZone.
Variable t : Z.
Hypothesis year_not_two_digits :
  YearFromTime (LocalTime tz t) < 0 \/ 99 < YearFromTime (LocalTime tz t).
Hypothesis start_in_range : Z.abs (Spec.weekStart tz t) <= maxTime.
Hypothesis end_in_range : Z.abs (Spec.weekEnd tz t) <= maxTime.

Lemma startOfWeek_weekStart :
  startOfWeek tz (Some t) = Some (Spec.weekStart tz t).
Proof.
  unfold startOfWeek, getFullYear, getMonth, getDate, getDay, int_sub, new_Date. simpl.
  replace ((0 <=? YearFromTime (LocalTime tz t))%Z
           && (YearFromTime (LocalTime tz t) <=? 99)%Z)
    with false by (symmetry; apply andb_false_iff; lia).
  replace (DateFromTime (LocalTime tz t) - WeekDay (LocalTime tz t))
    with (DateFromTime (LocalTime tz t) + - WeekDay (LocalTime tz t)) by lia.
  rewrite MakeDay_fields.
  replace (Day (LocalTime tz t) + - WeekDay (LocalTime tz t))
    with (Day (LocalTime tz t) - WeekDay (LocalTime tz t)) by lia.
  fold (Spec.weekStart tz t). unfold TimeClip.
  destruct (Z.leb_spec (Z.abs (Spec.weekStart tz t)) maxTime) as [_|Hout];
    [reflexivity | lia].
Qed.

Lemma endOfWeek_weekEnd :
  endOfWeek tz (Some t) = Some (Spec.weekEnd tz t).
Proof.
  unfold endOfWeek, getFullYear, getMonth, getDate, getDay, int_sub, int_add, new_Date.
  simpl.
  replace ((0 <=? YearFromTime (LocalTime tz t))%Z
           && (YearFromTime (LocalTime tz t) <=? 99)%Z)
    with false by (symmetry; apply andb_false_iff; lia).
  replace (DateFromTime (LocalTime tz t) + (6 - WeekDay (LocalTime tz t)) + 1)
    with (DateFromTime (LocalTime tz t) + (- WeekDay (LocalTime tz t) + 7)) by lia.
  rewrite MakeDay_fields.
  replace (Day (LocalTime tz t) + (- WeekDay (LocalTime tz t) + 7))
    with (Day (LocalTime tz t) - WeekDay (LocalTime tz t) + 7) by lia.
  fold (Spec.weekEnd tz t). unfold TimeClip.
  destruct (Z.leb_spec (Z.abs (Spec.weekEnd tz t)) maxTime) as [_|Hout];
    [reflexivity | lia].
Qed.

Context {Entry : Type}.
Variable dateOf : Entry -> DateField.

Lemma inWeek_datedWithin (entry : Entry) :
  inWeek dateOf tz (Some t) entry
  = Spec.datedWithin (Spec.weekStart tz t) (Spec.weekEnd tz t) (dateOf entry).
Proof.
  unfold inWeek, Spec.datedWithin.
  rewrite startOfWeek_weekStart, endOfWeek_weekEnd.
  destruct (asDate (dateOf entry)) as [[d|]|]; reflexivity.
Qed.

Lemma filtered_week (entries : list Entry) :
  filtered dateOf tz (Some t) "week" entries
  = List.filter
      (fun entry =>
         Spec.datedWithin (Spec.weekStart tz t) (Spec.weekEnd tz t) (dateOf entry))
      entries.
Proof.
  unfold filtered. simpl.
  induction entries as [|entry entries IH]; simpl.
  - reflexivity.
  - now rewrite inWeek_datedWithin, IH.
Qed.

End Week.

(** In a zone of one offset the week is seven days of 24 hours, it
    holds the instant, and it starts at an instant whose local time is
    Sunday 00:00. *)
Section WeekFixedOffset.

Variable tza : Z.

Lemma weekStart_bounds (t : Z) :
  Spec.weekStart (fixedOffset tza) t <= t
  < Spec.weekStart (fixedOffset tza) t + 7 * msPerDay.
Proof.
  unfold Spec.weekStart. fixed_offset.
  pose proof (sunday_of_week (t + tza)) as (_ & _ & H). cbv zeta in H. lia.
Qed.

Lemma weekEnd_fixedOffset (t : Z) :
  Spec.weekEnd (fixedOffset tza) t = Spec.weekStart (fixedOffset tza) t + 7 * msPerDay.
Proof. unfold Spec.weekEnd, Spec.weekStart. fixed_offset. unfold MakeDate. lia. Qed.

Lemma weekStart_is_sunday_midnight (t : Z) :
  WeekDay (LocalTime (fixedOffset tza) (Spec.weekStart (fixedOffset tza) t)) = 0
  /\ TimeWithinDay (LocalTime (fixedOffset tza) (Spec.weekStart (fixedOffset tza) t)) = 0.
Proof.
  unfold Spec.weekStart. fixed_offset.
  replace (_ - tza + tza) with (MakeDate (Day (t + tza) - WeekDay (t + tza)) 0) by lia.
  pose proof (sunday_of_week (t + tza)) as (Hw & Hm & _). now split.
Qed.

End WeekFixedOffset.

End Calendar.

(** The year of a day is the year whose days contain it. *)
Lemma YearFromDay_spec (d : Z) :
  DayFromYear (YearFromDay d) <= d < DayFromYear (YearFromDay d + 1).
Proof.
  unfold YearFromDay.
  destruct (Z.ltb_spec d (DayFromYear (1970 + d * 400 / 146097))) as [Hlt|Hge].
  - unfold DayFromYear in *. Z.div_mod_to_equations. lia.
  - destruct (Z.leb_spec (DayFromYear (1970 + d * 400 / 146097 + 1)) d) as [Hle|Hgt].
    + unfold DayFromYear in *. Z.div_mod_to_equations. lia.
    + lia.
Qed.

(** C4, amended: for a reference instant whose local year is not one
    of the years 0 to 99 and whose week lies within the range of
    [Date], the Week filter keeps exactly the entries dated in the
    half-open interval from Sunday 00:00 of the week of the reference
    instant to the next Sunday 00:00, in local time, the Sunday being
    the calendar day of the instant moved back by its weekday offset;
    so on the income page, so on the expense page, and in every time
    zone, with or without daylight saving time. *)
Theorem week_filter_keeps_sunday_week (tz : TimeZone) (t : Z)
    (incomeEntries : list IncomeEntry) (expenseEntries : list ExpenseEntry) :
  YearFromTime (LocalTime tz t) < 0 \/ 99 < YearFromTime (LocalTime tz t) ->
  let sundayLocal := MakeDate (Day (LocalTime tz t) - WeekDay (LocalTime tz t)) 0 in
  let sunday := UTC tz sundayLocal in
  let nextSunday := UTC tz (sundayLocal + 7 * msPerDay) in
  Z.abs sunday <= maxTime -> Z.abs nextSunday <= maxTime ->
  (WeekDay sundayLocal = 0 /\ TimeWithinDay sundayLocal = 0
   /\ sundayLocal <= LocalTime tz t < sundayLocal + 7 * msPerDay)
  /\ fst (Incomes.filterEffect tz (Some t) "week" incomeEntries)
     = List.filter (fun entry => Spec.datedWithin sunday nextSunday (incomeDate entry))
         incomeEntries
  /\ fst (Expenses.filterEffect tz (Some t) "week" expenseEntries)
     = List.filter (fun entry => Spec.datedWithin sunday nextSunday (expenseDate entry))
         expenseEntries.
Proof.
  intros Hyear sundayLocal sunday nextSunday Hstart Hend.
  assert (Hs : sunday = Spec.weekStart tz t) by reflexivity.
  assert (He : nextSunday = Spec.weekEnd tz t).
  { subst nextSunday sundayLocal. unfold Spec.weekEnd, MakeDate. f_equal. lia. }
  rewrite Hs, He in *.
  split; [apply sunday_of_week |].
  split; apply filtered_week; assumption.
Qed.

Lemma DayFromYear_succ (y : Z) :
  DayFromYear (y + 1) = DayFromYear y + (if isLeapYear y then 366 else 365).
Proof.
  unfold DayFromYear, isLeapYear.
  destruct (Z.eqb_spec (y mod 4) 0), (Z.eqb_spec (y mod 100) 0), (Z.eqb_spec (y mod 400) 0);
    simpl; Z.div_mod_to_equations; lia.
Qed.

(** The date of a month lies between 1 and 31. *)
Lemma DateFromTime_range (t : Z) : 1 <= DateFromTime t <= 31.
Proof.
  pose proof (YearFromDay_spec (Day t)) as Hy.
  rewrite DayFromYear_succ in Hy.
  unfold DateFromTime, MonthFromTime, DayWithinYear, InLeapYear, YearFromTime in *.
  destruct (isLeapYear (YearFromDay (Day t)));
    repeat match goal with
           | |- context [if (?a <? ?b)%Z then _ else _] => destruct (Z.ltb_spec a b)
           end;
    simpl; lia.
Qed.

Example sample_week :
  map income_id (fst (Incomes.filterEffect Sample.zone (Some Sample.now) "week" Sample.incomes))
  = ["sunday-midnight"; "today"; "next-saturday-night"]
  /\ snd (Incomes.filterEffect Sample.zone (Some Sample.now) "week" Sample.incomes)
     = 90.5%float.
Proof. vm_compute. split; reflexivity. Qed.

(** C4 in New York on Monday 3 November 2025, 12:00 UTC, the day after
    the clocks were set back: the week runs from Sunday 2 November
    00:00 EDT, which is 04:00 UTC, to Sunday 9 November 00:00 EST,
    which is 05:00 UTC, over 169 hours. *)
Lemma week_filter_keeps_sunday_week_witness :
  (YearFromTime (LocalTime Sample.newYork 1762171200000) < 0
   \/ 99 < YearFromTime (LocalTime Sample.newYork 1762171200000))
  /\ fst (Incomes.filterEffect Sample.newYork (Some 1762171200000) "week" Sample.incomes)
     = List.filter
         (fun entry => Spec.datedWithin 1762056000000 1762664400000 (incomeDate entry))
         Sample.incomes.
Proof.
  assert (Hyear : YearFromTime (LocalTime Sample.newYork 1762171200000) < 0
                  \/ 99 < YearFromTime (LocalTime Sample.newYork 1762171200000))
    by (right; vm_compute; reflexivity).
  split; [exact Hyear |].
  exact (proj1 (proj2
           (week_filter_keeps_sunday_week Sample.newYork 1762171200000 Sample.incomes
              Sample.expenses Hyear
              ltac:(vm_compute; discriminate) ltac:(vm_compute; discriminate)))).
Defined.

(** The same week on the page: an income dated 2 November 04:00 UTC, at
    the start of that Sunday in New York, and one of 04:30 UTC are
    kept, one of 03:59:59.999 UTC and one of 9 November 05:00 UTC are
    not. *)
Example week_in_new_york :
  map income_id
    (fst (Incomes.filterEffect Sample.newYork (Some 1762171200000) "week"
            [ Sample.income "saturday-night" (VNum 1%float) (IsDate (Some 1762055999999));
              Sample.income "sunday-midnight" (VNum 2%float) (IsDate (Some 1762056000000));
              Sample.income "sunday-00:30" (VNum 3%float) (IsDate (Some 1762057800000));
              Sample.income "next-saturday-night" (VNum 4%float)
                (IsDate (Some 1762664399999));
              Sample.income "next-sunday-midnight" (VNum 5%float)
                (IsDate (Some 1762664400000)) ]))
  = ["sunday-midnight"; "sunday-00:30"; "next-saturday-night"]
  /\ LocalTime Sample.newYork 1762056000000 = MakeDate (Day 1762041600000) 0
  /\ LocalTime Sample.newYork 1762664400000 = MakeDate (Day 1762041600000 + 7) 0.
Proof. vm_compute. repeat split; reflexivity. Qed.

(** C4 at the sample instant in Manila, a zone of one offset. *)
Example week_in_manila :
  fst (Incomes.filterEffect Sample.zone (Some Sample.now) "week" Sample.incomes)
  = List.filter
      (fun entry =>
         Spec.datedWithin (Spec.weekStart Sample.zone Sample.now)
           (Spec.weekStart Sample.zone Sample.now + 7 * msPerDay) (incomeDate entry))
      Sample.incomes.
Proof. vm_compute. reflexivity. Qed.

(** C4, as the specification words it, fails for a reference instant of
    the years 0 to 99, which the [Date] constructor reads as 1900 to
    1999: on 1 July of the year 50, on UTC, the week the filter takes
    is one of the year 1950, and an income dated at the reference
    instant itself, which lies in the week of that instant, is not
    kept. *)
Lemma week_filter_year_50 :
  let tz := fixedOffset 0 in
  let t := -60573744000000 in
  let entry := Sample.income "now" (VNum 1%float) (IsDate (Some t)) in
  getFullYear tz (Some t) = Some 50
  /\ Spec.datedWithin (Spec.weekStart tz t) (Spec.weekEnd tz t) (incomeDate entry) = true
  /\ fst (Incomes.filterEffect tz (Some t) "week" [entry]) = []
  /\ getFullYear tz (startOfWeek tz (Some t)) = Some 1950.
Proof. vm_compute. repeat split; reflexivity. Qed.

(** ** CSV export *)

Section StringFacts.

Lemma append_empty_r (s : string) : s ++ "" = s.
Proof. induction s as [|c s IH]; simpl; [reflexivity | now rewrite IH]. Qed.

Lemma append_assoc (a b c : string) : (a ++ b) ++ c = a ++ (b ++ c).
Proof. induction a as [|x a IH]; simpl; [reflexivity | now rewrite IH]. Qed.

Lemma append_snoc (a b : string) (c : ascii) : (a ++ String c "") ++ b = a ++ String c b.
Proof. now rewrite append_assoc. Qed.

End StringFacts.

Section CsvFacts.

Variable toLocaleDateString : Date -> string.

Import CsvReader.

(** Inside a cell, the doubled text of [f] followed by a double quote
    reads as [f] and leaves the reader just after that quote. *)
Lemma readCells_doubleQuotes (f cell : string) (cells : list string) (rest : string) :
  readCells Inside cell cells (doubleQuotes f ++ String dquote rest)
  = readCells QuoteSeen (cell ++ f) cells rest.
Proof.
  revert cell. induction f as [|c f IH]; intros cell; simpl.
  - now rewrite append_empty_r.
  - destruct (Ascii.eqb_spec c dquote) as [->|Hc]; simpl.
    + rewrite IH. now rewrite append_snoc.
    + apply Ascii.eqb_neq in Hc. rewrite Hc, IH. now rewrite append_snoc.
Qed.

(** At the start of a cell, the cell of [field] reads as its string. *)
Lemma readCells_quoteField (field : value) (cells : list string) (rest : string) :
  readCells Outside "" cells (quoteField field ++ rest)
  = readCells QuoteSeen (ToString field) cells rest.
Proof.
  unfold quoteField. cbn [append]. rewrite append_assoc. cbn [append].
  change (readCells Outside "" cells (String dquote ?s))
    with (readCells Inside "" cells s).
  apply readCells_doubleQuotes.
Qed.

Lemma concat_cons_cons (sep x y : string) (l : list string) :
  String.concat sep (x :: y :: l) = x ++ sep ++ String.concat sep (y :: l).
Proof. reflexivity. Qed.

Lemma readCells_csvLine (row : list value) (cells : list string) :
  row <> [] ->
  readCells Outside "" cells (csvLine row)
  = Some (cells ++ map ToString row)%list.
Proof.
  revert cells. induction row as [|f row IH]; intros cells Hne; [congruence|].
  destruct row as [|g row]; unfold csvLine in *.
  - cbn [map String.concat].
    rewrite <- (append_empty_r (quoteField f)).
    rewrite readCells_quoteField. reflexivity.
  - change (map quoteField (f :: g :: row))
      with (quoteField f
            :: quoteField g :: map quoteField row).
    rewrite concat_cons_cons, readCells_quoteField.
    change (map quoteField (g :: row))
      with (quoteField g :: map quoteField row) in IH.
    cbn [append readCells]. cbv [Ascii.eqb dquote ascii_of_nat]. cbn.
    rewrite IH by discriminate. cbn [map]. now rewrite <- app_assoc.
Qed.

Lemma readLine_csvLine (row : list value) :
  readLine (csvLine row) = Some (map ToString row).
Proof.
  destruct row as [|f row]; [reflexivity|].
  unfold readLine. now rewrite readCells_csvLine.
Qed.

Lemma fold_left_push {A : Type} (line : A -> string) (data : list A) (rows : list string) :
  fold_left (fun csvRows item => (csvRows ++ [line item])%list) data rows
  = (rows ++ map line data)%list.
Proof.
  revert rows. induction data as [|item data IH]; intros rows; simpl.
  - now rewrite app_nil_r.
  - rewrite IH. now rewrite <- app_assoc.
Qed.

End CsvFacts.

Section CsvRows.

Variable toLocaleDateString : Date -> string.

Lemma doubled_doubleQuotes (field : string) :
  SpecCsv.doubled field = doubleQuotes field.
Proof.
  unfold SpecCsv.doubled.
  induction field as [|c r IH]; [reflexivity |].
  cbn [list_ascii_of_string map doubleQuotes].
  destruct r as [|c' r'].
  - cbn. destruct (c =? dquote)%char; reflexivity.
  - change (String.concat "" (?x :: ?l)) with (x ++ String.concat "" l) in *.
    cbn [list_ascii_of_string map] in *.
    rewrite IH. destruct (c =? dquote)%char; reflexivity.
Qed.

(** The row of the program for the fields [row] is the row of the
    specification for their texts. *)
Lemma csvLine_row (row : list value) :
  csvLine row = SpecCsv.row (map ToString row).
Proof.
  unfold csvLine, SpecCsv.row. rewrite map_map. f_equal.
  apply map_ext. intros field.
  unfold quoteField, SpecCsv.quoted. now rewrite doubled_doubleQuotes.
Qed.

Lemma dateCell_dateText (x : DateField) :
  ToString (dateCell toLocaleDateString x) = SpecCsv.dateText toLocaleDateString x.
Proof. destruct x; reflexivity. Qed.

Lemma or_empty_id (s : string) : or_empty s = s.
Proof. unfold or_empty. now destruct (String.eqb_spec s "") as [->|]. Qed.

Lemma expenseRow_fields (item : ExpenseEntry) :
  csvLine (expenseRow toLocaleDateString item)
  = SpecCsv.row (SpecCsv.expenseFields toLocaleDateString item).
Proof.
  rewrite csvLine_row. unfold expenseRow, SpecCsv.expenseFields.
  cbn [map ToString]. now rewrite !dateCell_dateText.
Qed.

Lemma incomeRow_fields (item : IncomeEntry) :
  csvLine (incomeRow toLocaleDateString item)
  = SpecCsv.row (SpecCsv.incomeFields toLocaleDateString item).
Proof.
  rewrite csvLine_row. unfold incomeRow, SpecCsv.incomeFields.
  cbn [map ToString]. now rewrite !dateCell_dateText.
Qed.

Lemma salaryRow_fields (salaryData : SalaryDetails) :
  csvLine (salaryRow toLocaleDateString salaryData)
  = SpecCsv.row (SpecCsv.salaryFields toLocaleDateString salaryData).
Proof.
  rewrite csvLine_row. unfold salaryRow, SpecCsv.salaryFields.
  cbn [map]. rewrite dateCell_dateText.
  cbn [ToString]. now rewrite !or_empty_id.
Qed.

(** A row of quoted texts reads back as the texts. *)
Lemma readLine_row (fields : list string) :
  CsvReader.readLine (SpecCsv.row fields) = Some fields.
Proof.
  pose proof (readLine_csvLine (map VStr fields)) as H.
  rewrite csvLine_row, !map_map in H. cbn [ToString] in H.
  now rewrite map_id in H.
Qed.

End CsvRows.

(** C6: for each kind of data, [convertToCSV] gives the line of the
    column names and then one line per record (for the salary, one
    line when the record exists), joined by line feeds; the line of a
    record is its fields, in the order of the columns, each between
    double quotes with its own double quotes doubled, separated by
    commas; read back cell by cell, two double quotes standing for
    one, it gives the fields again. *)
Theorem convertToCSV_rows (toLocaleDateString : Date -> string) :
  (forall data : list ExpenseEntry,
     convertToCSV toLocaleDateString (expenses_ data)
     = String.concat nl
         ("ID,Name,Category,Amount,Date,Added On"
          :: map (fun item =>
                    SpecCsv.row (SpecCsv.expenseFields toLocaleDateString item)) data))
  /\ (forall data : list IncomeEntry,
        convertToCSV toLocaleDateString (incomes_ data)
        = String.concat nl
            ("ID,Business Name,Industry,Amount,Date Received,Added On"
             :: map (fun item =>
                       SpecCsv.row (SpecCsv.incomeFields toLocaleDateString item)) data))
  /\ (forall salaryData : option SalaryDetails,
        convertToCSV toLocaleDateString (salary_ salaryData)
        = String.concat nl
            (String.concat ","
               ["Gross Salary"; "Frequency"; "Payday"; "Days Off Per Week";
                "SSS Deduction"; "Philhealth Deduction"; "Pag-ibig Deduction";
                "Tax Deduction"; "Loans Deduction"; "Voluntary Deduction";
                "Last Updated"]
             :: match salaryData with
                | Some record =>
                    [SpecCsv.row (SpecCsv.salaryFields toLocaleDateString record)]
                | None => []
                end))
  /\ (forall fields : list string,
        CsvReader.readLine (SpecCsv.row fields) = Some fields).
Proof.
  split; [| split; [| split]].
  - intros data. unfold convertToCSV, csvRows. cbn [app].
    rewrite (fold_left_push (fun item => csvLine (expenseRow toLocaleDateString item))).
    cbn [app]. f_equal. f_equal. apply map_ext, expenseRow_fields.
  - intros data. unfold convertToCSV, csvRows. cbn [app].
    rewrite (fold_left_push (fun item => csvLine (incomeRow toLocaleDateString item))).
    cbn [app]. f_equal. f_equal. apply map_ext, incomeRow_fields.
  - intros [record|]; unfold convertToCSV, csvRows; cbn [app]; [| reflexivity].
    now rewrite salaryRow_fields.
  - apply readLine_row.
Qed.

(** *** The downloaded file *)

(** C7, as the specification words it, fails: with incomes only, the
    file starts with the section of the incomes and has no section of
    the expenses. *)
Lemma download_without_expenses :
  exists content : string,
    file (handleDownloadCSV (toLocaleDateString_enUS Sample.zone) true
            [] Sample.incomes None)
    = Some ("expense_tracker_history.csv", content)
    /\ ~ SpecFile.threeSections content.
Proof.
  eexists. split; [vm_compute; reflexivity |].
  intros (expensesCsv & incomesCsv & salaryCsv & H).
  vm_compute in H. discriminate H.
Qed.

(** C7, amended: the file is named [expense_tracker_history.csv] and
    holds, in the order Expenses, Incomes, Salary Details, the section
    of each collection that has data (a non-empty list of expenses, a
    non-empty list of incomes, an existing salary record), a section
    being its header line, the CSV of the collection and a blank line;
    when no collection has data, or the browser cannot download, there
    is no file. *)
Theorem download_holds_present_sections (toLocaleDateString : Date -> string)
    (canDownload : bool) (expenses : list ExpenseEntry) (incomes : list IncomeEntry)
    (salaryDetails : option SalaryDetails) :
  file (handleDownloadCSV toLocaleDateString canDownload expenses incomes salaryDetails)
  = match SpecFile.presentSections toLocaleDateString expenses incomes salaryDetails with
    | [] => None
    | sections =>
        if canDownload
        then Some ("expense_tracker_history.csv", String.concat "" sections)
        else None
    end.
Proof.
  unfold handleDownloadCSV, SpecFile.presentSections.
  destruct expenses as [|e expenses], incomes as [|i incomes],
    salaryDetails as [salaryData|];
    cbn [length Nat.ltb Nat.leb app String.concat];
    try generalize (convertToCSV toLocaleDateString (expenses_ (e :: expenses))) as csv1;
    try generalize (convertToCSV toLocaleDateString (incomes_ (i :: incomes))) as csv2;
    try generalize (convertToCSV toLocaleDateString (salary_ (Some salaryData))) as csv3;
    intros; unfold SpecFile.section;
    repeat (rewrite ?append_assoc; cbn [append]);
    cbn [String.eqb Ascii.eqb Bool.eqb]; destruct canDownload; reflexivity.
Qed.

(** With data in all three collections the file is the three sections. *)
Example download_sample :
  exists content : string,
    file (handleDownloadCSV (toLocaleDateString_enUS Sample.zone) true
            Sample.expenses Sample.incomes (Some Sample.salaryDetails))
    = Some ("expense_tracker_history.csv", content)
    /\ SpecFile.threeSections content.
Proof.
  eexists. split; [vm_compute; reflexivity |].
  exists (convertToCSV (toLocaleDateString_enUS Sample.zone) (expenses_ Sample.expenses)),
    (convertToCSV (toLocaleDateString_enUS Sample.zone) (incomes_ Sample.incomes)),
    (convertToCSV (toLocaleDateString_enUS Sample.zone)
       (salary_ (Some Sample.salaryDetails))).
  vm_compute. reflexivity.
Qed.

(** The row of one expense, as the specification gives it. *)
Example csv_rent :
  csvLine
    (expenseRow (toLocaleDateString_enUS (fixedOffset 0))
       {| expense_id := "e1"; expense_name := "Rent"; category := "Bills";
          expenseAmount := VNum 500%float;
          expenseDate := IsDate (Some 1704067200000);
          expense_createdAt := NoDate |})
  = String.concat ","
      (map (fun cell => String dquote (cell ++ String dquote ""))
         ["e1"; "Rent"; "Bills"; "500"; "1/1/2024"; ""]).
Proof. vm_compute. reflexivity. Qed.

(** * Further properties of the program *)

(** ** Period filter: the day, the month and the year as intervals *)

Section CalendarIntervals.

Lemma Day_unique (t d : Z) :
  d * msPerDay <= t < d * msPerDay + msPerDay -> Day t = d.
Proof.
  intros H. unfold Day, msPerDay in *.
  symmetry. apply (Z.div_unique t 86400000 d (t - d * 86400000)); lia.
Qed.

Lemma fields_of_Day (a b : Z) :
  Day a = Day b ->
  YearFromTime a = YearFromTime b
  /\ MonthFromTime a = MonthFromTime b
  /\ DateFromTime a = DateFromTime b.
Proof.
  intros H.
  unfold DateFromTime, MonthFromTime, InLeapYear, DayWithinYear, YearFromTime.
  now rewrite H.
Qed.

(** Two instants have the same year, month and date exactly when they
    lie on the same day. *)
Lemma same_fields_same_Day (a b : Z) :
  (DateFromTime a =? DateFromTime b)%Z
  && (MonthFromTime a =? MonthFromTime b)%Z
  && (YearFromTime a =? YearFromTime b)%Z
  = (Day a =? Day b)%Z.
Proof.
  destruct (Z.eqb_spec (Day a) (Day b)) as [Heq|Hne].
  - destruct (fields_of_Day a b Heq) as (Hy & Hm & Hd).
    now rewrite Hy, Hm, Hd, !Z.eqb_refl.
  - apply not_true_is_false. intros H.
    apply andb_true_iff in H as [H Hy]. apply andb_true_iff in H as [Hd Hm].
    apply Z.eqb_eq in Hy, Hm, Hd. apply Hne.
    pose proof (MakeDay_fields a 0) as Ha. pose proof (MakeDay_fields b 0) as Hb.
    rewrite Hy, Hm, Hd in Ha. lia.
Qed.

Lemma YearFromDay_unique (d y : Z) :
  DayFromYear y <= d < DayFromYear (y + 1) -> YearFromDay d = y.
Proof.
  intros H. pose proof (YearFromDay_spec d) as Hs.
  assert (Hmono : forall a b, a < b -> DayFromYear (a + 1) <= DayFromYear b).
  { intros a b Hab. unfold DayFromYear. Z.div_mod_to_equations. lia. }
  destruct (Z.lt_trichotomy (YearFromDay d) y) as [Hlt|[Heq|Hgt]].
  - specialize (Hmono _ _ Hlt). lia.
  - exact Heq.
  - specialize (Hmono _ _ Hgt). lia.
Qed.

(** A range of days is a range of instants. *)
Lemma Day_interval (lo hi x : Z) :
  (lo <=? Day x)%Z && (Day x <? hi)%Z
  = (lo * msPerDay <=? x)%Z && (x <? hi * msPerDay)%Z.
Proof.
  pose proof (Day_bounds x) as Hb. unfold msPerDay in *.
  destruct (Z.leb_spec lo (Day x)), (Z.ltb_spec (Day x) hi),
    (Z.leb_spec (lo * 86400000) x), (Z.ltb_spec x (hi * 86400000));
    simpl; try reflexivity; lia.
Qed.

Lemma DayWithinYear_range (t : Z) :
  0 <= DayWithinYear t < (if InLeapYear t then 366 else 365).
Proof.
  pose proof (YearFromDay_spec (Day t)) as Hy.
  rewrite DayFromYear_succ in Hy.
  unfold DayWithinYear, InLeapYear, YearFromTime. lia.
Qed.

(** The month of a day of the year is the month whose days contain it. *)
Lemma month_of_day_within_year (leap : bool) (x m : Z) :
  0 <= m <= 11 ->
  0 <= x < (if leap then 366 else 365) ->
  let l := if leap then 1 else 0 in
  ((if (x <? 31)%Z then 0
    else if (x <? 59 + l)%Z then 1
    else if (x <? 90 + l)%Z then 2
    else if (x <? 120 + l)%Z then 3
    else if (x <? 151 + l)%Z then 4
    else if (x <? 181 + l)%Z then 5
    else if (x <? 212 + l)%Z then 6
    else if (x <? 243 + l)%Z then 7
    else if (x <? 273 + l)%Z then 8
    else if (x <? 304 + l)%Z then 9
    else if (x <? 334 + l)%Z then 10
    else 11) =? m)%Z
  = (monthStart leap m <=? x)%Z && (x <? monthStart leap (m + 1))%Z.
Proof.
  intros Hm Hx l.
  assert (Hcases : m = 0 \/ m = 1 \/ m = 2 \/ m = 3 \/ m = 4 \/ m = 5 \/ m = 6
                   \/ m = 7 \/ m = 8 \/ m = 9 \/ m = 10 \/ m = 11) by lia.
  subst l. destruct leap;
    repeat (destruct Hcases as [-> | Hcases]); try subst m;
    simpl;
    repeat match goal with
           | |- context [if (?a <? ?b)%Z then _ else _] => destruct (Z.ltb_spec a b)
           end;
    repeat match goal with
           | |- context [(?a <=? ?b)%Z] => destruct (Z.leb_spec a b)
           | |- context [(?a <? ?b)%Z] => destruct (Z.ltb_spec a b)
           end;
    simpl; try reflexivity; lia.
Qed.

End CalendarIntervals.

Section PeriodIntervals.

Variable tza : Z.
Variable t : Z.

Lemma dayStart_bounds :
  Periods.dayStart (fixedOffset tza) t <= t < Periods.dayStart (fixedOffset tza) t + msPerDay
  /\ TimeWithinDay (LocalTime (fixedOffset tza) (Periods.dayStart (fixedOffset tza) t)) = 0.
Proof.
  unfold Periods.dayStart, UTC, MakeDate, LocalTime. fixed_offset.
  pose proof (Day_bounds (t + tza)) as Hb.
  split; [unfold msPerDay in *; lia |].
  replace (_ - tza + tza) with (Day (t + tza) * msPerDay) by lia.
  unfold TimeWithinDay. apply Z.mod_mul. unfold msPerDay. lia.
Qed.

Lemma same_day_interval (d : Z) :
  (Day (LocalTime (fixedOffset tza) d) =? Day (LocalTime (fixedOffset tza) t))%Z
  = (Periods.dayStart (fixedOffset tza) t <=? d)%Z
    && (d <? Periods.dayStart (fixedOffset tza) t + msPerDay)%Z.
Proof.
  unfold Periods.dayStart, UTC, MakeDate, LocalTime. fixed_offset.
  pose proof (Day_bounds (d + tza)) as Hd.
  destruct (Z.eqb_spec (Day (d + tza)) (Day (t + tza))) as [Heq|Hne];
    destruct (Z.leb_spec (Day (t + tza) * msPerDay + 0 - tza) d),
      (Z.ltb_spec d (Day (t + tza) * msPerDay + 0 - tza + msPerDay));
    simpl; try reflexivity; try (rewrite <- Heq in *; unfold msPerDay in *; lia).
  exfalso. apply Hne. apply Day_unique. unfold msPerDay in *. lia.
Qed.

Lemma same_year_interval (d : Z) :
  (YearFromTime (LocalTime (fixedOffset tza) d) =? YearFromTime (LocalTime (fixedOffset tza) t))%Z
  = (Periods.yearStart (fixedOffset tza) (YearFromTime (LocalTime (fixedOffset tza) t)) <=? d)%Z
    && (d <? Periods.yearStart (fixedOffset tza)
               (YearFromTime (LocalTime (fixedOffset tza) t) + 1))%Z.
Proof.
  set (y := YearFromTime (LocalTime (fixedOffset tza) t)).
  transitivity ((DayFromYear y <=? Day (LocalTime (fixedOffset tza) d))%Z
                && (Day (LocalTime (fixedOffset tza) d) <? DayFromYear (y + 1))%Z).
  - unfold YearFromTime at 1.
    pose proof (YearFromDay_spec (Day (LocalTime (fixedOffset tza) d))) as Hs.
    destruct (Z.eqb_spec (YearFromDay (Day (LocalTime (fixedOffset tza) d))) y) as [Heq|Hne].
    + rewrite Heq in Hs. symmetry. apply andb_true_iff.
      split; [apply Z.leb_le | apply Z.ltb_lt]; lia.
    + symmetry. apply not_true_is_false. intros H.
      apply andb_true_iff in H as [H1 H2].
      apply Z.leb_le in H1. apply Z.ltb_lt in H2.
      apply Hne, YearFromDay_unique. lia.
  - rewrite Day_interval. unfold Periods.yearStart, UTC, MakeDate, LocalTime. fixed_offset.
    destruct (Z.leb_spec (DayFromYear y * msPerDay) (d + tza)),
      (Z.ltb_spec (d + tza) (DayFromYear (y + 1) * msPerDay)),
      (Z.leb_spec (DayFromYear y * msPerDay + 0 - tza) d),
      (Z.ltb_spec d (DayFromYear (y + 1) * msPerDay + 0 - tza));
      simpl; try reflexivity; lia.
Qed.

Lemma same_month_interval (d : Z) :
  (MonthFromTime (LocalTime (fixedOffset tza) d) =? MonthFromTime (LocalTime (fixedOffset tza) t))%Z
  && (YearFromTime (LocalTime (fixedOffset tza) d)
      =? YearFromTime (LocalTime (fixedOffset tza) t))%Z
  = (Periods.monthStartOf (fixedOffset tza) (YearFromTime (LocalTime (fixedOffset tza) t))
       (MonthFromTime (LocalTime (fixedOffset tza) t)) <=? d)%Z
    && (d <? Periods.monthStartOf (fixedOffset tza) (YearFromTime (LocalTime (fixedOffset tza) t))
               (MonthFromTime (LocalTime (fixedOffset tza) t) + 1))%Z.
Proof.
  set (lt := LocalTime (fixedOffset tza) t). set (ld := LocalTime (fixedOffset tza) d).
  set (y := YearFromTime lt). set (m := MonthFromTime lt).
  pose proof (MonthFromTime_range lt) as Hm. fold m in Hm.
  assert (Hstart : 0 <= monthStart (isLeapYear y) m
                   /\ monthStart (isLeapYear y) m < monthStart (isLeapYear y) (m + 1)
                   /\ monthStart (isLeapYear y) (m + 1)
                      <= (if isLeapYear y then 366 else 365)).
  { assert (Hcases : m = 0 \/ m = 1 \/ m = 2 \/ m = 3 \/ m = 4 \/ m = 5 \/ m = 6
                     \/ m = 7 \/ m = 8 \/ m = 9 \/ m = 10 \/ m = 11) by lia.
    destruct (isLeapYear y);
      repeat (destruct Hcases as [-> | Hcases]); try rewrite Hcases; simpl; lia. }
  transitivity
    ((DayFromYear y + monthStart (isLeapYear y) m <=? Day ld)%Z
     && (Day ld <? DayFromYear y + monthStart (isLeapYear y) (m + 1))%Z).
  - pose proof (DayFromYear_succ y) as Hsucc.
    destruct (Z.eqb_spec (YearFromTime ld) y) as [Hy|Hy].
    + rewrite andb_true_r.
      pose proof (DayWithinYear_range ld) as Hr.
      unfold MonthFromTime at 1. unfold InLeapYear in *. rewrite Hy in *.
      rewrite (month_of_day_within_year (isLeapYear y) (DayWithinYear ld) m Hm Hr).
      unfold DayWithinYear. rewrite Hy.
      destruct (Z.leb_spec (monthStart (isLeapYear y) m) (Day ld - DayFromYear y)),
        (Z.ltb_spec (Day ld - DayFromYear y) (monthStart (isLeapYear y) (m + 1))),
        (Z.leb_spec (DayFromYear y + monthStart (isLeapYear y) m) (Day ld)),
        (Z.ltb_spec (Day ld) (DayFromYear y + monthStart (isLeapYear y) (m + 1)));
        simpl; try reflexivity; lia.
    + rewrite andb_false_r. symmetry. apply not_true_is_false. intros H.
      apply andb_true_iff in H as [H1 H2].
      apply Z.leb_le in H1. apply Z.ltb_lt in H2.
      apply Hy. unfold YearFromTime. apply YearFromDay_unique. lia.
  - rewrite Day_interval. unfold Periods.monthStartOf, UTC, MakeDate. subst ld.
    unfold LocalTime at 1 2. fixed_zone.
    destruct
      (Z.leb_spec ((DayFromYear y + monthStart (isLeapYear y) m) * msPerDay) (d + tza)),
      (Z.ltb_spec (d + tza) ((DayFromYear y + monthStart (isLeapYear y) (m + 1)) * msPerDay)),
      (Z.leb_spec ((DayFromYear y + monthStart (isLeapYear y) m) * msPerDay + 0 - tza) d),
      (Z.ltb_spec d ((DayFromYear y + monthStart (isLeapYear y) (m + 1)) * msPerDay + 0 - tza));
      simpl; try reflexivity; lia.
Qed.

Context {Entry : Type}.
Variable dateOf : Entry -> DateField.

Lemma inDay_datedWithin (entry : Entry) :
  inDay dateOf (fixedOffset tza) (Some t) entry
  = Spec.datedWithin (Periods.dayStart (fixedOffset tza) t)
      (Periods.dayStart (fixedOffset tza) t + msPerDay)
      (dateOf entry).
Proof.
  unfold inDay, Spec.datedWithin.
  destruct (asDate (dateOf entry)) as [[d|]|]; try reflexivity.
  cbn [getDate getMonth getFullYear option_map int_eq].
  rewrite same_fields_same_Day. apply same_day_interval.
Qed.

Lemma inMonth_datedWithin (entry : Entry) :
  inMonth dateOf (fixedOffset tza) (Some t) entry
  = Spec.datedWithin
      (Periods.monthStartOf (fixedOffset tza) (YearFromTime (LocalTime (fixedOffset tza) t))
         (MonthFromTime (LocalTime (fixedOffset tza) t)))
      (Periods.monthStartOf (fixedOffset tza) (YearFromTime (LocalTime (fixedOffset tza) t))
         (MonthFromTime (LocalTime (fixedOffset tza) t) + 1))
      (dateOf entry).
Proof.
  unfold inMonth, Spec.datedWithin.
  destruct (asDate (dateOf entry)) as [[d|]|]; try reflexivity.
  cbn [getMonth getFullYear option_map int_eq].
  apply same_month_interval.
Qed.

Lemma inYear_datedWithin (entry : Entry) :
  inYear dateOf (fixedOffset tza) (Some t) entry
  = Spec.datedWithin
      (Periods.yearStart (fixedOffset tza) (YearFromTime (LocalTime (fixedOffset tza) t)))
      (Periods.yearStart (fixedOffset tza) (YearFromTime (LocalTime (fixedOffset tza) t) + 1))
      (dateOf entry).
Proof.
  unfold inYear, Spec.datedWithin.
  destruct (asDate (dateOf entry)) as [[d|]|]; try reflexivity.
  cbn [getFullYear option_map int_eq].
  apply same_year_interval.
Qed.

End PeriodIntervals.

Lemma filter_ext_bool {A : Type} (p q : A -> bool) (l : list A) :
  (forall x, p x = q x) -> List.filter p l = List.filter q l.
Proof.
  intros H. induction l as [|x l IH]; simpl; [reflexivity | now rewrite H, IH].
Qed.

(** X1: in a time zone of one fixed offset from UTC, the Day filter
    keeps exactly the entries dated on the local calendar day of the
    reference instant, from its midnight to the next midnight; so on
    the income page, so on the expense page. *)
Theorem day_filter_keeps_today (tza t : Z)
    (incomeEntries : list IncomeEntry) (expenseEntries : list ExpenseEntry) :
  let midnight := Periods.dayStart (fixedOffset tza) t in
  let nextMidnight := midnight + msPerDay in
  TimeWithinDay (LocalTime (fixedOffset tza) midnight) = 0
  /\ midnight <= t < nextMidnight
  /\ fst (Incomes.filterEffect (fixedOffset tza) (Some t) "day" incomeEntries)
     = List.filter (fun entry => Spec.datedWithin midnight nextMidnight (incomeDate entry))
         incomeEntries
  /\ fst (Expenses.filterEffect (fixedOffset tza) (Some t) "day" expenseEntries)
     = List.filter (fun entry => Spec.datedWithin midnight nextMidnight (expenseDate entry))
         expenseEntries.
Proof.
  intros midnight nextMidnight.
  split; [apply dayStart_bounds |].
  split; [apply dayStart_bounds |].
  split; apply filter_ext_bool; intros entry; apply inDay_datedWithin.
Qed.

(** X2: in a time zone of one fixed offset from UTC, without daylight
    saving time, the Month filter keeps exactly the entries dated in
    the local calendar month of the reference instant, from midnight
    of its first day to midnight of the first day of the next month;
    so on the income page, so on the expense page. *)
Theorem month_filter_keeps_calendar_month (tza t : Z)
    (incomeEntries : list IncomeEntry) (expenseEntries : list ExpenseEntry) :
  let year := YearFromTime (LocalTime (fixedOffset tza) t) in
  let month := MonthFromTime (LocalTime (fixedOffset tza) t) in
  let first := Periods.monthStartOf (fixedOffset tza) year month in
  let nextFirst := Periods.monthStartOf (fixedOffset tza) year (month + 1) in
  (DateFromTime (LocalTime (fixedOffset tza) first) = 1
   /\ TimeWithinDay (LocalTime (fixedOffset tza) first) = 0)
  /\ first <= t < nextFirst
  /\ fst (Incomes.filterEffect (fixedOffset tza) (Some t) "month" incomeEntries)
     = List.filter (fun entry => Spec.datedWithin first nextFirst (incomeDate entry))
         incomeEntries
  /\ fst (Expenses.filterEffect (fixedOffset tza) (Some t) "month" expenseEntries)
     = List.filter (fun entry => Spec.datedWithin first nextFirst (expenseDate entry))
         expenseEntries.
Proof.
  intros year month first nextFirst.
  assert (Ht : first <= t < nextFirst).
  { pose proof (same_month_interval tza t t) as H.
    rewrite !Z.eqb_refl in H. symmetry in H.
    apply andb_true_iff in H as [H1 H2].
    apply Z.leb_le in H1. apply Z.ltb_lt in H2. split; assumption. }
  assert (Hfirst : (MonthFromTime (LocalTime (fixedOffset tza) first) =? month)%Z
                   && (YearFromTime (LocalTime (fixedOffset tza) first) =? year)%Z = true).
  { subst month year. rewrite (same_month_interval tza t first).
    apply andb_true_iff. split; [apply Z.leb_le | apply Z.ltb_lt]; fold first nextFirst; lia. }
  apply andb_true_iff in Hfirst as [Hm Hy]. apply Z.eqb_eq in Hm, Hy.
  assert (Hday : Day (LocalTime (fixedOffset tza) first)
                 = DayFromYear year + monthStart (isLeapYear year) month
                 /\ TimeWithinDay (LocalTime (fixedOffset tza) first) = 0).
  { unfold first, Periods.monthStartOf, UTC, MakeDate, LocalTime. fixed_offset.
    replace (_ - tza + tza)
      with ((DayFromYear year + monthStart (isLeapYear year) month) * msPerDay) by lia.
    split.
    - unfold Day. apply Z.div_mul. unfold msPerDay. lia.
    - unfold TimeWithinDay. apply Z.mod_mul. unfold msPerDay. lia. }
  destruct Hday as [Hday Htime].
  split.
  - split; [| exact Htime].
    unfold DateFromTime, DayWithinYear, InLeapYear. rewrite Hm, Hy, Hday. lia.
  - split; [exact Ht |].
    split; apply filter_ext_bool; intros entry; apply inMonth_datedWithin.
Qed.

(** X3: in a time zone of one fixed offset from UTC, without daylight
    saving time, the Year filter keeps exactly the entries dated in
    the local calendar year of the reference instant, from midnight of
    its first day to midnight of the first day of the next year; so on
    the income page, so on the expense page. *)
Theorem year_filter_keeps_calendar_year (tza t : Z)
    (incomeEntries : list IncomeEntry) (expenseEntries : list ExpenseEntry) :
  let year := YearFromTime (LocalTime (fixedOffset tza) t) in
  let newYear := Periods.yearStart (fixedOffset tza) year in
  let nextNewYear := Periods.yearStart (fixedOffset tza) (year + 1) in
  (YearFromTime (LocalTime (fixedOffset tza) newYear) = year
   /\ YearFromTime (LocalTime (fixedOffset tza) (newYear - 1)) = year - 1)
  /\ newYear <= t < nextNewYear
  /\ fst (Incomes.filterEffect (fixedOffset tza) (Some t) "year" incomeEntries)
     = List.filter (fun entry => Spec.datedWithin newYear nextNewYear (incomeDate entry))
         incomeEntries
  /\ fst (Expenses.filterEffect (fixedOffset tza) (Some t) "year" expenseEntries)
     = List.filter (fun entry => Spec.datedWithin newYear nextNewYear (expenseDate entry))
         expenseEntries.
Proof.
  intros year newYear nextNewYear.
  assert (Ht : newYear <= t < nextNewYear).
  { pose proof (same_year_interval tza t t) as H.
    rewrite Z.eqb_refl in H. symmetry in H.
    apply andb_true_iff in H as [H1 H2].
    apply Z.leb_le in H1. apply Z.ltb_lt in H2. split; assumption. }
  split.
  - pose proof (DayFromYear_succ (year - 1)) as Hprev.
    replace (year - 1 + 1) with year in Hprev by lia.
    split; unfold YearFromTime; apply YearFromDay_unique.
    + assert (Hd : Day (LocalTime (fixedOffset tza) newYear) = DayFromYear year).
      { apply Day_unique. unfold newYear, Periods.yearStart, UTC, MakeDate, LocalTime. fixed_offset.
        unfold msPerDay. lia. }
      rewrite Hd. pose proof (DayFromYear_succ year).
      destruct (isLeapYear year); lia.
    + assert (Hd : Day (LocalTime (fixedOffset tza) (newYear - 1)) = DayFromYear year - 1).
      { apply Day_unique. unfold newYear, Periods.yearStart, UTC, MakeDate, LocalTime. fixed_offset.
        unfold msPerDay. lia. }
      rewrite Hd. replace (year - 1 + 1) with year by lia.
      destruct (isLeapYear (year - 1)); lia.
  - split; [exact Ht |].
    split; apply filter_ext_bool; intros entry; apply inYear_datedWithin.
Qed.

(** Where the offset changes within the month the filter still goes by
    the local calendar: in New York, seen from Monday 3 November 2025,
    November runs from 04:00 UTC on the 1st, still on summer time, to
    05:00 UTC on 1 December, and the year 2025 from 05:00 UTC on
    1 January to 05:00 UTC on 1 January 2026. *)
Example month_and_year_in_new_york :
  map income_id
    (fst (Incomes.filterEffect Sample.newYork (Some 1762171200000) "month"
            [ Sample.income "october-31-night" (VNum 1%float) (IsDate (Some 1761969599999));
              Sample.income "november-1-00:00" (VNum 2%float) (IsDate (Some 1761969600000));
              Sample.income "november-1-00:30" (VNum 3%float) (IsDate (Some 1761971400000));
              Sample.income "november-30-night" (VNum 4%float)
                (IsDate (Some 1764565199999));
              Sample.income "december-1-00:00" (VNum 5%float)
                (IsDate (Some 1764565200000)) ]))
  = ["november-1-00:00"; "november-1-00:30"; "november-30-night"]
  /\ map income_id
       (fst (Incomes.filterEffect Sample.newYork (Some 1762171200000) "year"
               [ Sample.income "2024-night" (VNum 1%float) (IsDate (Some 1735707599999));
                 Sample.income "2025-00:00" (VNum 2%float) (IsDate (Some 1735707600000));
                 Sample.income "2025-night" (VNum 3%float) (IsDate (Some 1767243599999));
                 Sample.income "2026-00:00" (VNum 4%float) (IsDate (Some 1767243600000)) ]))
     = ["2025-00:00"; "2025-night"]
  /\ map income_id
       (fst (Incomes.filterEffect Sample.newYork (Some 1762084800000) "day"
               [ Sample.income "saturday-night" (VNum 1%float) (IsDate (Some 1762055999999));
                 Sample.income "sunday-00:00" (VNum 2%float) (IsDate (Some 1762056000000));
                 Sample.income "sunday-night" (VNum 3%float) (IsDate (Some 1762145999999));
                 Sample.income "monday-00:00" (VNum 4%float) (IsDate (Some 1762146000000)) ]))
     = ["sunday-00:00"; "sunday-night"].
Proof. vm_compute. repeat split; reflexivity. Qed.

(** ** Period filter: today within the week, and entries without a date *)

Lemma datedWithin_wider (lo hi lo' hi' : Z) (x : DateField) :
  lo' <= lo -> hi <= hi' ->
  Spec.datedWithin lo hi x = true -> Spec.datedWithin lo' hi' x = true.
Proof.
  intros Hlo Hhi. unfold Spec.datedWithin.
  destruct (asDate x) as [[d|]|]; try discriminate.
  intros H. apply andb_true_iff in H as [H1 H2].
  apply Z.leb_le in H1. apply Z.ltb_lt in H2.
  apply andb_true_iff. split; [apply Z.leb_le | apply Z.ltb_lt]; lia.
Qed.

Lemma dayStart_in_week (tza t : Z) :
  Spec.weekStart (fixedOffset tza) t <= Periods.dayStart (fixedOffset tza) t
  /\ Periods.dayStart (fixedOffset tza) t + msPerDay
     <= Spec.weekStart (fixedOffset tza) t + 7 * msPerDay.
Proof.
  pose proof (WeekDay_range (LocalTime (fixedOffset tza) t)).
  unfold Spec.weekStart, Periods.dayStart, UTC, MakeDate. fixed_offset.
  unfold msPerDay. lia.
Qed.

(** X4: in a time zone of one fixed offset from UTC, without daylight
    saving time, what the Day filter keeps is an order-preserving
    sublist of what the Week filter keeps, on both pages, for a
    reference instant whose local year is not one of the years 0 to 99
    and that lies more than seven days inside the range of [Date]. *)
Theorem day_entries_in_week (tza t : Z)
    (incomeEntries : list IncomeEntry) (expenseEntries : list ExpenseEntry) :
  YearFromTime (LocalTime (fixedOffset tza) t) < 0
  \/ 99 < YearFromTime (LocalTime (fixedOffset tza) t) ->
  Z.abs t <= maxTime - 7 * msPerDay ->
  fst (Incomes.filterEffect (fixedOffset tza) (Some t) "day" incomeEntries)
    `sublist_of` fst (Incomes.filterEffect (fixedOffset tza) (Some t) "week" incomeEntries)
  /\ fst (Expenses.filterEffect (fixedOffset tza) (Some t) "day" expenseEntries)
       `sublist_of` fst (Expenses.filterEffect (fixedOffset tza) (Some t) "week" expenseEntries).
Proof.
  intros Hyear Hrange.
  destruct (dayStart_in_week tza t) as [Hlo Hhi].
  pose proof (weekStart_bounds tza t) as Hb.
  pose proof (weekEnd_fixedOffset tza t) as He.
  assert (Hstart : Z.abs (Spec.weekStart (fixedOffset tza) t) <= maxTime)
    by (unfold maxTime, msPerDay in *; lia).
  assert (Hend : Z.abs (Spec.weekEnd (fixedOffset tza) t) <= maxTime)
    by (rewrite He; unfold maxTime, msPerDay in *; lia).
  split; apply filter_sublist_weaker; intros entry;
    rewrite inDay_datedWithin,
      (inWeek_datedWithin (fixedOffset tza) t Hyear Hstart Hend), He;
    apply datedWithin_wider; assumption.
Qed.

Lemma day_entries_in_week_witness :
  (YearFromTime (LocalTime Sample.zone Sample.now) < 0
   \/ 99 < YearFromTime (LocalTime Sample.zone Sample.now))
  /\ Z.abs Sample.now <= maxTime - 7 * msPerDay
  /\ fst (Incomes.filterEffect Sample.zone (Some Sample.now) "day" Sample.incomes)
       `sublist_of` fst (Incomes.filterEffect Sample.zone (Some Sample.now) "week" Sample.incomes).
Proof.
  assert (Hyear : YearFromTime (LocalTime Sample.zone Sample.now) < 0
                  \/ 99 < YearFromTime (LocalTime Sample.zone Sample.now))
    by (right; vm_compute; reflexivity).
  assert (Hrange : Z.abs Sample.now <= maxTime - 7 * msPerDay)
    by (vm_compute; discriminate).
  split; [exact Hyear | split; [exact Hrange |]].
  exact (proj1 (day_entries_in_week Sample.tza Sample.now Sample.incomes Sample.expenses
                  Hyear Hrange)).
Defined.

Section UndatedEntries.

Context {Entry : Type}.
Variable dateOf : Entry -> DateField.
Variable tz : TimeZone.
Variable now : Date.

Lemma int_eq_valid (a b : integer) : int_eq a b = true -> a <> None.
Proof. destruct a; [discriminate | intros H; discriminate H]. Qed.

Lemma kept_has_valid_date (period : string) (entries : list Entry) :
  In period ["day"; "week"; "month"; "year"] ->
  Forall (fun entry => Periods.hasValidDate (dateOf entry) = true)
    (filtered dateOf tz now period entries).
Proof.
  intros Hperiod. apply List.Forall_forall. intros entry Hin.
  unfold Periods.hasValidDate.
  assert (Hkept : inDay dateOf tz now entry = true
                  \/ inWeek dateOf tz now entry = true
                  \/ inMonth dateOf tz now entry = true
                  \/ inYear dateOf tz now entry = true).
  { simpl in Hperiod. unfold filtered in Hin.
    destruct Hperiod as [<-|[<-|[<-|[<-|[]]]]]; simpl in Hin;
      apply filter_In in Hin; tauto. }
  unfold inDay, inWeek, inMonth, inYear, date_ge in Hkept.
  destruct (asDate (dateOf entry)) as [[d|]|]; [reflexivity | | ];
    destruct Hkept as [H|[H|[H|H]]]; discriminate H.
Qed.

End UndatedEntries.

(** X5: under the periods day, week, month and year every entry kept
    has a date that is a valid one: an entry without a date, or with
    an invalid one, is dropped and shows under the period all only. *)
Theorem dated_periods_drop_undated (tz : TimeZone) (now : Date) (period : string)
    (incomeEntries : list IncomeEntry) (expenseEntries : list ExpenseEntry) :
  In period ["day"; "week"; "month"; "year"] ->
  Forall (fun entry => Periods.hasValidDate (incomeDate entry) = true)
    (fst (Incomes.filterEffect tz now period incomeEntries))
  /\ Forall (fun entry => Periods.hasValidDate (expenseDate entry) = true)
       (fst (Expenses.filterEffect tz now period expenseEntries)).
Proof.
  intros Hperiod. split; apply kept_has_valid_date; exact Hperiod.
Qed.

Lemma dated_periods_drop_undated_witness :
  In "week" ["day"; "week"; "month"; "year"]
  /\ Forall (fun entry => Periods.hasValidDate (incomeDate entry) = true)
       (fst (Incomes.filterEffect Sample.zone (Some Sample.now) "week" Sample.incomes))
  /\ ~ Forall (fun entry => Periods.hasValidDate (incomeDate entry) = true)
         (fst (Incomes.filterEffect Sample.zone (Some Sample.now) "all" Sample.incomes)).
Proof.
  assert (Hperiod : In "week" ["day"; "week"; "month"; "year"])
    by (simpl; right; left; reflexivity).
  split; [exact Hperiod | split].
  - exact (proj1 (dated_periods_drop_undated Sample.zone (Some Sample.now) "week"
                    Sample.incomes Sample.expenses Hperiod)).
  - intros H.
    pose proof (proj1 (List.Forall_forall _ _) H
                  (Sample.income "no-date" (VStr "abc") NoDate)) as Hno.
    discriminate Hno. vm_compute. tauto.
Defined.

(** ** The totals of the dashboard *)

Section IncomeListener.

Variable today : Date.

Lemma incomeStep_total (docs : list IncomeEntry) (total upcoming : number) :
  fst (fold_left (AppData.incomeStep today) docs (total, upcoming))
  = fold_left (fun acc doc => (acc + or_zero (parseFloat_String (incomeAmount doc)))%float)
      docs total.
Proof.
  revert total upcoming. induction docs as [|doc docs IH]; intros total upcoming.
  - reflexivity.
  - cbn [fold_left]. unfold AppData.incomeStep at 2.
    destruct (asDate (incomeDate doc)) as [d|]; [destruct (date_lt today d) |];
      apply IH.
Qed.

Lemma incomeStep_upcoming (midnight : Z) (docs : list IncomeEntry)
    (total upcoming : number) :
  today = Some midnight ->
  snd (fold_left (AppData.incomeStep today) docs (total, upcoming))
  = Spec.totalFrom upcoming
      (map (fun doc => parsedOrZero (incomeAmount doc))
         (List.filter (fun doc => Periods.datedAfter midnight (incomeDate doc)) docs)).
Proof.
  intros ->. revert total upcoming.
  induction docs as [|doc docs IH]; intros total upcoming.
  - reflexivity.
  - cbn [fold_left List.filter]. unfold AppData.incomeStep at 2.
    unfold Periods.datedAfter.
    destruct (asDate (incomeDate doc)) as [[d|]|]; cbn [date_lt].
    + destruct (midnight <? d)%Z; cbn [map Spec.totalFrom]; apply IH.
    + apply IH.
    + apply IH.
Qed.

End IncomeListener.

(** [setHours(0, 0, 0, 0)] gives the instant of local 00:00 of the day,
    when that instant is in the range of [Date]. *)
Lemma setHours0_midnight (tz : TimeZone) (t : Z) :
  Z.abs (Periods.dayStart tz t) <= maxTime ->
  setHours0 tz (Some t) = Some (Periods.dayStart tz t).
Proof.
  intros Hrange. unfold setHours0. fold (Periods.dayStart tz t). unfold TimeClip.
  destruct (Z.leb_spec (Z.abs (Periods.dayStart tz t)) maxTime) as [_|Hout];
    [reflexivity | lia].
Qed.

Lemma setHours0_dayStart (tza t : Z) :
  Z.abs t <= maxTime - msPerDay ->
  setHours0 (fixedOffset tza) (Some t) = Some (Periods.dayStart (fixedOffset tza) t).
Proof.
  intros Hrange. apply setHours0_midnight.
  pose proof (dayStart_bounds tza t) as [Hb _].
  unfold maxTime, msPerDay in *. lia.
Qed.

(** X6: in every time zone, with or without daylight saving time, the
    upcoming income of the dashboard is the total, added from left to
    right, of the amounts of the incomes whose date is a valid one
    strictly after the instant of local 00:00 of the day the listener
    runs, provided that instant lies in the range of [Date]; the total
    income is the total over all the incomes. *)
Theorem upcoming_income_after_midnight (tz : TimeZone) (t : Z)
    (docs : list IncomeEntry) (st : App.State) :
  let midnightLocal := MakeDate (Day (LocalTime tz t)) 0 in
  let midnight := UTC tz midnightLocal in
  Z.abs midnight <= maxTime ->
  let st' := AppData.onIncomesSnapshot tz (Some t) docs st in
  (TimeWithinDay midnightLocal = 0
   /\ midnightLocal <= LocalTime tz t < midnightLocal + msPerDay)
  /\ App.totalIncome st'
     = Spec.arithmeticTotal (map (fun doc => parsedOrZero (incomeAmount doc)) docs)
  /\ App.upcomingIncome st'
     = Spec.arithmeticTotal
         (map (fun doc => parsedOrZero (incomeAmount doc))
            (List.filter (fun doc => Periods.datedAfter midnight (incomeDate doc)) docs)).
Proof.
  intros midnightLocal midnight Hrange st'.
  split.
  { subst midnightLocal. unfold MakeDate, TimeWithinDay. rewrite Z.add_0_r.
    pose proof (Day_bounds (LocalTime tz t)) as Hb.
    split; [apply Z.mod_mul; unfold msPerDay; lia | exact Hb]. }
  subst st'. unfold AppData.onIncomesSnapshot.
  destruct (fold_left (AppData.incomeStep (setHours0 tz (Some t))) docs
              (0%float, 0%float)) as [total upcoming] eqn:Hfold.
  cbn [App.totalIncome App.upcomingIncome AppData.setTotalIncome AppData.setUpcomingIncome].
  split.
  - change total with (fst (total, upcoming)). rewrite <- Hfold, incomeStep_total.
    apply (total_arithmeticTotal incomeAmount).
  - change upcoming with (snd (total, upcoming)). rewrite <- Hfold.
    apply incomeStep_upcoming, setHours0_midnight, Hrange.
Qed.

(** X6 in New York on Sunday 2 November 2025 at 12:00 UTC, the day the
    clocks were set back: local 00:00 of that day is 04:00 UTC, and an
    income of 04:30 UTC counts as upcoming. *)
Lemma upcoming_income_after_midnight_witness :
  Z.abs (UTC Sample.newYork (MakeDate (Day (LocalTime Sample.newYork 1762084800000)) 0))
    <= maxTime
  /\ UTC Sample.newYork (MakeDate (Day (LocalTime Sample.newYork 1762084800000)) 0)
     = 1762056000000
  /\ App.upcomingIncome
       (AppData.onIncomesSnapshot Sample.newYork (Some 1762084800000)
          [ Sample.income "sunday-midnight" (VNum 2%float) (IsDate (Some 1762056000000));
            Sample.income "sunday-00:30" (VNum 3%float) (IsDate (Some 1762057800000)) ]
          AppData.initial)
     = Spec.arithmeticTotal [3%float].
Proof.
  assert (Hrange : Z.abs (UTC Sample.newYork
                            (MakeDate (Day (LocalTime Sample.newYork 1762084800000)) 0))
                   <= maxTime) by (vm_compute; discriminate).
  split; [exact Hrange |].
  split; [vm_compute; reflexivity |].
  etransitivity;
    [exact (proj2 (proj2 (upcoming_income_after_midnight Sample.newYork 1762084800000
                            _ AppData.initial Hrange)))
    | vm_compute; reflexivity].
Defined.

(** The incomes of the sample that count as upcoming on Monday
    2025-11-03 at 08:00: the one of that moment and the two of the
    coming weekend. *)
Example sample_upcoming :
  map income_id
    (List.filter
       (fun doc => Periods.datedAfter (Periods.dayStart Sample.zone Sample.now) (incomeDate doc))
       Sample.incomes)
  = ["today"; "next-saturday-night"; "next-sunday-midnight"].
Proof. vm_compute. reflexivity. Qed.

(** X7: the total income of the dashboard, the one of the profile page
    and the one the income page shows under the period all are the
    same number when they add the same incomes in the same order,
    whenever each is computed; so are the three totals of the
    expenses. *)
Theorem totals_agree_across_pages (tz tz' : TimeZone) (now now' : Date)
    (incomes : list IncomeEntry) (expenses : list ExpenseEntry) (st : App.State) :
  App.totalIncome (AppData.onIncomesSnapshot tz now incomes st)
  = Summary.totalIncomeSummary incomes
  /\ Summary.totalIncomeSummary incomes
     = snd (Incomes.filterEffect tz' now' "all" incomes)
  /\ App.totalExpenses (AppData.onExpensesSnapshot expenses st)
     = Summary.totalExpensesSummary expenses
  /\ Summary.totalExpensesSummary expenses
     = snd (Expenses.filterEffect tz' now' "all" expenses).
Proof.
  repeat split.
  unfold AppData.onIncomesSnapshot.
  destruct (fold_left (AppData.incomeStep (setHours0 tz now)) incomes (0%float, 0%float))
    as [total upcoming] eqn:Hfold.
  cbn [App.totalIncome AppData.setTotalIncome AppData.setUpcomingIncome].
  change total with (fst (total, upcoming)). rewrite <- Hfold.
  apply incomeStep_total.
Qed.

(** ** Bank form *)

Section BankStrings.

Lemma removeNonDigits_allDigits (s : string) :
  Shapes.allDigits (Banks.removeNonDigits s) = true.
Proof.
  induction s as [|c s IH]; simpl; [reflexivity |].
  destruct (Banks.isDigit c) eqn:Hc; simpl; [now rewrite Hc | exact IH].
Qed.

Lemma removeNonDigits_id (s : string) :
  Shapes.allDigits s = true -> Banks.removeNonDigits s = s.
Proof.
  induction s as [|c s IH]; simpl; [reflexivity |].
  intros H. apply andb_true_iff in H as [Hc Hs]. now rewrite Hc, IH.
Qed.

Lemma substring_allDigits (n m : nat) (s : string) :
  Shapes.allDigits s = true -> Shapes.allDigits (substring n m s) = true.
Proof.
  revert n m. induction s as [|c s IH]; intros n m H.
  - destruct n, m; reflexivity.
  - simpl in H. apply andb_true_iff in H as [Hc Hs].
    destruct n as [|n].
    + destruct m as [|m]; simpl; [reflexivity |]. now rewrite Hc, IH.
    + simpl. now apply IH.
Qed.

Lemma length_substring_le (n m : nat) (s : string) :
  (String.length (substring n m s) <= m)%nat.
Proof.
  revert n m. induction s as [|c s IH]; intros n m.
  - destruct n, m; simpl; lia.
  - destruct n as [|n].
    + destruct m as [|m]; simpl; [lia |]. specialize (IH 0%nat m). lia.
    + simpl. apply IH.
Qed.

Lemma length_substring (n m : nat) (s : string) :
  (n + m <= String.length s)%nat -> String.length (substring n m s) = m.
Proof.
  revert n m. induction s as [|c s IH]; intros n m H.
  - simpl in H. destruct n, m; simpl; lia.
  - destruct n as [|n].
    + destruct m as [|m]; simpl; [reflexivity |].
      simpl in H. rewrite (IH 0%nat m); [reflexivity | simpl; lia].
    + simpl. apply IH. simpl in H. lia.
Qed.

Lemma substring_all (s : string) : substring 0 (String.length s) s = s.
Proof. induction s as [|c s IH]; simpl; [reflexivity | now rewrite IH]. Qed.

Lemma substring_0_0 (s : string) : substring 0 0 s = EmptyString.
Proof. destruct s; reflexivity. Qed.

(** Taking the first [m] characters again changes nothing. *)
Lemma substring_prefix_idem (m : nat) (s : string) :
  substring 0 m (substring 0 m s) = substring 0 m s.
Proof.
  revert m. induction s as [|c s IH]; intros m.
  - destruct m; reflexivity.
  - destruct m as [|m]; simpl; [reflexivity | now rewrite IH].
Qed.

End BankStrings.

(** X8: whatever is typed or pasted into the card number field, the
    field holds digits only, sixteen at most, and feeding the field its
    own content leaves it as it is. *)
Theorem card_number_is_digits (value : string) (st : Banks.State) :
  let typed := Banks.cardNumber (Banks.onCardNumberChange value st) in
  Shapes.allDigits typed = true
  /\ (String.length typed <= 16)%nat
  /\ Banks.cardNumber (Banks.onCardNumberChange typed st) = typed.
Proof.
  cbn [Banks.onCardNumberChange Banks.setCardNumber Banks.cardNumber]. unfold slice.
  change (16 - 0)%nat with 16%nat.
  pose proof (removeNonDigits_allDigits value) as Hd.
  split; [now apply substring_allDigits |].
  split; [apply length_substring_le |].
  rewrite removeNonDigits_id by now apply substring_allDigits.
  apply substring_prefix_idem.
Qed.

(** X9: the expiration date field holds what is typed of MM/YY so far:
    at most two digits, or two digits, a slash and one or two digits;
    so five characters at most; and feeding the field its own content
    leaves it as it is. *)
Theorem expiration_date_shape (value : string) (st : Banks.State) :
  let typed := Banks.expirationDate (Banks.onExpirationDateChange value st) in
  Shapes.expirationShape typed = true
  /\ (String.length typed <= 5)%nat
  /\ Banks.expirationDate (Banks.onExpirationDateChange typed st) = typed.
Proof.
  cbn [Banks.onExpirationDateChange Banks.setExpirationDate Banks.expirationDate].
  pose proof (removeNonDigits_allDigits value) as Hd.
  assert (Hslash : Banks.isDigit "/"%char = false) by reflexivity.
  destruct (Banks.removeNonDigits value) as [|a [|b [|c [|d rest]]]];
    cbn [Shapes.allDigits] in Hd;
    repeat match type of Hd with
           | (_ && _ = true) => apply andb_true_iff in Hd as [? Hd]
           end;
    cbn -[Banks.isDigit];
    repeat match goal with
           | H : Banks.isDigit ?x = true |- _ => rewrite ?H
           end;
    rewrite ?Hslash; cbn -[Banks.isDigit];
    repeat match goal with
           | H : Banks.isDigit ?x = true |- _ => rewrite ?H; clear H
           end;
    rewrite ?Hslash; cbn; rewrite ?substring_0_0; cbn;
    repeat split; lia.
Qed.

Lemma length_last4DigitsOf (cardNumber : string) :
  String.length (Banks.last4DigitsOf cardNumber) = 4%nat.
Proof.
  unfold Banks.last4DigitsOf, slice_last.
  destruct (Nat.leb_spec 4 (String.length cardNumber)) as [Hlen|Hlen];
    [apply length_substring; lia | reflexivity].
Qed.

(** A string is its first [k] characters followed by the rest. *)
Lemma substring_split (k : nat) (s : string) :
  (k <= String.length s)%nat ->
  s = substring 0 k s ++ substring k (String.length s - k) s.
Proof.
  revert k. induction s as [|c s IH]; intros k Hk.
  - destruct k; [reflexivity | simpl in Hk; lia].
  - destruct k as [|k].
    + cbn [substring append String.length Nat.sub]. now rewrite substring_all.
    + cbn [substring append String.length Nat.sub]. f_equal. apply IH.
      simpl in Hk. lia.
Qed.

(** X10: the [last4Digits] that is saved is 0000 for a card number of
    fewer than four characters and the last four characters of the
    card number otherwise; so it always has length four, and it is
    made of digits when the card number came through its field. *)
Theorem last4Digits_has_length_four (value : string) (st : Banks.State)
    (cardNumber : string) :
  (if (String.length cardNumber <? 4)%nat
   then Banks.last4DigitsOf cardNumber = "0000"
   else exists front, cardNumber = front ++ Banks.last4DigitsOf cardNumber)
  /\ String.length (Banks.last4DigitsOf cardNumber) = 4%nat
  /\ Shapes.allDigits
       (Banks.last4DigitsOf (Banks.cardNumber (Banks.onCardNumberChange value st)))
     = true.
Proof.
  split; [| split; [apply length_last4DigitsOf |]].
  - unfold Banks.last4DigitsOf, slice_last.
    destruct (Nat.ltb_spec (String.length cardNumber) 4) as [Hlt|Hge].
    + destruct (Nat.leb_spec 4 (String.length cardNumber)); [lia | reflexivity].
    + destruct (Nat.leb_spec 4 (String.length cardNumber)); [| lia].
      exists (substring 0 (String.length cardNumber - 4) cardNumber).
      pose proof (substring_split (String.length cardNumber - 4) cardNumber
                    ltac:(lia)) as Hsplit.
      replace (String.length cardNumber - (String.length cardNumber - 4))%nat
        with 4%nat in Hsplit by lia.
      exact Hsplit.
  - cbn [Banks.onCardNumberChange Banks.setCardNumber Banks.cardNumber].
    unfold Banks.last4DigitsOf, slice_last, slice.
    destruct (4 <=? _)%nat; [| reflexivity].
    do 2 apply substring_allDigits. apply removeNonDigits_allDigits.
Qed.

(** With 16 digits typed, the last four are kept; with three, 0000. *)
Example last4Digits_examples :
  map Banks.last4DigitsOf ["4000123412344821"; "12345"; "1234"; "123"; ""]
  = ["4821"; "2345"; "1234"; "0000"; "0000"].
Proof. vm_compute. reflexivity. Qed.

Section BankSave.

Lemma eqb_false_ne (a b : string) : (a =? b)%string = false -> a <> b.
Proof. intros H E. subst. now rewrite String.eqb_refl in H. Qed.

Lemma ne_eqb_false (a b : string) : a <> b -> (a =? b)%string = false.
Proof. intros H. now apply String.eqb_neq. Qed.

End BankSave.

(** X11: [handleSaveBank] asks for a write exactly for a signed-in user
    and a form with a bank name, a full name and an amount that reads
    as a number; what it writes holds that number, never NaN, and four
    characters as last digits; and the loading flag is off afterwards. *)
Theorem bank_save_writes_checked_form
    (signedIn : bool) (thrown : Thrown) (isLoading : bool) (st : Banks.State) :
  match Banks.setDocCall (Banks.handleSaveBank signedIn thrown isLoading st) with
  | Some (id, data) =>
      signedIn = true
      /\ Banks.bankName st <> "" /\ Banks.fullName st <> "" /\ Banks.amount st <> ""
      /\ Banks.data_bankName data = Banks.bankName st
      /\ Banks.data_fullName data = Banks.fullName st
      /\ Banks.data_amount data = parseFloat (Banks.amount st)
      /\ isNaN (Banks.data_amount data) = false
      /\ String.length (Banks.data_last4Digits data) = 4%nat
      /\ Banks.loading (Banks.handleSaveBank signedIn thrown isLoading st) = false
  | None =>
      signedIn = false
      \/ Banks.bankName st = "" \/ Banks.fullName st = "" \/ Banks.amount st = ""
      \/ isNaN (parseFloat (Banks.amount st)) = true
  end.
Proof.
  unfold Banks.handleSaveBank.
  destruct (String.eqb_spec (Banks.bankName st) "") as [Hb|Hb]; [cbn; tauto |].
  destruct (String.eqb_spec (Banks.fullName st) "") as [Hf|Hf]; [cbn; tauto |].
  destruct (String.eqb_spec (Banks.amount st) "") as [Ha|Ha]; [cbn; tauto |].
  cbn [orb].
  destruct (isNaN (parseFloat (Banks.amount st))) eqn:Hn; [cbn; tauto |].
  destruct signedIn; [| cbn; tauto]. cbn -[parseFloat Banks.last4DigitsOf].
  destruct (Banks.isEditing st), (Banks.currentEditAccount st), thrown;
    cbn -[parseFloat Banks.last4DigitsOf];
    repeat split; try assumption; apply length_last4DigitsOf.
Qed.

(** The check of the amount is the one of [parseFloat]: an amount with
    text after the number is saved as the number, and a sign or
    Infinity pass. *)
Example bank_save_amounts :
  map (fun amount =>
         option_map (fun call => Banks.data_amount (snd call))
           (Banks.setDocCall
              (Banks.handleSaveBank true NoThrow false
                 (Banks.setAmount amount SampleForms.bankForm))))
    ["1500.50"; "12abc"; "-40"; "Infinity"; "abc"; "1e3"]
  = [Some 1500.5; Some 12; Some (-40); Some infinity; None; Some 1000]%float.
Proof. vm_compute. reflexivity. Qed.

(** X12: every run of [handleSaveBank] ends with a message type. It is
    success exactly when a write was asked for and did not throw, and
    then the form is closed and cleared; it is error otherwise, and
    then the form is as the user left it. *)
Theorem bank_save_outcome
    (signedIn : bool) (thrown : Thrown) (isLoading : bool) (st : Banks.State) :
  let r := Banks.handleSaveBank signedIn thrown isLoading st in
  let s := Banks.state r in
  (Banks.messageType s = "success"
   /\ Banks.setDocCall r <> None /\ thrown = NoThrow
   /\ Banks.showForm s = false /\ Banks.isEditing s = false
   /\ Banks.currentEditAccount s = None
   /\ Banks.bankName s = "" /\ Banks.fullName s = "" /\ Banks.cardNumber s = ""
   /\ Banks.expirationDate s = "" /\ Banks.amount s = "")
  \/
  (Banks.messageType s = "error"
   /\ (Banks.setDocCall r = None \/ thrown <> NoThrow)
   /\ Banks.message s <> ""
   /\ Banks.showForm s = Banks.showForm st /\ Banks.isEditing s = Banks.isEditing st
   /\ Banks.currentEditAccount s = Banks.currentEditAccount st
   /\ Banks.bankName s = Banks.bankName st /\ Banks.fullName s = Banks.fullName st
   /\ Banks.cardNumber s = Banks.cardNumber st
   /\ Banks.expirationDate s = Banks.expirationDate st
   /\ Banks.amount s = Banks.amount st).
Proof.
  unfold Banks.handleSaveBank.
  destruct ((Banks.bankName st =? "")%string || (Banks.fullName st =? "")%string
            || (Banks.amount st =? "")%string);
    [right; cbn; repeat split; solve [auto | discriminate] |].
  destruct (isNaN (parseFloat (Banks.amount st)));
    [right; cbn; repeat split; solve [auto | discriminate] |].
  destruct signedIn; cbn [negb];
    [| right; cbn; repeat split; solve [auto | discriminate]].
  cbn.
  destruct (Banks.isEditing st) eqn:He, (Banks.currentEditAccount st) eqn:Hc, thrown;
    cbn;
    first [ left; repeat split; solve [auto | discriminate]
          | right; repeat split; solve [auto | discriminate | right; discriminate] ].
Qed.

(** X13: opening the form on an account with [handleEditBankClick], for
    an account that has an amount and last digits of length four, and
    saving it as it is writes to the same document, with the same bank
    name, full name, last digits, expiration date and creation time. *)
Theorem bank_edit_then_save_keeps_account
    (account : BankAccount) (thrown : Thrown) (isLoading : bool) (st : Banks.State)
    (id : option string) (data : Banks.BankData) :
  acct_amount account <> VUndefined ->
  String.length (last4Digits account) = 4%nat ->
  Banks.setDocCall
    (Banks.handleSaveBank true thrown isLoading (Banks.handleEditBankClick account st))
    = Some (id, data) ->
  id = Some (bank_id account)
  /\ Banks.data_bankName data = acct_bankName account
  /\ Banks.data_fullName data = acct_fullName account
  /\ Banks.data_last4Digits data = last4Digits account
  /\ Banks.data_expirationDate data = acct_expirationDate account
  /\ Banks.data_createdAt data = originalCreatedAt (bank_createdAt account).
Proof.
  intros Hamount Hlen. unfold Banks.handleSaveBank, Banks.handleEditBankClick.
  destruct (toString_method (acct_amount account)) as [s|] eqn:Hs;
    [| destruct (acct_amount account); [discriminate | discriminate | congruence]].
  cbn -[Banks.last4DigitsOf String.eqb or_empty parseFloat isNaN].
  destruct (_ || _ || _); [discriminate |].
  destruct (isNaN _); [discriminate |].
  assert (Hl4 : Banks.last4DigitsOf
                  (if (last4Digits account =? "0000")%string then ""
                   else last4Digits account) = last4Digits account).
  { destruct (String.eqb_spec (last4Digits account) "0000") as [E|E].
    - now rewrite E.
    - unfold Banks.last4DigitsOf, slice_last. rewrite Hlen. cbn.
      rewrite <- Hlen at 1. apply substring_all. }
  assert (He : or_empty (or_empty (acct_expirationDate account))
               = acct_expirationDate account).
  { unfold or_empty.
    destruct (String.eqb_spec (acct_expirationDate account) "") as [E|E];
      [now rewrite E |].
    now rewrite (ne_eqb_false _ _ E). }
  destruct thrown; cbn -[Banks.last4DigitsOf String.eqb or_empty parseFloat isNaN];
    intros [= <- <-]; cbn -[Banks.last4DigitsOf String.eqb or_empty parseFloat isNaN];
    rewrite Hl4, He; repeat split.
Qed.

Lemma bank_edit_then_save_keeps_account_witness :
  String.length (last4Digits SampleForms.account) = 4%nat
  /\ Banks.data_last4Digits SampleForms.accountData = last4Digits SampleForms.account.
Proof.
  split; [reflexivity |].
  apply (bank_edit_then_save_keeps_account SampleForms.account NoThrow false
           SampleForms.bankForm (Some "acct-1") SampleForms.accountData).
  - discriminate.
  - reflexivity.
  - vm_compute. reflexivity.
Defined.

(** ** Dates of the income and expense forms *)

Section IsoDates.

Lemma digit_of_digit_char (d : Z) : 0 <= d <= 9 -> digit_of (digit_char d) = Some d.
Proof.
  intros H.
  assert (Hcases : d = 0 \/ d = 1 \/ d = 2 \/ d = 3 \/ d = 4 \/ d = 5 \/ d = 6
                   \/ d = 7 \/ d = 8 \/ d = 9) by lia.
  repeat (destruct Hcases as [-> | Hcases]); try subst d; reflexivity.
Qed.

Lemma digit_of_mod10 (n : Z) : digit_of (digit_char (n mod 10)) = Some (n mod 10).
Proof. apply digit_of_digit_char. pose proof (Z.mod_pos_bound n 10). lia. Qed.

(** The date part of [toISOString] reads back as the UTC year, month
    and day. *)
Lemma parseDateOnly_isoDate (t : Z) :
  0 <= YearFromTime t <= 9999 ->
  parseDateOnly (isoDate t) = Some (YearFromTime t, MonthFromTime t + 1, DateFromTime t).
Proof.
  intros Hy.
  pose proof (MonthFromTime_range t) as Hm. pose proof (DateFromTime_range t) as Hd.
  unfold isoDate.
  destruct (Z.leb_spec 0 (YearFromTime t)); [| lia].
  destruct (Z.leb_spec (YearFromTime t) 9999); [| lia].
  cbn [andb]. unfold pad4, pad2. cbn [append parseDateOnly].
  rewrite !digit_of_mod10.
  f_equal. f_equal; [f_equal |]; Z.div_mod_to_equations; lia.
Qed.

(** The date of a month is a day of that month. *)
Lemma DateFromTime_in_month (t : Z) :
  DateFromTime t <= DaysInMonth (YearFromTime t) (MonthFromTime t).
Proof.
  pose proof (month_of_day_within_year (InLeapYear t) (DayWithinYear t) (MonthFromTime t)
                (MonthFromTime_range t) (DayWithinYear_range t)) as H.
  cbv zeta in H. fold (MonthFromTime t) in H.
  change ((MonthFromTime t =? MonthFromTime t)%Z
          = (monthStart (InLeapYear t) (MonthFromTime t) <=? DayWithinYear t)%Z
            && (DayWithinYear t <? monthStart (InLeapYear t) (MonthFromTime t + 1))%Z) in H.
  rewrite Z.eqb_refl in H. symmetry in H. apply andb_true_iff in H as [_ H].
  apply Z.ltb_lt in H.
  unfold DaysInMonth, DateFromTime. fold (InLeapYear t). lia.
Qed.

(** [new Date] on the date part of [toISOString] is midnight UTC of
    that day, whatever the browser does with other strings. *)
Lemma new_Date_isoDate (other : string -> Date) (t : Z) :
  0 <= YearFromTime t <= 9999 -> Z.abs t <= maxTime ->
  new_Date_string other (isoDate t) = Some (Day t * msPerDay).
Proof.
  intros Hy Ht. unfold new_Date_string. rewrite parseDateOnly_isoDate by exact Hy.
  pose proof (MonthFromTime_range t) as Hm. pose proof (DateFromTime_range t) as Hd.
  pose proof (DateFromTime_in_month t) as Hin.
  replace (MonthFromTime t + 1 - 1) with (MonthFromTime t) by lia.
  destruct (Z.leb_spec 1 (MonthFromTime t + 1)); [| lia].
  destruct (Z.leb_spec (MonthFromTime t + 1) 12); [| lia].
  destruct (Z.leb_spec 1 (DateFromTime t)); [| lia].
  destruct (Z.leb_spec (DateFromTime t)
              (DaysInMonth (YearFromTime t) (MonthFromTime t))); [| lia].
  cbn [andb].
  rewrite <- (Z.add_0_r (DateFromTime t)) at 1.
  rewrite (MakeDay_fields t 0), Z.add_0_r. unfold MakeDate, TimeClip. rewrite Z.add_0_r.
  pose proof (Day_bounds t) as Hb.
  assert (Hmax : maxTime = 100000000 * msPerDay) by reflexivity.
  destruct (Z.leb_spec (Z.abs (Day t * msPerDay)) maxTime) as [_|Hbad];
    [reflexivity | exfalso; unfold msPerDay in *; lia].
Qed.

End IsoDates.

Section IncomeSave.

Variable dateOther : string -> Date.

(** What a write of [handleSaveIncome] holds. *)
Lemma handleSaveIncome_call (signedIn : bool) (thrown : Thrown) (isLoading : bool)
    (st : IncomeForm.State) (id : option string) (data : IncomeForm.IncomeData) :
  IncomeForm.setDocCall (IncomeForm.handleSaveIncome dateOther signedIn thrown isLoading st)
    = Some (id, data) ->
  signedIn = true
  /\ IncomeForm.businessName st <> "" /\ IncomeForm.industry st <> ""
  /\ IncomeForm.incomeAmount st <> "" /\ IncomeForm.incomeDate st <> ""
  /\ isNaN (parseFloat (IncomeForm.incomeAmount st)) = false
  /\ IncomeForm.data_businessName data = IncomeForm.businessName st
  /\ IncomeForm.data_industry data = IncomeForm.industry st
  /\ IncomeForm.data_incomeAmount data = parseFloat (IncomeForm.incomeAmount st)
  /\ IncomeForm.data_incomeDate data = new_Date_string dateOther (IncomeForm.incomeDate st)
  /\ (id, IncomeForm.data_createdAt data)
     = match IncomeForm.isEditing st, IncomeForm.currentEditIncome st with
       | true, Some income =>
           (Some (income_id income), originalCreatedAt (income_createdAt income))
       | _, _ => (None, ServerTimestamp)
       end.
Proof.
  unfold IncomeForm.handleSaveIncome.
  destruct (IncomeForm.businessName st =? "")%string eqn:Hb; [discriminate |].
  destruct (IncomeForm.industry st =? "")%string eqn:Hi; [discriminate |].
  destruct (IncomeForm.incomeAmount st =? "")%string eqn:Ha; [discriminate |].
  destruct (IncomeForm.incomeDate st =? "")%string eqn:Hd; [discriminate |].
  cbn [orb].
  destruct (isNaN (parseFloat (IncomeForm.incomeAmount st))) eqn:Hn; [discriminate |].
  destruct signedIn; [| discriminate].
  cbn -[parseFloat new_Date_string].
  destruct (IncomeForm.isEditing st), (IncomeForm.currentEditIncome st), thrown;
    cbn -[parseFloat new_Date_string]; intros [= <- <-];
    cbn -[parseFloat new_Date_string];
    repeat split; now apply eqb_false_ne.
Qed.

End IncomeSave.

Section ExpenseSave.

Variable dateOther : string -> Date.

(** What a write of [handleSaveExpense] holds. *)
Lemma handleSaveExpense_call (signedIn : bool) (thrown : Thrown) (isLoading : bool)
    (st : ExpenseForm.State) (id : option string) (data : ExpenseForm.ExpenseData) :
  ExpenseForm.setDocCall (ExpenseForm.handleSaveExpense dateOther signedIn thrown isLoading st)
    = Some (id, data) ->
  signedIn = true
  /\ ExpenseForm.expenseName st <> "" /\ ExpenseForm.expenseCategory st <> ""
  /\ ExpenseForm.expenseAmount st <> "" /\ ExpenseForm.expenseDate st <> ""
  /\ isNaN (parseFloat (ExpenseForm.expenseAmount st)) = false
  /\ ExpenseForm.data_name data = ExpenseForm.expenseName st
  /\ ExpenseForm.data_category data = ExpenseForm.expenseCategory st
  /\ ExpenseForm.data_expenseAmount data = parseFloat (ExpenseForm.expenseAmount st)
  /\ ExpenseForm.data_expenseDate data = new_Date_string dateOther (ExpenseForm.expenseDate st)
  /\ (id, ExpenseForm.data_createdAt data)
     = match ExpenseForm.isEditing st, ExpenseForm.currentEditExpense st with
       | true, Some expense =>
           (Some (expense_id expense), originalCreatedAt (expense_createdAt expense))
       | _, _ => (None, ServerTimestamp)
       end.
Proof.
  unfold ExpenseForm.handleSaveExpense.
  destruct (ExpenseForm.expenseName st =? "")%string eqn:Hb; [discriminate |].
  destruct (ExpenseForm.expenseCategory st =? "")%string eqn:Hi; [discriminate |].
  destruct (ExpenseForm.expenseAmount st =? "")%string eqn:Ha; [discriminate |].
  destruct (ExpenseForm.expenseDate st =? "")%string eqn:Hd; [discriminate |].
  cbn [orb].
  destruct (isNaN (parseFloat (ExpenseForm.expenseAmount st))) eqn:Hn; [discriminate |].
  destruct signedIn; [| discriminate].
  cbn -[parseFloat new_Date_string].
  destruct (ExpenseForm.isEditing st), (ExpenseForm.currentEditExpense st), thrown;
    cbn -[parseFloat new_Date_string]; intros [= <- <-];
    cbn -[parseFloat new_Date_string];
    repeat split; now apply eqb_false_ne.
Qed.

End ExpenseSave.

(** X14: an income or an expense that is added with the date the form
    proposes, [today] being an instant of a year written with four
    digits, is saved with midnight UTC of the UTC day of [today] as its
    date, whatever the browser makes of other date strings. *)
Theorem added_entry_is_dated_utc_midnight (dateOther : string -> Date) (today : Z) :
  0 <= YearFromTime today <= 9999 -> Z.abs today <= maxTime ->
  (forall (st0 st : IncomeForm.State) signedIn thrown isLoading id data,
     IncomeForm.incomeDate st
       = IncomeForm.incomeDate (IncomeForm.handleAddIncomeClick today st0) ->
     IncomeForm.setDocCall
       (IncomeForm.handleSaveIncome dateOther signedIn thrown isLoading st)
       = Some (id, data) ->
     IncomeForm.data_incomeDate data = Some (today - TimeWithinDay today))
  /\ (forall (st0 st : ExpenseForm.State) signedIn thrown isLoading id data,
     ExpenseForm.expenseDate st
       = ExpenseForm.expenseDate (ExpenseForm.handleAddExpenseClick today st0) ->
     ExpenseForm.setDocCall
       (ExpenseForm.handleSaveExpense dateOther signedIn thrown isLoading st)
       = Some (id, data) ->
     ExpenseForm.data_expenseDate data = Some (today - TimeWithinDay today)).
Proof.
  intros Hy Ht.
  assert (Hmid : today - TimeWithinDay today = Day today * msPerDay).
  { unfold TimeWithinDay, Day, msPerDay. Z.div_mod_to_equations. lia. }
  rewrite Hmid.
  split; intros st0 st signedIn thrown isLoading id data Hdate Hcall.
  - apply handleSaveIncome_call in Hcall as (_ & _ & _ & _ & _ & _ & _ & _ & _ & Hd & _).
    rewrite Hd, Hdate. cbn [IncomeForm.handleAddIncomeClick IncomeForm.incomeDate
      IncomeForm.setMessage IncomeForm.setShowForm IncomeForm.setIncomeDate].
    now apply new_Date_isoDate.
  - apply handleSaveExpense_call in Hcall as (_ & _ & _ & _ & _ & _ & _ & _ & _ & Hd & _).
    rewrite Hd, Hdate. cbn [ExpenseForm.handleAddExpenseClick ExpenseForm.expenseDate
      ExpenseForm.setMessage ExpenseForm.setShowForm ExpenseForm.setExpenseDate].
    now apply new_Date_isoDate.
Qed.

Lemma added_entry_is_dated_utc_midnight_witness :
  0 <= YearFromTime Sample.now <= 9999
  /\ IncomeForm.data_incomeDate
       {| IncomeForm.data_businessName := "Shop"; IncomeForm.data_industry := "Retail";
          IncomeForm.data_incomeAmount := 99.5%float;
          IncomeForm.data_incomeDate := Some 1762128000000;
          IncomeForm.data_createdAt := ServerTimestamp |}
     = Some (Sample.now - TimeWithinDay Sample.now).
Proof.
  assert (Hy : 0 <= YearFromTime Sample.now <= 9999) by (vm_compute; split; discriminate).
  split; [exact Hy |].
  apply (proj1 (added_entry_is_dated_utc_midnight SampleEntries.dateOther Sample.now Hy
                  ltac:(vm_compute; discriminate))
           SampleEntries.incomeForm SampleEntries.incomeForm true NoThrow false None);
    vm_compute; reflexivity.
Defined.

(** X15: opening the form on an income with [handleEditIncomeClick], for
    an income that has an amount and a date of a year written with four
    digits, and saving it as it is writes to the same document, with
    the same business name, industry and creation time; the date is
    moved back to midnight UTC of its UTC day. *)
Theorem income_edit_then_save_keeps_entry (dateOther : string -> Date)
    (income : IncomeEntry) (e : Z) (thrown : Thrown) (isLoading : bool)
    (st : IncomeForm.State) (id : option string) (data : IncomeForm.IncomeData) :
  incomeAmount income <> VUndefined ->
  asDate (incomeDate income) = Some (Some e) ->
  0 <= YearFromTime e <= 9999 -> Z.abs e <= maxTime ->
  IncomeForm.setDocCall
    (IncomeForm.handleSaveIncome dateOther true thrown isLoading
       (IncomeForm.handleEditIncomeClick income st))
    = Some (id, data) ->
  id = Some (income_id income)
  /\ IncomeForm.data_businessName data = businessName income
  /\ IncomeForm.data_industry data = industry income
  /\ IncomeForm.data_incomeDate data = Some (e - TimeWithinDay e)
  /\ IncomeForm.data_createdAt data = originalCreatedAt (income_createdAt income).
Proof.
  intros Hamount Hdate Hy He Hcall.
  assert (Hmid : e - TimeWithinDay e = Day e * msPerDay).
  { unfold TimeWithinDay, Day, msPerDay. Z.div_mod_to_equations. lia. }
  apply handleSaveIncome_call in Hcall
    as (_ & _ & _ & _ & _ & _ & Hb & Hi & _ & Hd & Hid).
  destruct income as [iid name kind amount date created].
  cbn [incomeAmount incomeDate income_id businessName industry income_createdAt] in *.
  unfold IncomeForm.handleEditIncomeClick in *.
  destruct (toString_method amount) as [s|] eqn:Hs;
    [| destruct amount; [discriminate | discriminate | congruence]].
  rewrite Hdate in *. cbn [toISOString_date] in *.
  cbn in Hb, Hi, Hd, Hid.
  injection Hid as -> Hc.
  rewrite Hb, Hi, Hd, Hc, Hmid, new_Date_isoDate by assumption.
  repeat split.
Qed.

Lemma income_edit_then_save_keeps_entry_witness :
  asDate (incomeDate SampleEntries.income) = Some (Some 1762128000000)
  /\ IncomeForm.data_incomeDate SampleEntries.incomeData
     = Some (1762128000000 - TimeWithinDay 1762128000000).
Proof.
  split; [reflexivity |].
  apply (income_edit_then_save_keeps_entry SampleEntries.dateOther SampleEntries.income
           1762128000000 NoThrow false SampleEntries.incomeForm (Some "inc-1")
           SampleEntries.incomeData).
  - discriminate.
  - reflexivity.
  - vm_compute. split; discriminate.
  - vm_compute. discriminate.
  - vm_compute. reflexivity.
Defined.

(** X16: opening the form on an expense with [handleEditExpenseClick], for
    an expense that has an amount and a date of a year written with four
    digits, and saving it as it is writes to the same document, with
    the same name, category and creation time; the date is
    moved back to midnight UTC of its UTC day. *)
Theorem expense_edit_then_save_keeps_entry (dateOther : string -> Date)
    (expense : ExpenseEntry) (e : Z) (thrown : Thrown) (isLoading : bool)
    (st : ExpenseForm.State) (id : option string) (data : ExpenseForm.ExpenseData) :
  expenseAmount expense <> VUndefined ->
  asDate (expenseDate expense) = Some (Some e) ->
  0 <= YearFromTime e <= 9999 -> Z.abs e <= maxTime ->
  ExpenseForm.setDocCall
    (ExpenseForm.handleSaveExpense dateOther true thrown isLoading
       (ExpenseForm.handleEditExpenseClick expense st))
    = Some (id, data) ->
  id = Some (expense_id expense)
  /\ ExpenseForm.data_name data = expense_name expense
  /\ ExpenseForm.data_category data = category expense
  /\ ExpenseForm.data_expenseDate data = Some (e - TimeWithinDay e)
  /\ ExpenseForm.data_createdAt data = originalCreatedAt (expense_createdAt expense).
Proof.
  intros Hamount Hdate Hy He Hcall.
  assert (Hmid : e - TimeWithinDay e = Day e * msPerDay).
  { unfold TimeWithinDay, Day, msPerDay. Z.div_mod_to_equations. lia. }
  apply handleSaveExpense_call in Hcall
    as (_ & _ & _ & _ & _ & _ & Hb & Hi & _ & Hd & Hid).
  destruct expense as [iid name kind amount date created].
  cbn [expenseAmount expenseDate expense_id expense_name category expense_createdAt] in *.
  unfold ExpenseForm.handleEditExpenseClick in *.
  destruct (toString_method amount) as [s|] eqn:Hs;
    [| destruct amount; [discriminate | discriminate | congruence]].
  rewrite Hdate in *. cbn [toISOString_date] in *.
  cbn in Hb, Hi, Hd, Hid.
  injection Hid as -> Hc.
  rewrite Hb, Hi, Hd, Hc, Hmid, new_Date_isoDate by assumption.
  repeat split.
Qed.

Lemma expense_edit_then_save_keeps_entry_witness :
  asDate (expenseDate SampleEntries.expense) = Some (Some 1762165800000)
  /\ ExpenseForm.data_expenseDate SampleEntries.expenseData
     = Some (1762165800000 - TimeWithinDay 1762165800000).
Proof.
  split; [reflexivity |].
  apply (expense_edit_then_save_keeps_entry SampleEntries.dateOther SampleEntries.expense
           1762165800000 NoThrow false SampleEntries.expenseForm (Some "exp-1")
           SampleEntries.expenseData).
  - discriminate.
  - reflexivity.
  - vm_compute. split; discriminate.
  - vm_compute. discriminate.
  - vm_compute. reflexivity.
Defined.

(** X17: [handleDeleteExpense] asks the store to delete a document only
    for a signed-in user, an expense id that is not empty, a store
    that is there and a confirmed question, and then it is the
    document of that id; in every case the form is left as it is. *)
Theorem expense_delete_needs_confirmation
    (user db confirmed : bool) (thrown : Thrown) (isLoading : bool)
    (expenseId : string) (st : ExpenseForm.State) :
  let r := ExpenseForm.handleDeleteExpense user db confirmed thrown isLoading expenseId st in
  let s := ExpenseForm.del_state r in
  ((ExpenseForm.deleteDocCall r = Some expenseId
    /\ user = true /\ db = true /\ confirmed = true /\ expenseId <> ""
    /\ ExpenseForm.del_loading r = false)
   \/ (ExpenseForm.deleteDocCall r = None
       /\ (user = false \/ db = false \/ confirmed = false \/ expenseId = "")))
  /\ ExpenseForm.showForm s = ExpenseForm.showForm st
  /\ ExpenseForm.isEditing s = ExpenseForm.isEditing st
  /\ ExpenseForm.currentEditExpense s = ExpenseForm.currentEditExpense st
  /\ ExpenseForm.expenseName s = ExpenseForm.expenseName st
  /\ ExpenseForm.expenseCategory s = ExpenseForm.expenseCategory st
  /\ ExpenseForm.expenseAmount s = ExpenseForm.expenseAmount st
  /\ ExpenseForm.expenseDate s = ExpenseForm.expenseDate st.
Proof.
  unfold ExpenseForm.handleDeleteExpense.
  destruct user; cbn [negb orb].
  - destruct (String.eqb_spec expenseId "") as [Hid|Hid].
    + cbn. split; [right; auto | repeat split].
    + destruct confirmed.
      * destruct db; cbn [negb].
        -- destruct thrown; cbn; (split; [left; repeat split; assumption | repeat split]).
        -- cbn. split; [right; auto | repeat split].
      * cbn. split; [right; auto | repeat split].
  - cbn. split; [right; auto | repeat split].
Qed.

(** ** An entry added with the proposed date, on the pages *)

(** Midnight UTC of the UTC day of [today] against the local day of
    [today]: it lies in that day exactly when the local day is the UTC
    day, east of Greenwich, or the day before it, west; it lies after
    the local midnight exactly when so and the zone is not UTC. *)
Lemma utc_midnight_in_local_day (tza today : Z) :
  - msPerDay < tza < msPerDay ->
  let e := today - TimeWithinDay today in
  let sameDay :=
    (Day (LocalTime (fixedOffset tza) today)
     =? (if 0 <=? tza then Day today else Day today - 1))%Z in
  (Periods.dayStart (fixedOffset tza) today <=? e)%Z
  && (e <? Periods.dayStart (fixedOffset tza) today + msPerDay)%Z
  = sameDay
  /\ (Periods.dayStart (fixedOffset tza) today <? e)%Z = negb (tza =? 0)%Z && sameDay.
Proof.
  intros Htza e sameDay. subst e sameDay.
  assert (Hmid : today - TimeWithinDay today = Day today * msPerDay).
  { unfold TimeWithinDay, Day, msPerDay. Z.div_mod_to_equations. lia. }
  rewrite Hmid.
  pose proof (Day_bounds today) as Hd.
  pose proof (Day_bounds (LocalTime (fixedOffset tza) today)) as Hl.
  unfold Periods.dayStart, UTC, MakeDate. fixed_offset.
  unfold LocalTime in Hl |- *. fixed_offset. unfold msPerDay in *.
  destruct (Z.leb_spec 0 tza), (Z.eqb_spec tza 0);
    cbn [negb andb];
    repeat match goal with
           | |- context [(?a <=? ?b)%Z] => destruct (Z.leb_spec a b)
           | |- context [(?a <? ?b)%Z] => destruct (Z.ltb_spec a b)
           | |- context [(?a =? ?b)%Z] => destruct (Z.eqb_spec a b)
           end;
    cbn [negb andb]; split; try reflexivity; lia.
Qed.

(** X18: an income or an expense dated midnight UTC of the UTC day of
    the present instant, as one added with the proposed date is, shows
    under the period day exactly when the local day is the UTC day,
    in a zone on or east of UTC, or the day before it, in a zone west
    of UTC. *)
Theorem added_entry_in_day_filter (tza today : Z)
    (income : IncomeEntry) (expense : ExpenseEntry) :
  - msPerDay < tza < msPerDay ->
  asDate (incomeDate income) = Some (Some (today - TimeWithinDay today)) ->
  asDate (expenseDate expense) = Some (Some (today - TimeWithinDay today)) ->
  let sameDay :=
    (Day (LocalTime (fixedOffset tza) today)
     =? (if 0 <=? tza then Day today else Day today - 1))%Z in
  fst (Incomes.filterEffect (fixedOffset tza) (Some today) "day" [income])
  = (if sameDay then [income] else [])
  /\ fst (Expenses.filterEffect (fixedOffset tza) (Some today) "day" [expense])
     = (if sameDay then [expense] else []).
Proof.
  intros Htza Hincome Hexpense sameDay.
  destruct (utc_midnight_in_local_day tza today Htza) as [Hin _].
  cbv zeta in Hin. fold sameDay in Hin.
  unfold Incomes.filterEffect, Expenses.filterEffect, filterEffect, filtered.
  cbn [String.eqb Ascii.eqb Bool.eqb fst List.filter].
  rewrite !inDay_datedWithin. unfold Spec.datedWithin.
  rewrite Hincome, Hexpense, Hin.
  destruct sameDay; split; reflexivity.
Qed.

Lemma added_entry_in_day_filter_witness :
  - msPerDay < Sample.tza < msPerDay
  /\ fst (Incomes.filterEffect Sample.zone (Some Sample.now) "day" [SampleEntries.income])
     = [SampleEntries.income].
Proof.
  assert (Htza : - msPerDay < Sample.tza < msPerDay) by (vm_compute; split; reflexivity).
  split; [exact Htza |].
  exact (proj1 (added_entry_in_day_filter Sample.tza Sample.now SampleEntries.income
                  (Sample.expense "today" (VNum 1%float) (IsDate (Some 1762128000000)))
                  Htza eq_refl eq_refl)).
Defined.

(** X19: the dashboard counts an income dated midnight UTC of the UTC
    day of the present instant as upcoming exactly when the zone is not
    UTC and the period day shows it; on UTC itself it is never
    upcoming. *)
Theorem added_income_is_upcoming (tza today : Z) (income : IncomeEntry) (st : App.State) :
  - msPerDay < tza < msPerDay ->
  Z.abs today <= maxTime - msPerDay ->
  asDate (incomeDate income) = Some (Some (today - TimeWithinDay today)) ->
  App.upcomingIncome (AppData.onIncomesSnapshot (fixedOffset tza) (Some today) [income] st)
  = Spec.arithmeticTotal
      (map (fun doc => parsedOrZero (incomeAmount doc))
         (if (tza =? 0)%Z then []
          else fst (Incomes.filterEffect (fixedOffset tza) (Some today) "day" [income]))).
Proof.
  intros Htza Hrange Hincome.
  destruct (utc_midnight_in_local_day tza today Htza) as [Hin Hafter].
  cbv zeta in Hin, Hafter.
  unfold AppData.onIncomesSnapshot.
  destruct (fold_left (AppData.incomeStep (setHours0 (fixedOffset tza) (Some today))) [income]
              (0%float, 0%float)) as [total upcoming] eqn:Hfold.
  cbn [App.totalIncome App.upcomingIncome AppData.setTotalIncome AppData.setUpcomingIncome].
  change upcoming with (snd (total, upcoming)). rewrite <- Hfold.
  rewrite (incomeStep_upcoming _ (Periods.dayStart (fixedOffset tza) today))
    by (apply setHours0_dayStart, Hrange).
  unfold Incomes.filterEffect, filterEffect, filtered.
  cbn [String.eqb Ascii.eqb Bool.eqb fst List.filter].
  rewrite inDay_datedWithin. unfold Spec.datedWithin, Periods.datedAfter.
  rewrite Hincome, Hin, Hafter.
  destruct (tza =? 0)%Z; cbn [negb andb]; reflexivity.
Qed.

Lemma added_income_is_upcoming_witness :
  Z.abs Sample.now <= maxTime - msPerDay
  /\ App.upcomingIncome
       (AppData.onIncomesSnapshot Sample.zone (Some Sample.now) [SampleEntries.income]
          AppData.initial)
     = Spec.arithmeticTotal [250.75%float].
Proof.
  assert (Hrange : Z.abs Sample.now <= maxTime - msPerDay) by (vm_compute; discriminate).
  split; [exact Hrange |].
  etransitivity;
    [apply (added_income_is_upcoming Sample.tza Sample.now SampleEntries.income
              AppData.initial);
     [vm_compute; split; reflexivity | exact Hrange | reflexivity]
    | vm_compute; reflexivity].
Defined.

(** ** Salary page *)

Section FalsyNumbers.

Lemma SFcompare_refl (s : spec_float) :
  s <> S754_nan -> SFcompare s s = Some Eq.
Proof.
  destruct s as [[|]|[|]| |[|] m e]; intros H; try reflexivity; try congruence;
    cbn [SFcompare]; rewrite Z.compare_refl, Pcompare_refl; reflexivity.
Qed.

Lemma is_nan_Prim2SF (x : number) :
  PrimFloat.is_nan x = true -> Prim2SF x = S754_nan.
Proof.
  unfold PrimFloat.is_nan. rewrite FloatAxioms.eqb_spec. unfold SFeqb. intros H.
  destruct (Prim2SF x) as [s|s| |s m e] eqn:Hx; [| |reflexivity|];
    rewrite SFcompare_refl in H by discriminate; discriminate H.
Qed.

Lemma is_zero_Prim2SF (x : number) :
  PrimFloat.is_zero x = true -> exists s, Prim2SF x = S754_zero s.
Proof.
  unfold PrimFloat.is_zero. rewrite FloatAxioms.eqb_spec. unfold SFeqb.
  change (Prim2SF PrimFloat.zero) with (S754_zero false).
  destruct (Prim2SF x) as [s|[|]| |[|] m e]; cbn; intros H;
    try discriminate H. now exists s.
Qed.

(** A number that [||] takes for false reads as 0. *)
Lemma parsedOrZero_falsy (x : number) :
  PrimFloat.is_nan x || PrimFloat.is_zero x = true -> parsedOrZero (VNum x) = 0%float.
Proof.
  intros H. apply orb_true_iff in H as [H|H].
  - apply is_nan_Prim2SF in H.
    unfold parsedOrZero, parseFloat_String, ToString, Number_toString. rewrite H.
    vm_compute. reflexivity.
  - apply is_zero_Prim2SF in H as [s H].
    unfold parsedOrZero, parseFloat_String, ToString, Number_toString. rewrite H.
    vm_compute. reflexivity.
Qed.

(** The form holds [v || ''] for the field [v] of the document; the two
    read as the same amount. *)
Lemma parsedOrZero_value_or_empty (v : value) :
  parsedOrZero (value_or_empty v) = parsedOrZero v.
Proof.
  destruct v as [x|s|]; cbn [value_or_empty].
  - destruct (PrimFloat.is_nan x || PrimFloat.is_zero x) eqn:H; [| reflexivity].
    rewrite (parsedOrZero_falsy x H). vm_compute. reflexivity.
  - destruct (String.eqb_spec s "") as [->|]; reflexivity.
  - vm_compute. reflexivity.
Qed.

Lemma calculatedMonthlyIncome_default (parsedSalary : number) (f : string) :
  Salary.calculatedMonthlyIncome parsedSalary (string_or f "Monthly")
  = Salary.calculatedMonthlyIncome parsedSalary f.
Proof.
  unfold string_or. destruct (String.eqb_spec f "") as [->|]; reflexivity.
Qed.

Lemma workdaysInMonth_default (d : string) :
  Salary.workdaysInMonth (string_or d "2") = Salary.workdaysInMonth d.
Proof.
  unfold string_or. destruct (String.eqb_spec d "") as [->|]; reflexivity.
Qed.

End FalsyNumbers.

(** X20: the three figures of the salary page are those of the form as
    it stands, after every snapshot of an existing salary document,
    whether it fills the form or not, after a snapshot without a
    document that clears the form, and after every save of a
    signed-in user. *)
Theorem salary_figures_follow_form :
  (forall data st,
     SalaryPage.figures (SalaryPage.onSnapshot (Some data) st)
     = SalaryForm.figuresOfForm (SalaryPage.onSnapshot (Some data) st))
  /\ (forall st,
        SalaryPage.isActivelyEditing st = false ->
        SalaryPage.figures (SalaryPage.onSnapshot None st)
        = SalaryForm.figuresOfForm (SalaryPage.onSnapshot None st))
  /\ (forall thrown st,
        let saved := SalaryPage.state (SalaryPage.handleCalculateAndSave true thrown st) in
        SalaryPage.figures saved = SalaryForm.figuresOfForm saved).
Proof.
  split; [| split].
  - intros [dSalary dFrequency dPayday dDayOff dSss dPhil dPag dTax dLoans dVol dUpdated] st.
    unfold SalaryPage.onSnapshot, SalaryForm.figuresOfForm.
    destruct (SalaryPage.isActivelyEditing st); cbn [negb].
    + reflexivity.
    + cbn -[Salary.calculateSalary value_or_empty string_or].
      unfold Salary.calculateSalary.
      rewrite !parsedOrZero_value_or_empty, calculatedMonthlyIncome_default,
        workdaysInMonth_default.
      reflexivity.
  - intros st Hedit. unfold SalaryPage.onSnapshot, SalaryForm.figuresOfForm.
    rewrite Hedit. vm_compute. reflexivity.
  - intros thrown st. destruct thrown; reflexivity.
Qed.

Lemma onSnapshot_while_editing (docSnap : option SalaryDetails) (st : SalaryPage.State) :
  SalaryPage.isActivelyEditing st = true ->
  SalaryForm.formOf (SalaryPage.onSnapshot docSnap st) = SalaryForm.formOf st
  /\ SalaryPage.isActivelyEditing (SalaryPage.onSnapshot docSnap st) = true.
Proof.
  intros Hedit. unfold SalaryPage.onSnapshot. rewrite Hedit.
  destruct docSnap as [[]|]; cbn [negb]; split; try reflexivity; exact Hedit.
Qed.

(** X21: once the user has touched the salary form, no snapshot of the
    salary document, with or without a document, changes a field of
    the form or ends the editing, however many snapshots come. *)
Theorem salary_editing_protects_form
    (docs : list (option SalaryDetails)) (st : SalaryPage.State) :
  SalaryPage.isActivelyEditing st = true ->
  SalaryForm.formOf (SalaryForm.snapshots docs st) = SalaryForm.formOf st
  /\ SalaryPage.isActivelyEditing (SalaryForm.snapshots docs st) = true.
Proof.
  revert st. induction docs as [|docSnap docs IH]; intros st Hedit.
  - split; [reflexivity | exact Hedit].
  - destruct (onSnapshot_while_editing docSnap st Hedit) as [Hform Hstill].
    destruct (IH (SalaryPage.onSnapshot docSnap st) Hstill) as [Hform' Hstill'].
    split; [| exact Hstill'].
    etransitivity; [exact Hform' | exact Hform].
Qed.

Lemma salary_editing_protects_form_witness :
  SalaryPage.salary
    (SalaryForm.snapshots [Some Sample.salaryDetails; None]
       (SalaryPage.handleInputChange SalaryPage.setSalary (VStr "5000")
          SalaryPage.initial))
  = VStr "5000".
Proof.
  pose proof (salary_editing_protects_form [Some Sample.salaryDetails; None]
                (SalaryPage.handleInputChange SalaryPage.setSalary (VStr "5000")
                   SalaryPage.initial) eq_refl) as [Hform _].
  exact (f_equal (fun form => fst (fst (fst (fst form)))) Hform).
Defined.

(** X22: a save of the salary form writes numbers that are never NaN;
    the figures the page then shows are those of the document written:
    its monthly income by its frequency and the sum of its deductions.
    The save ends the editing exactly when the write did not throw, and
    it never changes a field of the form. *)
Theorem salary_save_writes_numbers (signedIn : bool) (thrown : Thrown)
    (st : SalaryPage.State) :
  let r := SalaryPage.handleCalculateAndSave signedIn thrown st in
  match SalaryPage.setDocCall r with
  | Some data =>
      signedIn = true
      /\ Forall (fun x => isNaN x = false)
           [SalaryPage.data_salary data; SalaryPage.data_sss data;
            SalaryPage.data_philhealth data; SalaryPage.data_pagibig data;
            SalaryPage.data_tax data; SalaryPage.data_loans data;
            SalaryPage.data_voluntary data]
      /\ Salary.monthlyIncome (SalaryPage.figures (SalaryPage.state r))
         = Salary.calculatedMonthlyIncome (SalaryPage.data_salary data)
             (SalaryPage.data_frequency data)
      /\ Salary.totalDeductions (SalaryPage.figures (SalaryPage.state r))
         = (SalaryPage.data_sss data + SalaryPage.data_philhealth data
            + SalaryPage.data_pagibig data + SalaryPage.data_tax data
            + SalaryPage.data_loans data + SalaryPage.data_voluntary data)%float
  | None => signedIn = false
  end
  /\ SalaryForm.formOf (SalaryPage.state r) = SalaryForm.formOf st
  /\ SalaryPage.isActivelyEditing (SalaryPage.state r)
     = match SalaryPage.setDocCall r, thrown with
       | Some _, NoThrow => false
       | _, _ => SalaryPage.isActivelyEditing st
       end.
Proof.
  assert (Hnan : forall v, isNaN (parsedOrZero v) = false).
  { intros v. unfold parsedOrZero, or_zero, isNaN.
    destruct (PrimFloat.is_nan (parseFloat_String v)) eqn:Hn; cbn [orb];
      [reflexivity |].
    destruct (PrimFloat.is_zero (parseFloat_String v)); [reflexivity | exact Hn]. }
  unfold SalaryPage.handleCalculateAndSave.
  destruct signedIn; cbn [negb]; [| repeat split].
  destruct thrown; cbn -[parsedOrZero]; repeat split;
    repeat (constructor; [apply Hnan |]); constructor.
Qed.

(** ** The forecast without a salary *)

Section FlatForecast.

(** Adding zero leaves a number as it is, up to the sign of a zero. *)
Lemma add_zero_r (x : number) :
  match Prim2SF x with
  | S754_zero _ => Prim2SF (x + 0)%float = S754_zero false
  | _ => (x + 0)%float = x
  end.
Proof.
  pose proof (add_spec x 0%float) as H.
  change (Prim2SF 0%float) with (S754_zero false) in H. unfold SF64add in H.
  destruct (Prim2SF x) as [[|]|[|]| |s m e] eqn:Hx; cbn [SFadd] in H;
    try exact H; apply Prim2SF_inj; congruence.
Qed.

Lemma toFixed2_add_zero (x : number) : toFixed2 (x + 0)%float = toFixed2 x.
Proof.
  pose proof (add_zero_r x) as H.
  destruct (Prim2SF x) as [s|s| |s m e] eqn:Hx; try (now rewrite H).
  unfold toFixed2. now rewrite H, Hx.
Qed.

Lemma toFixed2_projectedBalance_zero (balance : number) (k : nat) :
  toFixed2 (Spec.projectedBalance balance 0%float k) = toFixed2 balance.
Proof.
  induction k as [|k IH]; [reflexivity |].
  cbn [Spec.projectedBalance]. now rewrite toFixed2_add_zero.
Qed.

End FlatForecast.

(** X23: without a salary document the monthly net cash flow is 0 and
    the forecast is flat: each of its seven points is the bank balance
    rounded to two decimals. *)
Theorem forecast_flat_without_salary (st : App.State) :
  let st' := App.onSalarySnapshot None st in
  App.monthlyNetCashFlow st' = 0%float
  /\ Dashboard.forecast (App.totalBankBalance st') (App.monthlyNetCashFlow st')
     = repeat (parseFloat_toFixed2 (App.totalBankBalance st)) 7.
Proof.
  cbn [App.onSalarySnapshot App.setMonthlyNetCashFlow App.setSalaryDetails
       App.monthlyNetCashFlow App.totalBankBalance].
  split; [reflexivity |].
  unfold Dashboard.forecast, Dashboard.forecastData.
  destruct (forecastStep_loop 0%float [1; 2; 3; 4; 5; 6] (App.totalBankBalance st)
              ([] ++ [ {| Dashboard.name := "Current";
                          Dashboard.Balance :=
                            parseFloat_toFixed2 (App.totalBankBalance st) |} ])%list)
    as [_ Hdata].
  etransitivity; [exact Hdata |].
  cbn [app map seq length repeat Dashboard.Balance].
  unfold parseFloat_toFixed2.
  rewrite !toFixed2_projectedBalance_zero. reflexivity.
Qed.

(** ** What the app renders *)

(** X24: the app renders a page with the data of a user only when
    Firebase is there, the first answer about the signed-in user has
    come and a user is signed in. After a change of the signed-in user
    it renders the dashboard for a user and the login page without one,
    whatever page was open; without a user the totals, the salary and
    the net cash flow the pages share are reset. *)
Theorem data_pages_need_user (firebase : bool) (currentUser db : bool)
    (st : AppShell.State) :
  AppShell.isDataPage (AppShell.renderPage firebase st)
  = firebase && negb (AppShell.loading st) && AppShell.user st
  /\ (let st' := AppShell.dataEffect db (AppShell.onAuthStateChanged currentUser st) in
      AppShell.renderPage true st'
      = (if currentUser then AppShell.DashboardPage else AppShell.AuthPage)
      /\ (if currentUser && db then AppShell.data st' = AppShell.data st
          else AppShell.data st' = AppData.initial)).
Proof.
  split.
  - unfold AppShell.renderPage.
    destruct firebase, (AppShell.loading st), (AppShell.user st); cbn [negb andb];
      try reflexivity.
    repeat match goal with
           | |- context [if ?b then _ else _] => destruct b
           end; reflexivity.
  - destruct currentUser, db; split; reflexivity.
Qed.

(** ** The lists of the pages *)

Section StableSort.

Context {A : Type}.
Variable createdAt : A -> DateField.

Lemma sort_insert_Permutation (x : A) (l : list A) :
  Permutation (sort_insert (PageLists.byCreatedAt createdAt) x l) (x :: l).
Proof.
  induction l as [|y r IH]; cbn [sort_insert]; [reflexivity |].
  destruct (0 <? PageLists.byCreatedAt createdAt x y)%Z; [| reflexivity].
  rewrite IH. apply perm_swap.
Qed.

Lemma Array_sort_Permutation (l : list A) :
  Permutation (Array_sort (PageLists.byCreatedAt createdAt) l) l.
Proof.
  induction l as [|x l IH]; [reflexivity |].
  unfold Array_sort in *. cbn [fold_right].
  rewrite sort_insert_Permutation. now apply perm_skip.
Qed.

Lemma sort_insert_sorted (x : A) (l : list A) :
  StronglySorted (Order.newestFirst createdAt) l ->
  StronglySorted (Order.newestFirst createdAt)
    (sort_insert (PageLists.byCreatedAt createdAt) x l).
Proof.
  induction 1 as [|y r Hr IH Hy]; cbn [sort_insert].
  - constructor; constructor.
  - unfold PageLists.byCreatedAt, Order.newestFirst in *.
    destruct (Z.ltb_spec 0 (PageLists.getTimeOrZero (createdAt y)
                            - PageLists.getTimeOrZero (createdAt x))) as [Hlt|Hge].
    + constructor; [exact IH |].
      apply List.Forall_forall. intros z Hz.
      apply (Permutation_in _ (sort_insert_Permutation x r)) in Hz.
      destruct Hz as [<-|Hz]; [lia |].
      exact (proj1 (List.Forall_forall _ _) Hy z Hz).
    + constructor; [constructor; assumption |].
      constructor; [lia |].
      apply List.Forall_forall. intros z Hz.
      pose proof (proj1 (List.Forall_forall _ _) Hy z Hz). cbn beta in *. lia.
Qed.

Lemma Array_sort_sorted (l : list A) :
  StronglySorted (Order.newestFirst createdAt)
    (Array_sort (PageLists.byCreatedAt createdAt) l).
Proof.
  induction l as [|x l IH]; [constructor |].
  unfold Array_sort in *. cbn [fold_right]. now apply sort_insert_sorted.
Qed.

(** The elements created at one instant keep their order. *)
Lemma sort_insert_stable (k : Z) (x : A) (l : list A) :
  StronglySorted (Order.newestFirst createdAt) l ->
  Order.createdAtInstant createdAt k (sort_insert (PageLists.byCreatedAt createdAt) x l)
  = Order.createdAtInstant createdAt k (x :: l).
Proof.
  unfold Order.createdAtInstant.
  induction 1 as [|y r Hr IH Hy]; cbn [sort_insert]; [reflexivity |].
  unfold PageLists.byCreatedAt in *.
  destruct (Z.ltb_spec 0 (PageLists.getTimeOrZero (createdAt y)
                          - PageLists.getTimeOrZero (createdAt x))) as [Hlt|Hge];
    [| reflexivity].
  cbn [List.filter] in *. rewrite IH.
  destruct (Z.eqb_spec (PageLists.getTimeOrZero (createdAt y)) k),
    (Z.eqb_spec (PageLists.getTimeOrZero (createdAt x)) k); try reflexivity; lia.
Qed.

Lemma Array_sort_stable (k : Z) (l : list A) :
  Order.createdAtInstant createdAt k (Array_sort (PageLists.byCreatedAt createdAt) l)
  = Order.createdAtInstant createdAt k l.
Proof.
  induction l as [|x l IH]; [reflexivity |].
  unfold Array_sort in *. cbn [fold_right].
  rewrite sort_insert_stable by apply Array_sort_sorted.
  unfold Order.createdAtInstant in *. cbn [List.filter]. now rewrite IH.
Qed.

End StableSort.

(** X25: the list a page keeps after a snapshot holds the documents of
    the snapshot, each once, newest first by creation time, a creation
    time that is missing or invalid counting as the epoch; documents
    created at the same instant keep the order of the snapshot. So for
    the bank accounts, the incomes and the expenses. *)
Theorem page_lists_newest_first
    (banks : list BankAccount) (incomes : list IncomeEntry) (expenses : list ExpenseEntry) :
  (Permutation (PageLists.onBanksSnapshot banks) (map PageLists.bankAccount banks)
   /\ StronglySorted (Order.newestFirst bank_createdAt) (PageLists.onBanksSnapshot banks)
   /\ forall k, Order.createdAtInstant bank_createdAt k (PageLists.onBanksSnapshot banks)
                = Order.createdAtInstant bank_createdAt k
                    (map PageLists.bankAccount banks))
  /\ (Permutation (PageLists.onIncomesSnapshot incomes)
        (map PageLists.incomeEntry incomes)
      /\ StronglySorted (Order.newestFirst income_createdAt)
           (PageLists.onIncomesSnapshot incomes)
      /\ forall k, Order.createdAtInstant income_createdAt k
                     (PageLists.onIncomesSnapshot incomes)
                   = Order.createdAtInstant income_createdAt k
                       (map PageLists.incomeEntry incomes))
  /\ (Permutation (PageLists.onExpensesSnapshot expenses)
        (map PageLists.expenseEntry expenses)
      /\ StronglySorted (Order.newestFirst expense_createdAt)
           (PageLists.onExpensesSnapshot expenses)
      /\ forall k, Order.createdAtInstant expense_createdAt k
                     (PageLists.onExpensesSnapshot expenses)
                   = Order.createdAtInstant expense_createdAt k
                       (map PageLists.expenseEntry expenses)).
Proof.
  unfold PageLists.onBanksSnapshot, PageLists.onIncomesSnapshot,
    PageLists.onExpensesSnapshot.
  repeat split;
    first [ apply Array_sort_Permutation
          | apply Array_sort_sorted
          | intros k; apply Array_sort_stable ].
Qed.

Section ShownLists.

Context {Entry : Type}.
Variable dateOf : Entry -> DateField.
Variable createdAt : Entry -> DateField.

Lemma filter_StronglySorted (p : Entry -> bool) (l : list Entry) :
  StronglySorted (Order.newestFirst createdAt) l ->
  StronglySorted (Order.newestFirst createdAt) (List.filter p l).
Proof.
  induction 1 as [|x l Hl IH Hx]; cbn [List.filter]; [constructor |].
  destruct (p x); [| exact IH].
  constructor; [exact IH |].
  apply List.Forall_forall. intros y Hy. apply filter_In in Hy as [Hy _].
  exact (proj1 (List.Forall_forall _ _) Hx y Hy).
Qed.

Lemma filtered_StronglySorted (tz : TimeZone) (now : Date) (period : string)
    (l : list Entry) :
  StronglySorted (Order.newestFirst createdAt) l ->
  StronglySorted (Order.newestFirst createdAt) (filtered dateOf tz now period l).
Proof.
  intros Hl. unfold filtered.
  repeat match goal with
         | |- context [if ?b then _ else _] => destruct b
         end; try exact Hl; now apply filter_StronglySorted.
Qed.

End ShownLists.

(** X26: whatever the period, the entries the income page and the
    expense page show are in the order of their lists, newest first by
    creation time, and the total shown is the total of their amounts
    added in that order. *)
Theorem shown_entries_newest_first (tz : TimeZone) (now : Date) (period : string)
    (incomes : list IncomeEntry) (expenses : list ExpenseEntry) :
  (let shown :=
     Incomes.filterEffect tz now period (PageLists.onIncomesSnapshot incomes) in
   StronglySorted (Order.newestFirst income_createdAt) (fst shown)
   /\ snd shown
      = Spec.arithmeticTotal (map (fun entry => parsedOrZero (incomeAmount entry))
                                (fst shown)))
  /\ (let shown :=
        Expenses.filterEffect tz now period (PageLists.onExpensesSnapshot expenses) in
      StronglySorted (Order.newestFirst expense_createdAt) (fst shown)
      /\ snd shown
         = Spec.arithmeticTotal (map (fun entry => parsedOrZero (expenseAmount entry))
                                   (fst shown))).
Proof.
  unfold Incomes.filterEffect, Expenses.filterEffect, filterEffect,
    PageLists.onIncomesSnapshot, PageLists.onExpensesSnapshot.
  cbn [fst snd].
  repeat split;
    first [ apply filtered_StronglySorted, Array_sort_sorted
          | apply total_arithmeticTotal ].
Qed.

(** The total of the income page and the total income of the dashboard
    add the same amounts in different orders, and floating-point
    addition depends on the order: three incomes of 0.1, 0.2 and 0.3,
    created in this order, total 0.6 on the page and
    0.6000000000000001 on the dashboard. *)
Example page_total_and_dashboard_total :
  let created (t : Z) (amount : number) :=
    {| income_id := "i"; businessName := "Shop"; industry := "Retail";
       incomeAmount := VNum amount; incomeDate := NoDate;
       income_createdAt := IsTimestamp (Some t) |} in
  let docs := [created 1 0.1%float; created 2 0.2%float; created 3 0.3%float] in
  snd (Incomes.filterEffect Sample.zone (Some Sample.now) "all"
         (PageLists.onIncomesSnapshot docs)) = 0.6%float
  /\ App.totalIncome
       (AppData.onIncomesSnapshot Sample.zone (Some Sample.now) docs AppData.initial)
     = 0.6000000000000001%float.
Proof. vm_compute. split; reflexivity. Qed.

(** ** The columns of the export *)

(** X27: for each kind of data the rows of [convertToCSV] are the line
    of the column names and then rows that each read back, cell by
    cell, as exactly as many cells as there are column names, whatever
    the fields hold. *)
Theorem csv_rows_match_headers (toLocaleDateString : Date -> string) (d : CsvData) :
  exists rows,
    csvRows toLocaleDateString d = String.concat "," (CsvShape.headers d) :: rows
    /\ Forall (fun row =>
                 exists cells,
                   CsvReader.readLine row = Some cells
                   /\ length cells = length (CsvShape.headers d))
         rows.
Proof.
  assert (Hrows : forall {A : Type} (line : A -> list value) (n : nat) (data : list A),
             (forall item, length (line item) = n) ->
             Forall (fun row =>
                       exists cells,
                         CsvReader.readLine row = Some cells /\ length cells = n)
               (map (fun item => csvLine (line item)) data)).
  { intros A line n data Hn. apply List.Forall_forall. intros row Hin.
    apply in_map_iff in Hin as (item & <- & _).
    exists (map ToString (line item)). split; [apply readLine_csvLine |].
    now rewrite length_map. }
  destruct d as [data|data|[salaryData|]]; cbn [csvRows CsvShape.headers app].
  - rewrite (fold_left_push (fun item => csvLine (expenseRow toLocaleDateString item))).
    eexists. split; [reflexivity |]. now apply Hrows.
  - rewrite (fold_left_push (fun item => csvLine (incomeRow toLocaleDateString item))).
    eexists. split; [reflexivity |]. now apply Hrows.
  - eexists. split; [reflexivity |].
    exact (Hrows _ (salaryRow toLocaleDateString) 11%nat [salaryData]
             (fun _ => eq_refl)).
  - exists []. split; [reflexivity | constructor].
Qed.

(** ** The payday of a monthly salary *)

(** X28: for a monthly salary the payday is chosen among the days 1 to
    31, each labelled with its English ordinal: 1st, 2nd, 3rd, 4th, ...,
    11th, 12th, 13th, ..., 21st, 22nd, 23rd, ..., 31st. *)
Theorem payday_labels_are_ordinals :
  exists options,
    PaydayInput.renderPaydayInput "Monthly"
    = PaydayInput.Select (("", "Select Day") :: options)
    /\ map fst options = map digits_of PaydayInput.days
    /\ (forall day, In day PaydayInput.days <-> 1 <= day <= 31)
    /\ (forall day, 1 <= day <= 31 ->
          In (digits_of day, digits_of day ++ English.ordinalSuffix day) options).
Proof.
  eexists. split; [reflexivity |].
  assert (Hdays : forall day, In day PaydayInput.days <-> 1 <= day <= 31).
  { intros day. unfold PaydayInput.days. rewrite in_map_iff. split.
    - intros (i & <- & Hi). apply in_seq in Hi. lia.
    - intros H. exists (Z.to_nat (day - 1)). split; [lia |]. apply in_seq. lia. }
  split; [now rewrite map_map |].
  split; [exact Hdays |].
  intros day Hday. apply in_map_iff. exists day. split; [| now apply Hdays].
  f_equal. f_equal.
  assert (Hcases : exists n : nat, (n < 31)%nat /\ day = Z.of_nat n + 1).
  { exists (Z.to_nat (day - 1)). lia. }
  destruct Hcases as (n & Hn & ->).
  do 31 (destruct n as [|n]; [reflexivity |]). lia.
Qed.
